(** * Kite trading-analysis UI: the analysis transform, the token check,
      the market store and the Fibonacci proximity classification

    The TypeScript sources embedded here are
    - [services/api.ts]      ([analysisAPI.getComprehensiveAnalysis],
                              [tokenUtils.isTokenExpired]),
    - the market store       ([useMarketStore.getAnalysis]),
    - the analysis page      (the Fibonacci proximity column).

    The code runs on untyped JSON from the backend, so the embedding is over
    a model of JavaScript values: numbers, strings of UTF-16 code units,
    arrays and objects, with the coercions the code relies on ([||],
    optional chaining, [Math.abs], [parseFloat], [*], [<]). *)

From Stdlib Require Import ZArith NArith QArith Qabs Qround.
From Stdlib Require Import String Ascii List Bool Lia Lqa.
Import ListNotations.

Close Scope Q_scope.
Set Warnings "-register-all".

(* ================================================================== *)
(** ** JavaScript strings *)

(** A JavaScript string is a sequence of 16-bit code units. *)
Definition jstring := list N.

Fixpoint js (s : string) : jstring :=
  match s with
  | EmptyString => []
  | String c r => N_of_ascii c :: js r
  end.

Definition ch (c : ascii) : N := N_of_ascii c.

Fixpoint jstring_eqb (a b : jstring) : bool :=
  match a, b with
  | [], [] => true
  | x :: a', y :: b' => N.eqb x y && jstring_eqb a' b'
  | _, _ => false
  end.

(** [s.split(sep)] for a one-character separator: the pieces between the
    occurrences of [sep]; never empty. *)
Fixpoint split (sep : N) (s : jstring) : list jstring :=
  match s with
  | [] => [[]]
  | c :: r =>
      if N.eqb c sep then [] :: split sep r
      else match split sep r with
           | [] => [[c]]
           | p :: ps => (c :: p) :: ps
           end
  end.

(* ================================================================== *)
(** ** JavaScript numbers

    A Number is an IEEE-754 binary64. It is modelled by the rational it
    denotes, plus the two infinities and NaN; arithmetic and the conversion
    from decimal text round to the nearest binary64 (ties to even,
    overflow to infinity). The sign of zero is not kept: nothing in the
    embedded code can observe it. *)

Inductive JsNum : Type :=
| Fin (q : Q)
| PInf
| NInf
| NaN.

Definition pow2 (e : Z) : Q :=
  if (0 <=? e)%Z then inject_Z (2 ^ e) else Qinv (inject_Z (2 ^ (- e))).

(** floor(log2 a) for a > 0 *)
Definition floor_log2 (a : Q) : Z :=
  let e := (Z.log2 (Qnum a) - Z.log2 (Z.pos (Qden a)))%Z in
  if Qle_bool (pow2 e) a then e else (e - 1)%Z.

(** nearest integer to x >= 0, ties to even *)
Definition round_half_even (x : Q) : Z :=
  let f := Qfloor x in
  match Qcompare (x - inject_Z f) (1 # 2) with
  | Lt => f
  | Gt => (f + 1)%Z
  | Eq => if Z.even f then f else (f + 1)%Z
  end.

Definition round64 (q : Q) : JsNum :=
  match Qnum q with
  | Z0 => Fin 0
  | _ =>
      let a := Qabs q in
      let e := Z.max (floor_log2 a) (-1022) in
      let ulp := pow2 (e - 52) in
      let m := round_half_even (a / ulp) in
      let r := Qred (inject_Z m * ulp) in
      if Qle_bool (pow2 1024) r
      then (if Qle_bool 0 q then PInf else NInf)
      else Fin (if Qle_bool 0 q then r else Qopp r)
  end.

Definition num_of_Z (z : Z) : JsNum := Fin (inject_Z z).

Definition is_zero (q : Q) : bool := Qeq_bool q 0.
Definition is_neg (q : Q) : bool := negb (Qle_bool 0 q).

(** [a * b] *)
Definition mul (a b : JsNum) : JsNum :=
  match a, b with
  | NaN, _ | _, NaN => NaN
  | Fin x, Fin y => round64 (x * y)
  | Fin x, PInf | PInf, Fin x =>
      if is_zero x then NaN else if is_neg x then NInf else PInf
  | Fin x, NInf | NInf, Fin x =>
      if is_zero x then NaN else if is_neg x then PInf else NInf
  | PInf, PInf | NInf, NInf => PInf
  | PInf, NInf | NInf, PInf => NInf
  end.

(** [a < b] on Numbers: false as soon as one side is NaN *)
Definition lt (a b : JsNum) : bool :=
  match a, b with
  | NaN, _ | _, NaN => false
  | Fin x, Fin y => negb (Qle_bool y x)
  | NInf, NInf => false
  | NInf, _ => true
  | _, NInf => false
  | PInf, _ => false
  | Fin _, PInf => true
  end.

(** [Math.abs] on a Number *)
Definition abs (a : JsNum) : JsNum :=
  match a with
  | Fin x => Fin (Qabs x)
  | PInf | NInf => PInf
  | NaN => NaN
  end.

(* ================================================================== *)
(** ** JavaScript values, as they come out of [JSON.parse] *)

Inductive JsVal : Type :=
| JUndefined
| JNull
| JBool (b : bool)
| JNum (n : JsNum)
| JStr (s : jstring)
| JArr (items : list JsVal)
| JObj (props : list (jstring * JsVal)).

(** Thrown values: every error this code can see has a [message]. *)
Record JsError : Type := mkError { err_name : jstring; message : jstring }.

(** Completion of an evaluation: a value, or a thrown error. *)
Inductive completion (A : Type) : Type :=
| Normal (a : A)
| Throw (e : JsError).
Arguments Normal {A} a.
Arguments Throw {A} e.

Definition bind {A B} (c : completion A) (k : A -> completion B) : completion B :=
  match c with
  | Normal a => k a
  | Throw e => Throw e
  end.

Declare Scope js_scope.
Delimit Scope js_scope with js.
Notation "x <- c ;; k" := (bind c (fun x => k))
  (at level 61, c at next level, right associativity) : js_scope.

Fixpoint mapM {A B} (f : A -> completion B) (l : list A) : completion (list B) :=
  match l with
  | [] => Normal []
  | x :: r =>
      match f x with
      | Throw e => Throw e
      | Normal y =>
          match mapM f r with
          | Throw e => Throw e
          | Normal ys => Normal (y :: ys)
          end
      end
  end.

(** ToBoolean *)
Definition truthy (v : JsVal) : bool :=
  match v with
  | JUndefined | JNull => false
  | JBool b => b
  | JNum (Fin q) => negb (is_zero q)
  | JNum NaN => false
  | JNum _ => true
  | JStr s => match s with [] => false | _ => true end
  | JArr _ | JObj _ => true
  end.

(** [a || b] *)
Definition js_or (a b : JsVal) : JsVal := if truthy a then a else b.
Infix "||" := js_or (at level 50, left associativity) : js_scope.

Fixpoint lookup (k : jstring) (props : list (jstring * JsVal)) : JsVal :=
  match props with
  | [] => JUndefined
  | (k', v) :: r => if jstring_eqb k k' then v else lookup k r
  end.

Definition nullish (v : JsVal) : bool :=
  match v with JUndefined | JNull => true | _ => false end.

(** The value of [v.k] when [v] is neither null nor undefined. The names the
    embedded code reads are plain data keys (never [length], an index or a
    method name), so a primitive or an array has no such property. *)
Definition prop (v : JsVal) (k : jstring) : JsVal :=
  match v with
  | JObj props => lookup k props
  | _ => JUndefined
  end.

Definition type_error (v : JsVal) (k : jstring) : JsError :=
  mkError (js "TypeError")
    (js "Cannot read properties of "
       ++ (match v with JNull => js "null" | _ => js "undefined" end)
       ++ js " (reading '" ++ k ++ js "')").

(** [v.k] *)
Definition get (v : JsVal) (k : jstring) : completion JsVal :=
  if nullish v then Throw (type_error v k) else Normal (prop v k).

(** [v?.k] *)
Definition opt_get (v : JsVal) (k : jstring) : JsVal :=
  if nullish v then JUndefined else prop v k.

(* ================================================================== *)
(** ** Numeric literals in strings *)

(** StrWhiteSpaceChar: WhiteSpace and LineTerminator code units *)
Definition is_js_space (c : N) : bool :=
  existsb (N.eqb c)
    [9; 10; 11; 12; 13; 32; 160; 5760; 8232; 8233; 8239; 8287; 12288; 65279]%N
  || ((8192 <=? c) && (c <=? 8202))%N.

Fixpoint trim_start (s : jstring) : jstring :=
  match s with
  | c :: r => if is_js_space c then trim_start r else s
  | [] => []
  end.

Definition trim (s : jstring) : jstring :=
  rev (trim_start (rev (trim_start s))).

Definition is_digit (c : N) : bool := ((48 <=? c) && (c <=? 57))%N.

Fixpoint take_digits (s : jstring) : list N * jstring :=
  match s with
  | c :: r =>
      if is_digit c then let (ds, r') := take_digits r in (c :: ds, r')
      else ([], s)
  | [] => ([], [])
  end.

Definition digits_value (ds : list N) : Z :=
  fold_left (fun acc d => (acc * 10 + Z.of_N (d - 48))%Z) ds 0%Z.

Definition pow10 (e : Z) : Q :=
  if (0 <=? e)%Z then inject_Z (10 ^ e) else Qinv (inject_Z (10 ^ (- e))).

(** ExponentPart, consumed only when complete *)
Definition scan_exponent (s : jstring) : Z * jstring :=
  match s with
  | c :: r =>
      if (N.eqb c (ch "e") || N.eqb c (ch "E"))%bool then
        let '(neg, r1) :=
          match r with
          | c1 :: r' =>
              if N.eqb c1 (ch "-") then (true, r')
              else if N.eqb c1 (ch "+") then (false, r')
              else (false, r)
          | [] => (false, r)
          end in
        match take_digits r1 with
        | ([], _) => (0%Z, s)
        | (ds, r2) => ((if neg then - digits_value ds else digits_value ds)%Z, r2)
        end
      else (0%Z, s)
  | [] => (0%Z, s)
  end.

Fixpoint strip_prefix (p s : jstring) : option jstring :=
  match p, s with
  | [], _ => Some s
  | a :: p', b :: s' => if N.eqb a b then strip_prefix p' s' else None
  | _ :: _, [] => None
  end.

(** The longest prefix that is a StrUnsignedDecimalLiteral, with its
    mathematical value (None for Infinity) and the rest of the string. *)
Definition scan_unsigned_decimal (s : jstring) : option (option Q * jstring) :=
  match strip_prefix (js "Infinity") s with
  | Some r => Some (None, r)
  | None =>
      let (ip, r1) := take_digits s in
      let '(fp, r2) :=
        match r1 with
        | c :: r =>
            if N.eqb c (ch ".") then
              match take_digits r, ip with
              | ([], _), [] => ([], r1)
              | (fp, r'), _ => (fp, r')
              end
            else ([], r1)
        | [] => ([], r1)
        end in
      match ip, fp with
      | [], [] => None
      | _, _ =>
          let (ex, r3) := scan_exponent r2 in
          Some (Some (Qmult (inject_Z (digits_value (ip ++ fp)))
                        (pow10 (ex - Z.of_nat (length fp)))), r3)
      end
  end.

(** The longest prefix that is a StrDecimalLiteral *)
Definition scan_decimal (s : jstring) : option (JsNum * jstring) :=
  let '(neg, r) :=
    match s with
    | c :: r' =>
        if N.eqb c (ch "-") then (true, r')
        else if N.eqb c (ch "+") then (false, r')
        else (false, s)
    | [] => (false, s)
    end in
  match scan_unsigned_decimal r with
  | None => None
  | Some (None, r') => Some (if neg then NInf else PInf, r')
  | Some (Some q, r') => Some (round64 (if neg then Qopp q else q), r')
  end.

Definition radix_digit (radix c : N) : option N :=
  let d :=
    if is_digit c then Some (c - 48)%N
    else if ((97 <=? c) && (c <=? 102))%N then Some (c - 87)%N
    else if ((65 <=? c) && (c <=? 70))%N then Some (c - 55)%N
    else None in
  match d with
  | Some v => if (v <? radix)%N then Some v else None
  | None => None
  end.

Fixpoint radix_value (radix : N) (acc : N) (s : jstring) : option N :=
  match s with
  | [] => Some acc
  | c :: r =>
      match radix_digit radix c with
      | Some d => radix_value radix (acc * radix + d)%N r
      | None => None
      end
  end.

Definition radix_literal (radix : N) (s : jstring) : JsNum :=
  match s with
  | [] => NaN
  | _ => match radix_value radix 0%N s with
         | Some n => round64 (inject_Z (Z.of_N n))
         | None => NaN
         end
  end.

(** StringToNumber: the whole trimmed string must be a numeric literal *)
Definition StringToNumber (s : jstring) : JsNum :=
  let t := trim s in
  let decimal :=
    match scan_decimal t with
    | Some (v, []) => v
    | _ => NaN
    end in
  match t with
  | [] => Fin 0
  | c0 :: c1 :: r =>
      if N.eqb c0 (ch "0") && (N.eqb c1 (ch "x") || N.eqb c1 (ch "X")) then radix_literal 16 r
      else if N.eqb c0 (ch "0") && (N.eqb c1 (ch "o") || N.eqb c1 (ch "O")) then radix_literal 8 r
      else if N.eqb c0 (ch "0") && (N.eqb c1 (ch "b") || N.eqb c1 (ch "B")) then radix_literal 2 r
      else decimal
  | _ => decimal
  end.

(** ToPrimitive. The values at hand are data: no member of an object is
    callable. An object is turned into a primitive by the [valueOf] and
    [toString] it finds, its own first and then those of [Object.prototype];
    the inherited [valueOf] gives the object back, the inherited [toString]
    gives ["[object Object]"]. So the conversion, to a Number or to a string
    alike, succeeds unless the object has a member of its own named
    [toString], which hides the inherited method and cannot be called:
    then nothing gives a primitive and a TypeError is thrown. An array is
    turned into [join(",")] of its elements, which skips null and undefined
    and converts every other element to a string, throwing where that
    throws. *)
Definition has_own (k : jstring) (props : list (jstring * JsVal)) : bool :=
  existsb (fun kv => jstring_eqb k (fst kv)) props.

Fixpoint no_primitive (v : JsVal) : bool :=
  match v with
  | JObj props => has_own (js "toString") props
  | JArr items => existsb no_primitive items
  | _ => false
  end.

Definition cannot_convert : JsError :=
  mkError (js "TypeError") (js "Cannot convert object to primitive value").

(** The Number of a value whose conversion to a primitive succeeds. An
    array or an object goes through its string: [join(",")] of an array,
    ["[object Object]"] of an object. No numeric literal holds a comma, and
    printing a Number and reading it back gives the same Number, so the
    string is not built. *)
Fixpoint number_value (v : JsVal) : JsNum :=
  match v with
  | JUndefined => NaN
  | JNull => Fin 0
  | JBool b => if b then Fin 1 else Fin 0
  | JNum n => n
  | JStr s => StringToNumber s
  | JObj _ => NaN
  | JArr [] => Fin 0
  | JArr [x] =>
      match x with
      | JUndefined | JNull => Fin 0
      | JNum n => n
      | JStr s => StringToNumber s
      | JBool _ | JObj _ => NaN
      | JArr _ => number_value x
      end
  | JArr (_ :: _ :: _) => NaN
  end.

(** ToNumber: ToPrimitive, which can throw, then the Number of the
    primitive. *)
Definition ToNumber (v : JsVal) : completion JsNum :=
  if no_primitive v then Throw cannot_convert else Normal (number_value v).

(** [Math.abs(v)] *)
Definition Math_abs (v : JsVal) : completion JsNum :=
  (n <- ToNumber v ;; Normal (abs n))%js.

(** The longest decimal prefix of the trimmed string of a value whose
    conversion to a string succeeds. The string of an array starts with the
    string of its first element, followed by a comma or by nothing. *)
Fixpoint float_value (v : JsVal) : JsNum :=
  match v with
  | JStr s => match scan_decimal (trim_start s) with
              | Some (n, _) => n
              | None => NaN
              end
  | JNum n => n
  | JUndefined | JNull | JBool _ | JObj _ => NaN
  | JArr [] => NaN
  | JArr (x :: _) => float_value x
  end.

(** [parseFloat(v)]: ToString of the argument, which can throw, then the
    prefix of the string. *)
Definition parseFloat (v : JsVal) : completion JsNum :=
  if no_primitive v then Throw cannot_convert else Normal (float_value v).

(* ================================================================== *)
(** ** [atob]: forgiving base64 decoding *)

Definition is_ascii_space (c : N) : bool :=
  existsb (N.eqb c) [9; 10; 12; 13; 32]%N.

Definition base64_value (c : N) : option N :=
  if ((65 <=? c) && (c <=? 90))%N then Some (c - 65)%N
  else if ((97 <=? c) && (c <=? 122))%N then Some (c - 71)%N
  else if ((48 <=? c) && (c <=? 57))%N then Some (c + 4)%N
  else if N.eqb c (ch "+") then Some 62%N
  else if N.eqb c (ch "/") then Some 63%N
  else None.

Fixpoint all_some {A} (l : list (option A)) : option (list A) :=
  match l with
  | [] => Some []
  | None :: _ => None
  | Some x :: r => option_map (cons x) (all_some r)
  end.

(** With a length that is a multiple of four, one or two trailing [=]
    are dropped. *)
Definition strip_padding (s : jstring) : jstring :=
  if Nat.eqb (Nat.modulo (length s) 4) 0 then
    match rev s with
    | a :: b :: r =>
        if N.eqb a (ch "=") then
          if N.eqb b (ch "=") then rev r else rev (b :: r)
        else s
    | _ => s
    end
  else s.

Fixpoint decode_sextets (l : list N) : list N :=
  match l with
  | a :: b :: c :: d :: r =>
      let n := (a * 262144 + b * 4096 + c * 64 + d)%N in
      (n / 65536)%N :: ((n / 256) mod 256)%N :: (n mod 256)%N :: decode_sextets r
  | [a; b; c] =>
      let n := ((a * 4096 + b * 64 + c) / 4)%N in
      [(n / 256)%N; (n mod 256)%N]
  | [a; b] => [((a * 64 + b) / 16)%N]
  | _ => []
  end.

Definition invalid_character : JsError :=
  mkError (js "InvalidCharacterError")
    (js "The string to be decoded is not correctly encoded.").

(** [atob(data)] *)
Definition atob (data : jstring) : completion jstring :=
  let d := strip_padding (filter (fun c => negb (is_ascii_space c)) data) in
  if Nat.eqb (Nat.modulo (length d) 4) 1 then Throw invalid_character
  else match all_some (map base64_value d) with
       | None => Throw invalid_character
       | Some sextets => Normal (decode_sextets sextets)
       end.

(* ================================================================== *)
(** ** [JSON.parse] *)

Definition is_json_space (c : N) : bool :=
  existsb (N.eqb c) [9; 10; 13; 32]%N.

Fixpoint skip_ws (s : jstring) : jstring :=
  match s with
  | c :: r => if is_json_space c then skip_ws r else s
  | [] => []
  end.

Definition simple_escape (c : N) : option N :=
  if N.eqb c 34 then Some 34%N
  else if N.eqb c 92 then Some 92%N
  else if N.eqb c (ch "/") then Some (ch "/")
  else if N.eqb c (ch "b") then Some 8%N
  else if N.eqb c (ch "f") then Some 12%N
  else if N.eqb c (ch "n") then Some 10%N
  else if N.eqb c (ch "r") then Some 13%N
  else if N.eqb c (ch "t") then Some 9%N
  else None.

(** The characters of a JSON string, after its opening quote, up to and
    including its closing quote. *)
Fixpoint parse_string_body (s : jstring) : option (jstring * jstring) :=
  match s with
  | [] => None
  | c :: r =>
      if N.eqb c 34 then Some ([], r)
      else if N.eqb c 92 then
        match r with
        | e :: r1 =>
            if N.eqb e (ch "u") then
              match r1 with
              | h1 :: h2 :: h3 :: h4 :: r2 =>
                  match radix_digit 16 h1, radix_digit 16 h2,
                        radix_digit 16 h3, radix_digit 16 h4 with
                  | Some a, Some b, Some c', Some d =>
                      match parse_string_body r2 with
                      | Some (body, rest) =>
                          Some ((a * 4096 + b * 256 + c' * 16 + d)%N :: body, rest)
                      | None => None
                      end
                  | _, _, _, _ => None
                  end
              | _ => None
              end
            else
              match simple_escape e with
              | Some x =>
                  match parse_string_body r1 with
                  | Some (body, rest) => Some (x :: body, rest)
                  | None => None
                  end
              | None => None
              end
        | [] => None
        end
      else if (c <? 32)%N then None
      else match parse_string_body r with
           | Some (body, rest) => Some (c :: body, rest)
           | None => None
           end
  end.

(** A JSON number: an optional minus, an integer part without a leading
    zero (or a lone zero), an optional fraction with at least one digit,
    an optional exponent. *)
Definition parse_number (s : jstring) : option (JsNum * jstring) :=
  let '(neg, r0) :=
    match s with
    | c :: r => if N.eqb c (ch "-") then (true, r) else (false, s)
    | [] => (false, s)
    end in
  let int_part :=
    match r0 with
    | c :: r =>
        if N.eqb c (ch "0") then Some ([c], r)
        else match take_digits r0 with
             | ([], _) => None
             | (ds, r') => Some (ds, r')
             end
    | [] => None
    end in
  match int_part with
  | None => None
  | Some (ip, r1) =>
      let frac :=
        match r1 with
        | c :: r =>
            if N.eqb c (ch ".") then
              match take_digits r with
              | ([], _) => None
              | (fp, r') => Some (fp, r')
              end
            else Some ([], r1)
        | [] => Some ([], r1)
        end in
      match frac with
      | None => None
      | Some (fp, r2) =>
          let (ex, r3) := scan_exponent r2 in
          let q := Qmult (inject_Z (digits_value (ip ++ fp)))
                     (pow10 (ex - Z.of_nat (length fp))) in
          Some (round64 (if neg then Qopp q else q), r3)
      end
  end.

(** Defining a property: a repeated key keeps its place and takes the
    later value. *)
Fixpoint set_prop (k : jstring) (v : JsVal) (props : list (jstring * JsVal))
  : list (jstring * JsVal) :=
  match props with
  | [] => [(k, v)]
  | (k', v') :: r =>
      if jstring_eqb k k' then (k', v) :: r else (k', v') :: set_prop k v r
  end.

(** Recursive descent. Every call spends one unit of fuel and every second
    call at least consumes a character, so twice the length of the text
    (and two) is enough fuel. *)
Fixpoint parse_value (fuel : nat) (s : jstring) : option (JsVal * jstring) :=
  match fuel with
  | O => None
  | S f =>
      match skip_ws s with
      | [] => None
      | c :: r =>
          if N.eqb c (ch "{") then
            match skip_ws r with
            | c1 :: r1 =>
                if N.eqb c1 (ch "}") then Some (JObj [], r1)
                else parse_members f [] (c1 :: r1)
            | [] => None
            end
          else if N.eqb c (ch "[") then
            match skip_ws r with
            | c1 :: r1 =>
                if N.eqb c1 (ch "]") then Some (JArr [], r1)
                else parse_elements f [] (c1 :: r1)
            | [] => None
            end
          else if N.eqb c 34 then
            match parse_string_body r with
            | Some (str, rest) => Some (JStr str, rest)
            | None => None
            end
          else
            match strip_prefix (js "true") (c :: r),
                  strip_prefix (js "false") (c :: r),
                  strip_prefix (js "null") (c :: r) with
            | Some rest, _, _ => Some (JBool true, rest)
            | _, Some rest, _ => Some (JBool false, rest)
            | _, _, Some rest => Some (JNull, rest)
            | None, None, None =>
                match parse_number (c :: r) with
                | Some (n, rest) => Some (JNum n, rest)
                | None => None
                end
            end
      end
  end

(** the elements of an array, after [[] or a comma *)
with parse_elements (fuel : nat) (acc : list JsVal) (s : jstring)
  : option (JsVal * jstring) :=
  match fuel with
  | O => None
  | S f =>
      match parse_value f s with
      | None => None
      | Some (v, rest) =>
          match skip_ws rest with
          | c :: r =>
              if N.eqb c (ch ",") then parse_elements f (acc ++ [v]) r
              else if N.eqb c (ch "]") then Some (JArr (acc ++ [v]), r)
              else None
          | [] => None
          end
      end
  end

(** the members of an object, after [{] or a comma *)
with parse_members (fuel : nat) (acc : list (jstring * JsVal)) (s : jstring)
  : option (JsVal * jstring) :=
  match fuel with
  | O => None
  | S f =>
      match skip_ws s with
      | c :: r =>
          if N.eqb c 34 then
            match parse_string_body r with
            | None => None
            | Some (k, rest) =>
                match skip_ws rest with
                | c1 :: r1 =>
                    if N.eqb c1 (ch ":") then
                      match parse_value f r1 with
                      | None => None
                      | Some (v, rest1) =>
                          match skip_ws rest1 with
                          | c2 :: r2 =>
                              if N.eqb c2 (ch ",") then parse_members f (set_prop k v acc) r2
                              else if N.eqb c2 (ch "}") then Some (JObj (set_prop k v acc), r2)
                              else None
                          | [] => None
                          end
                      end
                    else None
                | [] => None
                end
            end
          else None
      | [] => None
      end
  end.

Definition syntax_error : JsError :=
  mkError (js "SyntaxError") (js "Unexpected token in JSON").

(** [JSON.parse(text)] *)
Definition JSON_parse (text : jstring) : completion JsVal :=
  match parse_value (2 * length text + 2) text with
  | Some (v, rest) =>
      match skip_ws rest with
      | [] => Normal v
      | _ => Throw syntax_error
      end
  | None => Throw syntax_error
  end.

(* ================================================================== *)
(** ** The clock: [Date.now()] and [new Date().toISOString()]

    The clock is read as a time value, the milliseconds since the epoch. *)

Definition msPerDay : Z := 86400000.

(** Year, month and day of a day number (days since 1970-01-01) in the
    proleptic Gregorian calendar. *)
Definition civil_from_days (days : Z) : Z * Z * Z :=
  let z := (days + 719468)%Z in
  let era := (z / 146097)%Z in
  let doe := (z - era * 146097)%Z in
  let yoe := ((doe - doe / 1460 + doe / 36524 - doe / 146096) / 365)%Z in
  let doy := (doe - (365 * yoe + yoe / 4 - yoe / 100))%Z in
  let mp := ((5 * doy + 2) / 153)%Z in
  let d := (doy - (153 * mp + 2) / 5 + 1)%Z in
  let m := (if mp <? 10 then mp + 3 else mp - 9)%Z in
  let y := (yoe + era * 400 + (if m <=? 2 then 1 else 0))%Z in
  (y, m, d).

(** the [width] low decimal digits of [n], most significant first *)
Fixpoint pad (width : nat) (n : Z) : jstring :=
  match width with
  | O => []
  | S w => pad w (n / 10) ++ [(48 + Z.to_N (n mod 10))%N]
  end.

Definition iso_year (y : Z) : jstring :=
  if ((0 <=? y) && (y <=? 9999))%Z then pad 4 y
  else (if (y <? 0)%Z then js "-" else js "+") ++ pad 6 (Z.abs y).

Definition iso_date (days : Z) : jstring :=
  let '(y, m, d) := civil_from_days days in
  iso_year y ++ js "-" ++ pad 2 m ++ js "-" ++ pad 2 d.

Definition iso_time (ms : Z) : jstring :=
  pad 2 (ms / 3600000) ++ js ":" ++ pad 2 ((ms / 60000) mod 60) ++ js ":"
    ++ pad 2 ((ms / 1000) mod 60) ++ js "." ++ pad 3 (ms mod 1000).

(** [new Date(tv).toISOString()] *)
Definition toISOString (tv : Z) : jstring :=
  iso_date (tv / msPerDay) ++ js "T" ++ iso_time (tv mod msPerDay) ++ js "Z".

(** [Date.now()] *)
Definition Date_now (now : Z) : JsNum := num_of_Z now.

(* ================================================================== *)
(** ** [services/api.ts]: the result types the transform fills *)

Record FibonacciLevel : Type := {
  level : JsNum;
  price : JsVal;
  distance_percent : JsNum
}.

Record ChartPattern : Type := {
  pattern_id : JsVal;
  pattern_name : JsVal;
  pattern_type : JsVal;
  reliability_score : JsVal;
  expected_direction : JsVal
}.

Record AnalysisSummary : Type := {
  stock_symbol : jstring;
  analysis_date : jstring;
  current_price : JsVal;
  analysis_focus : JsVal
}.

Record FibonacciRetracements : Type := {
  retracement_levels : list FibonacciLevel
}.

Record FibonacciExtensions : Type := {
  extension_levels : list FibonacciLevel
}.

Record FibonacciAnalysis : Type := {
  current_fibonacci_analysis : JsVal;
  fibonacci_retracements : FibonacciRetracements;
  fibonacci_extensions : FibonacciExtensions;
  closest_levels : list FibonacciLevel;
  current_level_context : jstring
}.

Record TradingRecommendation : Type := {
  trading_bias : jstring;
  immediate_actions : list JsVal;
  position_recommendations : JsVal;
  fibonacci_key_levels : list JsVal
}.

Record ComprehensiveAnalysis : Type := {
  analysis_summary : AnalysisSummary;
  fibonacci_analysis : FibonacciAnalysis;
  active_patterns : list ChartPattern;
  volume_analysis : JsVal;
  current_market_structure : JsVal;
  trading_opportunities : JsVal;
  mathematical_analysis : JsVal;
  mathematical_indicators : JsVal;
  immediate_trading_plan : TradingRecommendation;
  risk_management : JsVal
}.

(* ================================================================== *)
(** ** [analysisAPI.getComprehensiveAnalysis] *)

Definition zero : JsVal := JNum (Fin 0).
Definition str (s : string) : JsVal := JStr (js s).

Definition not_a_function : JsError :=
  mkError (js "TypeError") (js "(intermediate value).map is not a function").

(** [v.map(f)] on a value that is not null or undefined: only an array
    has a [map] method; on anything else the call throws. *)
Definition array_map {B} (v : JsVal) (f : JsVal -> completion B)
  : completion (list B) :=
  match v with
  | JArr items => mapM f items
  | _ => Throw not_a_function
  end.

(** the body posted to [/analysis/${symbol}] *)
Definition request_body : JsVal :=
  JObj [ (js "analysis_type", str "comprehensive");
         (js "timeframe", str "day");
         (js "analysis_window", JNum (Fin 60));
         (js "include_patterns", JBool true);
         (js "include_volume", JBool true);
         (js "include_fibonacci", JBool true);
         (js "cache_duration", JNum (Fin 300)) ].

(** the callback mapped over [key_levels] *)
Definition retracement_level (lv : JsVal) : completion FibonacciLevel :=
  (r <- get lv (js "ratio") ;;
   l <- parseFloat (r || zero) ;;
   p <- get lv (js "price") ;;
   d <- get lv (js "distance_percent") ;;
   a <- Math_abs (d || zero) ;;
   Normal {| level := l;
             price := p || zero;
             distance_percent := a |})%js.

(** the callback mapped over [chart_patterns] *)
Definition active_pattern (pattern : JsVal) : completion ChartPattern :=
  (id <- get pattern (js "pattern_id") ;;
   nm <- get pattern (js "pattern_name") ;;
   ty <- get pattern (js "pattern_type") ;;
   sc <- get pattern (js "reliability_score") ;;
   bi <- get pattern (js "bias") ;;
   Normal {| pattern_id := id || str "UNKNOWN";
             pattern_name := nm || str "Unknown Pattern";
             pattern_type := ty || str "General";
             reliability_score := sc || zero;
             expected_direction := bi || str "Neutral" |})%js.

Definition swing_placeholder : JsVal :=
  JObj [ (js "price", zero); (js "date", JStr []) ].

Definition volume_analysis_placeholder : JsVal :=
  JObj [ (js "volume_profile",
          JObj [ (js "total_volume", zero);
                 (js "average_daily_volume", zero);
                 (js "volume_weighted_average_price", zero);
                 (js "significant_volume_levels", JArr []) ]);
         (js "volume_price_confirmation",
          JObj [ (js "recent_confirmations", JArr []);
                 (js "confirmation_rate", JStr []);
                 (js "overall_assessment", JStr []) ]);
         (js "recent_volume_anomalies",
          JObj [ (js "spikes", JArr []);
                 (js "analysis_summary", JStr []) ]) ].

Definition momentum_placeholder : JsVal :=
  let flat := JObj [ (js "direction", str "Neutral");
                     (js "change", zero);
                     (js "change_pct", zero) ] in
  JObj [ (js "1_day", flat); (js "5_day", flat); (js "20_day", flat) ].

(** The transform applied to [response.data]; [now] is the clock reading
    taken by [new Date()]. *)
Definition transform (now : Z) (symbol : jstring) (backendData : JsVal)
  : completion ComprehensiveAnalysis :=
  (cd0 <- get backendData (js "comprehensive_data") ;;
   let comprehensiveData := cd0 || JObj [] in
   let summary := prop comprehensiveData (js "analysis_summary") in
   let trend :=
     opt_get (prop comprehensiveData (js "current_market_structure")) (js "trend") in
   levels <- array_map
               (opt_get (prop comprehensiveData (js "fibonacci_analysis")) (js "key_levels")
                  || JArr [])
               retracement_level ;;
   patterns <- array_map
                 (prop comprehensiveData (js "chart_patterns") || JArr [])
                 active_pattern ;;
   Normal
     {| analysis_summary :=
          {| stock_symbol := symbol;
             analysis_date := hd [] (split (ch "T") (toISOString now));
             current_price := opt_get summary (js "current_price") || zero;
             analysis_focus :=
               opt_get summary (js "analysis_focus") || str "Mathematical Analysis" |};
        fibonacci_analysis :=
          {| current_fibonacci_analysis :=
               JObj [ (js "current_price",
                       opt_get summary (js "current_price") || zero);
                      (js "trend_direction", str "Mathematical Analysis");
                      (js "most_recent_swing_high", swing_placeholder);
                      (js "most_recent_swing_low", swing_placeholder) ];
             fibonacci_retracements := {| retracement_levels := levels |};
             fibonacci_extensions := {| extension_levels := [] |};
             closest_levels := [];
             current_level_context := [] |};
        active_patterns := patterns;
        volume_analysis := volume_analysis_placeholder;
        current_market_structure :=
          JObj [ (js "current_trend",
                  JObj [ (js "direction",
                          opt_get trend (js "direction") || str "Neutral");
                         (js "strength",
                          opt_get trend (js "strength") || str "Medium");
                         (js "duration_days", zero);
                         (js "key_levels", JArr []) ]);
                 (js "momentum", momentum_placeholder);
                 (js "volatility",
                  JObj [ (js "current_volatility", zero);
                         (js "volatility_percentile", zero);
                         (js "volatility_assessment", str "Normal") ]) ];
        trading_opportunities :=
          prop backendData (js "trading_opportunities") || JArr [];
        mathematical_analysis :=
          prop backendData (js "mathematical_analysis") || JObj [];
        mathematical_indicators :=
          prop backendData (js "mathematical_indicators") || JObj [];
        immediate_trading_plan :=
          {| trading_bias := js "Neutral";
             immediate_actions := [];
             position_recommendations :=
               JObj [ (js "current_stance", str "Hold");
                      (js "position_sizing", str "Normal");
                      (js "hold_period", str "Medium-term") ];
             fibonacci_key_levels := [] |};
        risk_management := prop backendData (js "risk_management") || JObj [] |})%js.

(** [api.post(url, body)], giving [response.data] or rejecting *)
Definition Post : Type := jstring -> JsVal -> completion JsVal.

Definition getComprehensiveAnalysis (post : Post) (now : Z) (symbol : jstring)
  : completion ComprehensiveAnalysis :=
  (backendData <- post (js "/analysis/" ++ symbol) request_body ;;
   transform now symbol backendData)%js.

(* ================================================================== *)
(** ** [tokenUtils.isTokenExpired] *)

(** [token.split('.')[1]] is a string or undefined; [atob] takes the
    string of its argument. *)
Definition payload_segment (token : jstring) : jstring :=
  match nth_error (split (ch ".") token) 1 with
  | Some seg => seg
  | None => js "undefined"
  end.

Definition isTokenExpired (now : Z) (token : jstring) : bool :=
  match (decoded <- atob (payload_segment token) ;;
         payload <- JSON_parse decoded ;;
         exp <- get payload (js "exp") ;;
         n <- ToNumber exp ;;
         Normal (lt (mul n (Fin 1000)) (Date_now now)))%js with
  | Normal expired => expired
  | Throw _ => true
  end.

(* ================================================================== *)
(** ** The market store: [useMarketStore.getAnalysis]

    The fields kept are the ones [set] can reach from [getAnalysis] and
    their siblings; the stock lists and the polling handles are left out. *)

Record MarketStore : Type := {
  selectedStock : option JsVal;
  currentQuote : option JsVal;
  analysis : option ComprehensiveAnalysis;
  isLoadingQuote : bool;
  isLoadingAnalysis : bool;
  isLoadingSearch : bool;
  isLoadingWatchlist : bool;
  isLoadingMarketData : bool;
  quoteError : option jstring;
  analysisError : option jstring;
  searchError : option jstring;
  watchlistError : option jstring;
  marketDataError : option jstring
}.

Definition initial_store : MarketStore :=
  {| selectedStock := None; currentQuote := None; analysis := None;
     isLoadingQuote := false; isLoadingAnalysis := false;
     isLoadingSearch := false; isLoadingWatchlist := false;
     isLoadingMarketData := false;
     quoteError := None; analysisError := None; searchError := None;
     watchlistError := None; marketDataError := None |}.

Definition set_analysis (a : option ComprehensiveAnalysis) (st : MarketStore)
  : MarketStore :=
  {| selectedStock := selectedStock st; currentQuote := currentQuote st;
     analysis := a;
     isLoadingQuote := isLoadingQuote st;
     isLoadingAnalysis := isLoadingAnalysis st;
     isLoadingSearch := isLoadingSearch st;
     isLoadingWatchlist := isLoadingWatchlist st;
     isLoadingMarketData := isLoadingMarketData st;
     quoteError := quoteError st; analysisError := analysisError st;
     searchError := searchError st; watchlistError := watchlistError st;
     marketDataError := marketDataError st |}.

Definition set_isLoadingAnalysis (b : bool) (st : MarketStore) : MarketStore :=
  {| selectedStock := selectedStock st; currentQuote := currentQuote st;
     analysis := analysis st;
     isLoadingQuote := isLoadingQuote st;
     isLoadingAnalysis := b;
     isLoadingSearch := isLoadingSearch st;
     isLoadingWatchlist := isLoadingWatchlist st;
     isLoadingMarketData := isLoadingMarketData st;
     quoteError := quoteError st; analysisError := analysisError st;
     searchError := searchError st; watchlistError := watchlistError st;
     marketDataError := marketDataError st |}.

Definition set_analysisError (e : option jstring) (st : MarketStore) : MarketStore :=
  {| selectedStock := selectedStock st; currentQuote := currentQuote st;
     analysis := analysis st;
     isLoadingQuote := isLoadingQuote st;
     isLoadingAnalysis := isLoadingAnalysis st;
     isLoadingSearch := isLoadingSearch st;
     isLoadingWatchlist := isLoadingWatchlist st;
     isLoadingMarketData := isLoadingMarketData st;
     quoteError := quoteError st; analysisError := e;
     searchError := searchError st; watchlistError := watchlistError st;
     marketDataError := marketDataError st |}.

(** [error.message || fallback] *)
Definition message_or (e : JsError) (fallback : jstring) : jstring :=
  match message e with
  | [] => fallback
  | m => m
  end.

(** One run of [getAnalysis(symbol)] to its end, with no other store
    update in between. *)
Definition getAnalysis (post : Post) (now : Z) (symbol : jstring)
    (st : MarketStore) : MarketStore :=
  let st1 := set_analysisError None (set_isLoadingAnalysis true st) in
  match getComprehensiveAnalysis post now symbol with
  | Normal response =>
      set_isLoadingAnalysis false (set_analysis (Some response) st1)
  | Throw error =>
      set_isLoadingAnalysis false
        (set_analysisError
           (Some (message_or error (js "Failed to load analysis"))) st1)
  end.

(* ================================================================== *)
(** ** The analysis page: the Fibonacci retracement table *)

(** the Significance column *)
Definition significance (l : FibonacciLevel) : jstring :=
  if lt (distance_percent l) (Fin 2) then js "Critical Level"
  else if lt (distance_percent l) (Fin 5) then js "Watch Zone"
  else js "Reference Level".

(** the colour of the Distance column *)
Definition distance_class (l : FibonacciLevel) : jstring :=
  if lt (distance_percent l) (Fin 2) then js "text-red-600 font-medium"
  else if lt (distance_percent l) (Fin 5) then js "text-yellow-600"
  else js "text-gray-600".

(* ================================================================== *)
(** ** The analysis engine behind [/analysis/${symbol}]

    The engine is Python code of the backend and is not among the sources.
    What the statements below need of it is written from its
    specification. *)

(** Modelled from the spec: the Fibonacci module of the backend
    (volume_fibonacci_analyzer.py is missing). A level is
    [price = low + ratio * (high - low)]. Exact rational arithmetic. *)
Definition fib_price (low high ratio : Q) : Q :=
  (low + ratio * (high - low))%Q.

(** Modelled from the spec: the trend-inverted form of the missing
    Fibonacci module, which measures from the swing high downwards. *)
Definition fib_price_inverted (low high ratio : Q) : Q :=
  (high - ratio * (high - low))%Q.

(** Modelled from the spec: the standard retracement ratios of the missing
    Fibonacci module, 23.6, 38.2, 50, 61.8 and 78.6 %. *)
Definition retracement_ratios : list Q :=
  [236 # 1000; 382 # 1000; 500 # 1000; 618 # 1000; 786 # 1000]%Q.

(** Modelled from the spec: the standard extension ratios of the missing
    Fibonacci module, 127.2, 161.8, 200 and 261.8 %. *)
Definition extension_ratios : list Q :=
  [1272 # 1000; 1618 # 1000; 2000 # 1000; 2618 # 1000]%Q.

(** Modelled from the spec: the trend direction the missing Fibonacci
    module chooses its form by. *)
Inductive Trend : Type := Up | Down.

(** Modelled from the spec: one set of levels of the missing Fibonacci
    module, the plain form in an uptrend and the inverted one in a
    downtrend. *)
Definition fib_levels (t : Trend) (low high : Q) (ratios : list Q) : list Q :=
  map (match t with
       | Up => fib_price low high
       | Down => fib_price_inverted low high
       end) ratios.

(** Modelled from the spec: the direction of an opportunity of the missing
    Opportunity Synthesizer. *)
Inductive Direction : Type := Bullish | Bearish.

(** Modelled from the spec: the total score of the opportunities of one
    direction, in the missing Opportunity Synthesizer. *)
Definition score_of (d : Direction) (ops : list (Direction * Q)) : Q :=
  fold_right (fun o acc =>
                match d, fst o with
                | Bullish, Bullish | Bearish, Bearish => (snd o + acc)%Q
                | _, _ => acc
                end) 0%Q ops.

(** Modelled from the spec: the bias of the missing Opportunity
    Synthesizer, the direction with the larger total score among the
    emitted opportunities, neutral on a tie. *)
Definition spec_trading_bias (ops : list (Direction * Q)) : jstring :=
  match Qcompare (score_of Bullish ops) (score_of Bearish ops) with
  | Gt => js "Bullish"
  | Lt => js "Bearish"
  | Eq => js "Neutral"
  end.

(** Modelled from the spec: the fatal errors of the missing engine. *)
Inductive AnalysisError : Type :=
| InsufficientDataError
| ConfigurationError.

Section Engine.

(** the bars of a series, the floor on its length, the stages behind the
    guard, and the rejection that an engine error becomes on its way
    to the browser *)
Context {Bar : Type}.
Variable N_min : nat.
Variable stages : list Bar -> JsVal.
Variable surface : AnalysisError -> JsError.

(** Modelled from the spec: the entry guard of the missing engine
    ([analyze], in the Series Preprocessor). A series shorter than the
    floor is rejected with [InsufficientDataError] before any stage
    runs; otherwise the stages produce the response. *)
Definition analyze (series : list Bar) : AnalysisError + JsVal :=
  if Nat.ltb (length series) N_min then inl InsufficientDataError
  else inr (stages series).

(** Modelled from the spec: the missing backend seen through [api.post].
    A fatal error aborts the run and no partial result is returned: the
    request is rejected; otherwise the response is the body. *)
Definition backend_post (series : list Bar) : Post :=
  fun _ _ =>
    match analyze series with
    | inl err => Throw (surface err)
    | inr data => Normal data
    end.

End Engine.

(* ================================================================== *)
(** ** Vocabulary of the statements *)

(** The three places of [response.data] the transform reads its lists
    from, as the source computes them. *)
Definition comprehensive_data (backendData : JsVal) : JsVal :=
  (prop backendData (js "comprehensive_data") || JObj [])%js.

Definition key_levels (backendData : JsVal) : JsVal :=
  (opt_get (prop (comprehensive_data backendData) (js "fibonacci_analysis"))
     (js "key_levels") || JArr [])%js.

Definition chart_patterns (backendData : JsVal) : JsVal :=
  (prop (comprehensive_data backendData) (js "chart_patterns") || JArr [])%js.

Definition items_of (v : JsVal) : list JsVal :=
  match v with
  | JArr items => items
  | _ => []
  end.

(** Modelled from the spec: the vote of one emitted opportunity in the
    missing Opportunity Synthesizer, its direction with its score, read
    from the type and the confidence_level of the opportunity; an
    opportunity that names neither direction, or has no finite score, has
    no vote. *)
Definition spec_vote (op : JsVal) : list (Direction * Q) :=
  match prop op (js "type"), prop op (js "confidence_level") with
  | JStr t, JNum (Fin q) =>
      if jstring_eqb t (js "Bullish") then [(Bullish, q)]
      else if jstring_eqb t (js "Bearish") then [(Bearish, q)]
      else []
  | _, _ => []
  end.

(** Modelled from the spec: the votes of the emitted opportunities. *)
Definition spec_votes (ops : JsVal) : list (Direction * Q) :=
  flat_map spec_vote (items_of ops).

(** an array all of whose entries pass a test *)
Definition array_all (ok : JsVal -> bool) (v : JsVal) : bool :=
  match v with
  | JArr items => forallb ok items
  | _ => false
  end.

Definition non_null (v : JsVal) : bool := negb (nullish v).

Definition array_of_non_null (v : JsVal) : bool := array_all non_null v.

(** A key level the callback accepts: it is not null, and neither its
    ratio nor its distance is an object with a member named toString, or
    an array that holds one. *)
Definition level_accepted (lv : JsVal) : bool :=
  (non_null lv
   && negb (no_primitive (prop lv (js "ratio") || zero)%js)
   && negb (no_primitive (prop lv (js "distance_percent") || zero)%js))%bool.

(** The responses on which the transform does not throw: the body is not
    null, the key levels are absent or an array of accepted key levels,
    and the chart patterns are absent or an array without a null entry. *)
Definition well_formed (backendData : JsVal) : bool :=
  negb (nullish backendData)
  && array_all level_accepted (key_levels backendData)
  && array_of_non_null (chart_patterns backendData).

(** a value that is a Number of the closed interval from 0 to 1 *)
Definition in_unit_interval (v : JsVal) : bool :=
  match v with
  | JNum (Fin q) => Qle_bool 0 q && Qle_bool q 1
  | _ => false
  end.

(** a value that is a finite Number *)
Definition finite_number (v : JsVal) : bool :=
  match v with
  | JNum (Fin _) => true
  | _ => false
  end.

(** is a Number NaN *)
Definition is_nan (n : JsNum) : bool :=
  match n with
  | NaN => true
  | _ => false
  end.

(** the result with its date stamp replaced *)
Definition with_analysis_date (d : jstring) (r : ComprehensiveAnalysis)
  : ComprehensiveAnalysis :=
  {| analysis_summary :=
       {| stock_symbol := stock_symbol (analysis_summary r);
          analysis_date := d;
          current_price := current_price (analysis_summary r);
          analysis_focus := analysis_focus (analysis_summary r) |};
     fibonacci_analysis := fibonacci_analysis r;
     active_patterns := active_patterns r;
     volume_analysis := volume_analysis r;
     current_market_structure := current_market_structure r;
     trading_opportunities := trading_opportunities r;
     mathematical_analysis := mathematical_analysis r;
     mathematical_indicators := mathematical_indicators r;
     immediate_trading_plan := immediate_trading_plan r;
     risk_management := risk_management r |}.

(** the result of the transform once its two lists are known *)
Definition assemble (now : Z) (symbol : jstring) (backendData : JsVal)
    (levels : list FibonacciLevel) (patterns : list ChartPattern)
  : ComprehensiveAnalysis :=
  let comprehensiveData := comprehensive_data backendData in
  let summary := prop comprehensiveData (js "analysis_summary") in
  let trend :=
    opt_get (prop comprehensiveData (js "current_market_structure")) (js "trend") in
  (
  {| analysis_summary :=
       {| stock_symbol := symbol;
          analysis_date := hd [] (split (ch "T") (toISOString now));
          current_price := opt_get summary (js "current_price") || zero;
          analysis_focus :=
            opt_get summary (js "analysis_focus") || str "Mathematical Analysis" |};
     fibonacci_analysis :=
       {| current_fibonacci_analysis :=
            JObj [ (js "current_price",
                    opt_get summary (js "current_price") || zero);
                   (js "trend_direction", str "Mathematical Analysis");
                   (js "most_recent_swing_high", swing_placeholder);
                   (js "most_recent_swing_low", swing_placeholder) ];
          fibonacci_retracements := {| retracement_levels := levels |};
          fibonacci_extensions := {| extension_levels := [] |};
          closest_levels := [];
          current_level_context := [] |};
     active_patterns := patterns;
     volume_analysis := volume_analysis_placeholder;
     current_market_structure :=
       JObj [ (js "current_trend",
               JObj [ (js "direction",
                       opt_get trend (js "direction") || str "Neutral");
                      (js "strength",
                       opt_get trend (js "strength") || str "Medium");
                      (js "duration_days", zero);
                      (js "key_levels", JArr []) ]);
              (js "momentum", momentum_placeholder);
              (js "volatility",
               JObj [ (js "current_volatility", zero);
                      (js "volatility_percentile", zero);
                      (js "volatility_assessment", str "Normal") ]) ];
     trading_opportunities :=
       prop backendData (js "trading_opportunities") || JArr [];
     mathematical_analysis :=
       prop backendData (js "mathematical_analysis") || JObj [];
     mathematical_indicators :=
       prop backendData (js "mathematical_indicators") || JObj [];
     immediate_trading_plan :=
       {| trading_bias := js "Neutral";
          immediate_actions := [];
          position_recommendations :=
            JObj [ (js "current_stance", str "Hold");
                   (js "position_sizing", str "Normal");
                   (js "hold_period", str "Medium-term") ];
          fibonacci_key_levels := [] |};
     risk_management := prop backendData (js "risk_management") || JObj [] |})%js.

(** the two callbacks on an entry they accept *)
Definition level_of (lv : JsVal) : FibonacciLevel :=
  ({| level := float_value (prop lv (js "ratio") || zero);
      price := prop lv (js "price") || zero;
      distance_percent := abs (number_value (prop lv (js "distance_percent") || zero)) |})%js.

Definition pattern_of (pattern : JsVal) : ChartPattern :=
  ({| pattern_id := prop pattern (js "pattern_id") || str "UNKNOWN";
      pattern_name := prop pattern (js "pattern_name") || str "Unknown Pattern";
      pattern_type := prop pattern (js "pattern_type") || str "General";
      reliability_score := prop pattern (js "reliability_score") || zero;
      expected_direction := prop pattern (js "bias") || str "Neutral" |})%js.

(** a function applied to the value of a completion *)
Definition map_completion {A B} (f : A -> B) (c : completion A) : completion B :=
  match c with
  | Normal a => Normal (f a)
  | Throw e => Throw e
  end.

(** the rejection the sample backend answers a failed analysis with *)
Definition sample_rejection (err : AnalysisError) : JsError :=
  mkError (js "AxiosError") (js "Request failed with status code 422").

(* ================================================================== *)
(** ** A sample exchange

    A response for a swing from 100 to 200 with the price at 160: the 50 %
    retracement (150, 6.25 % below the price), the 200 % extension (300),
    one chart pattern and one bullish opportunity. *)

Definition sample_level (ratio price distance : Q) : JsVal :=
  JObj [ (js "ratio", JNum (Fin ratio));
         (js "price", JNum (Fin price));
         (js "distance_percent", JNum (Fin distance)) ].

Definition sample_opportunity : JsVal :=
  JObj [ (js "type", str "Bullish");
         (js "confidence_level", JNum (Fin (3 # 4))) ].

Definition sample_response : JsVal :=
  JObj [ (js "comprehensive_data",
          JObj [ (js "analysis_summary",
                  JObj [ (js "current_price", JNum (Fin 160)) ]);
                 (js "fibonacci_analysis",
                  JObj [ (js "key_levels",
                          JArr [ sample_level (1 # 2) 150 (- (25 # 4));
                                 sample_level 2 300 (175 # 2) ]) ]);
                 (js "chart_patterns",
                  JArr [ JObj [ (js "pattern_id", str "P1");
                                (js "pattern_name", str "Double Top");
                                (js "reliability_score", JNum (Fin (3 # 2)));
                                (js "bias", str "Bearish") ] ]) ]);
         (js "trading_opportunities", JArr [ sample_opportunity ]) ].

Definition sample_post : Post := fun _ _ => Normal sample_response.

(** A response whose only key level reports its distance as a text that
    is no number. *)
Definition unreadable_distance_response : JsVal :=
  JObj [ (js "comprehensive_data",
          JObj [ (js "fibonacci_analysis",
                  JObj [ (js "key_levels",
                          JArr [ JObj [ (js "ratio", JNum (Fin (1 # 2)));
                                        (js "price", JNum (Fin 150));
                                        (js "distance_percent", str "n/a") ] ]) ]) ]) ].

(** A response whose only key level reports its ratio as an object with a
    member named toString. *)
Definition unconvertible_ratio_response : JsVal :=
  JObj [ (js "comprehensive_data",
          JObj [ (js "fibonacci_analysis",
                  JObj [ (js "key_levels",
                          JArr [ JObj [ (js "ratio",
                                         JObj [ (js "toString", zero) ]);
                                        (js "price", JNum (Fin 150)) ] ]) ]) ]) ].

(** A response to a flat series in which the backend marks the volatility
    as degenerate and flags the fractal dimension as missing, and in which
    the entropy has overflowed (the JSON number 1e999 reads as Infinity). *)
Definition flat_response : JsVal :=
  JObj [ (js "comprehensive_data",
          JObj [ (js "current_market_structure",
                  JObj [ (js "volatility",
                          JObj [ (js "current_volatility", JNull);
                                 (js "volatility_assessment", str "Degenerate") ]) ]) ]);
         (js "mathematical_analysis",
          JObj [ (js "shannon_entropy", JNum PInf);
                 (js "fractal_dimension", JNull) ]) ].

Definition flat_post : Post := fun _ _ => Normal flat_response.

(** the volatility block of a result *)
Definition volatility (r : ComprehensiveAnalysis) : JsVal :=
  prop (current_market_structure r) (js "volatility").

Definition volatility_placeholder : JsVal :=
  JObj [ (js "current_volatility", zero);
         (js "volatility_percentile", zero);
         (js "volatility_assessment", str "Normal") ].

(* ================================================================== *)
(** ** [localStorage] and [tokenUtils] *)

(** The storage of the page: string keys and string values. *)
Definition Storage := list (jstring * jstring).

(** [getItem(k)]: null for a key that is not there *)
Fixpoint getItem (k : jstring) (s : Storage) : option jstring :=
  match s with
  | [] => None
  | (k', v) :: r => if jstring_eqb k k' then Some v else getItem k r
  end.

(** [setItem(k, v)] *)
Fixpoint setItem (k v : jstring) (s : Storage) : Storage :=
  match s with
  | [] => [(k, v)]
  | (k', v') :: r =>
      if jstring_eqb k k' then (k', v) :: r else (k', v') :: setItem k v r
  end.

(** [removeItem(k)] *)
Definition removeItem (k : jstring) (s : Storage) : Storage :=
  filter (fun kv => negb (jstring_eqb k (fst kv))) s.

Definition setTokens (accessToken refreshToken : jstring) (s : Storage) : Storage :=
  setItem (js "refreshToken") refreshToken
    (setItem (js "accessToken") accessToken s).

Definition getAccessToken (s : Storage) : option jstring :=
  getItem (js "accessToken") s.

Definition getRefreshToken (s : Storage) : option jstring :=
  getItem (js "refreshToken") s.

Definition clearTokens (s : Storage) : Storage :=
  removeItem (js "refreshToken") (removeItem (js "accessToken") s).

(* ================================================================== *)
(** ** The interceptors of the axios instance *)

(** the headers of a request *)
Definition Headers := list (jstring * jstring).

(** The request interceptor: [if (token) config.headers.Authorization =
    `Bearer ${token}`]. A stored empty string is falsy. *)
Definition request_interceptor (s : Storage) (headers : Headers) : Headers :=
  match getItem (js "accessToken") s with
  | Some (c :: t) => setItem (js "Authorization") (js "Bearer " ++ c :: t) headers
  | _ => headers
  end.

Module Axios.

(** [error.response], when the server answered *)
Record Response : Type := {
  status : Z;
  data : JsVal
}.

(** an [AxiosError] *)
Record Error : Type := {
  response : option Response;
  code : option jstring;
  message : jstring
}.

(** an awaited request *)
Inductive outcome (A : Type) : Type :=
| Resolved (a : A)
| Rejected (e : Error).
Arguments Resolved {A} a.
Arguments Rejected {A} e.

(** [error.response?.data?.detail] *)
Definition detail (e : Error) : JsVal :=
  match response e with
  | Some r => opt_get (data r) (js "detail")
  | None => JUndefined
  end.

Definition code_is (e : Error) (c : string) : bool :=
  match code e with
  | Some k => jstring_eqb k (js c)
  | None => false
  end.

End Axios.

(** what the page keeps outside of its stores *)
Record Browser : Type := {
  storage : Storage;
  location : jstring
}.

(** The response interceptor on a failed request: a 401 removes both
    tokens and sends the page to [/]; the error is rejected again in every
    case. *)
Definition response_interceptor (e : Axios.Error) (b : Browser)
  : Browser * Axios.outcome JsVal :=
  (match Axios.response e with
   | Some r =>
       if Z.eqb (Axios.status r) 401 then
         {| storage := removeItem (js "refreshToken")
                         (removeItem (js "accessToken") (storage b));
            location := js "/" |}
       else b
   | None => b
   end,
   Axios.Rejected e).

(** [handleApiError] *)
Definition handleApiError (e : Axios.Error) : JsVal :=
  if truthy (Axios.detail e) then Axios.detail e
  else if Axios.code_is e "ECONNABORTED" then str "Request timeout. Please try again."
  else if Axios.code_is e "ERR_NETWORK" then str "Network error. Please check your connection."
  else (JStr (Axios.message e) || str "An unexpected error occurred")%js.

(* ================================================================== *)
(** ** [authAPI]: what the auth endpoints answer *)

Module AuthAPI.

(** the [AuthResponse] fields that the store reads *)
Record AuthResponse : Type := {
  access_token : jstring;
  refresh_token : jstring;
  user : JsVal
}.

(** The answers of the backend to the five auth requests of one session,
    each a resolved value or a rejection. *)
Record Server : Type := {
  initiateLogin : Axios.outcome jstring;
  handleCallback : jstring -> Axios.outcome AuthResponse;
  getCurrentUser : Axios.outcome JsVal;
  refreshToken : jstring -> Axios.outcome AuthResponse;
  logout : Axios.outcome JsVal
}.

End AuthAPI.

(* ================================================================== *)
(** ** The auth store: [useAuthStore] and [authOperations] *)

Module Auth.

Record State : Type := {
  user : JsVal;
  accessToken : option jstring;
  refreshToken : option jstring;
  isAuthenticated : bool;
  isLoading : bool;
  error : JsVal
}.

(** the store, the page around it, and the requests sent so far (latest
    first) *)
Record World : Type := {
  state : State;
  browser : Browser;
  calls : list jstring
}.

Definition initial : State :=
  {| user := JNull; accessToken := None; refreshToken := None;
     isAuthenticated := false; isLoading := false; error := JNull |}.

Definition with_storage (f : Storage -> Storage) (w : World) : World :=
  {| state := state w;
     browser := {| storage := f (storage (browser w));
                   location := location (browser w) |};
     calls := calls w |}.

Definition with_location (l : jstring) (w : World) : World :=
  {| state := state w;
     browser := {| storage := storage (browser w); location := l |};
     calls := calls w |}.

(** One request through the axios instance: it is sent, and a rejection
    passes the response interceptor before the caller sees it. *)
Definition request {A} (endpoint : string) (reply : Axios.outcome A) (w : World)
  : World * Axios.outcome A :=
  let sent := {| state := state w; browser := browser w;
                 calls := js endpoint :: calls w |} in
  match reply with
  | Axios.Resolved a => (sent, Axios.Resolved a)
  | Axios.Rejected e =>
      ({| state := state sent;
          browser := fst (response_interceptor e (browser sent));
          calls := calls sent |},
       Axios.Rejected e)
  end.

Section Store.

(** The text the persist middleware writes under [auth-storage] for a
    state (its [partialize]d part, serialized by the library). *)
Variable persisted : State -> jstring.

(** [set(...)]: the new state, written through by the middleware *)
Definition set (s : State) (w : World) : World :=
  with_storage (setItem (js "auth-storage") (persisted s))
    {| state := s; browser := browser w; calls := calls w |}.

Definition login (tokens : AuthAPI.AuthResponse) (w : World) : World :=
  set {| user := AuthAPI.user tokens;
         accessToken := Some (AuthAPI.access_token tokens);
         refreshToken := Some (AuthAPI.refresh_token tokens);
         isAuthenticated := true;
         isLoading := false;
         error := JNull |}
    (with_storage
       (setTokens (AuthAPI.access_token tokens) (AuthAPI.refresh_token tokens)) w).

(** [logout]: the request is made only when the state is authenticated,
    its failure is only logged, and the [finally] block always runs. *)
Definition logout (srv : AuthAPI.Server) (w : World) : World :=
  let w1 :=
    if isAuthenticated (state w)
    then fst (request "/auth/logout" (AuthAPI.logout srv) w)
    else w in
  set initial (with_storage clearTokens w1).

Definition setLoading (loading : bool) (w : World) : World :=
  set {| user := user (state w);
         accessToken := accessToken (state w);
         refreshToken := refreshToken (state w);
         isAuthenticated := isAuthenticated (state w);
         isLoading := loading;
         error := error (state w) |} w.

Definition setError (e : JsVal) (w : World) : World :=
  set {| user := user (state w);
         accessToken := accessToken (state w);
         refreshToken := refreshToken (state w);
         isAuthenticated := isAuthenticated (state w);
         isLoading := false;
         error := e |} w.

Definition clearError (w : World) : World :=
  set {| user := user (state w);
         accessToken := accessToken (state w);
         refreshToken := refreshToken (state w);
         isAuthenticated := isAuthenticated (state w);
         isLoading := isLoading (state w);
         error := JNull |} w.

(** a stored token that is a non-empty string *)
Definition present (t : option jstring) : bool :=
  match t with
  | Some (_ :: _) => true
  | _ => false
  end.

(** [authOperations.initializeAuth], with its promise chains run to their
    end. The clock is read by each of the two calls of [isTokenExpired]:
    [now1] by the first, [now2] by the second. *)
Definition initializeAuth (srv : AuthAPI.Server) (now1 now2 : Z) (w : World)
  : World :=
  match getAccessToken (storage (browser w)),
        getRefreshToken (storage (browser w)) with
  | Some accessToken, Some refreshToken =>
      if present (Some accessToken) && present (Some refreshToken) then
        if negb (isTokenExpired now1 accessToken) then
          match request "/auth/me" (AuthAPI.getCurrentUser srv) w with
          | (w1, Axios.Resolved user) =>
              login {| AuthAPI.access_token := accessToken;
                       AuthAPI.refresh_token := refreshToken;
                       AuthAPI.user := user |} w1
          | (w1, Axios.Rejected _) => logout srv w1
          end
        else if isTokenExpired now2 accessToken then
          match request "/auth/refresh" (AuthAPI.refreshToken srv refreshToken) w with
          | (w1, Axios.Resolved response) => login response w1
          | (w1, Axios.Rejected _) => logout srv w1
          end
        else w
      else w
  | _, _ => w
  end.

(** [error.response?.data?.detail || error.message || fallback] *)
Definition error_message (e : Axios.Error) (fallback : string) : JsVal :=
  (Axios.detail e || JStr (Axios.message e) || str fallback)%js.

(** [authOperations.handleCallback]: the world it leaves and what the
    caller gets, the response or the error thrown again *)
Definition handleCallback (srv : AuthAPI.Server) (requestToken : jstring)
    (w : World) : World * Axios.outcome AuthAPI.AuthResponse :=
  match request "/auth/callback" (AuthAPI.handleCallback srv requestToken)
          (clearError (setLoading true w)) with
  | (w1, Axios.Resolved response) =>
      (setLoading false (login response w1), Axios.Resolved response)
  | (w1, Axios.Rejected e) =>
      (setLoading false (setError (error_message e "Authentication failed") w1),
       Axios.Rejected e)
  end.

(** [authOperations.initiateLogin] *)
Definition initiateLogin (srv : AuthAPI.Server) (w : World) : World :=
  match request "/auth/login" (AuthAPI.initiateLogin srv)
          (clearError (setLoading true w)) with
  | (w1, Axios.Resolved login_url) => with_location login_url w1
  | (w1, Axios.Rejected e) =>
      setLoading false
        (setError (error_message e "Login initialization failed") w1)
  end.

End Store.

(** the tokens of the storage and of the state are the same *)
Definition tokens_agree (w : World) : Prop :=
  getAccessToken (storage (browser w)) = accessToken (state w)
  /\ getRefreshToken (storage (browser w)) = refreshToken (state w).

(** nothing of a session is left in the state and in the storage *)
Definition logged_out (w : World) : Prop :=
  state w = initial
  /\ getAccessToken (storage (browser w)) = None
  /\ getRefreshToken (storage (browser w)) = None.

End Auth.

(** a session with an access token that expired in 2023 *)
Definition sample_session : Auth.World :=
  {| Auth.state := Auth.initial;
     Auth.browser :=
       {| storage := setTokens (js "h.eyJleHAiOjE3MDAwMDAwMDB9.s") (js "refresh-1") [];
          location := js "/dashboard" |};
     Auth.calls := [] |}.

(* ================================================================== *)
(** ** The market store, in full: the other actions of [useMarketStore] *)

(** [set({ field: v })] for the other fields of the store *)
Definition set_selectedStock (v : option JsVal) (st : MarketStore) : MarketStore :=
  {| selectedStock := v;
     currentQuote := currentQuote st;
     analysis := analysis st;
     isLoadingQuote := isLoadingQuote st;
     isLoadingAnalysis := isLoadingAnalysis st;
     isLoadingSearch := isLoadingSearch st;
     isLoadingWatchlist := isLoadingWatchlist st;
     isLoadingMarketData := isLoadingMarketData st;
     quoteError := quoteError st;
     analysisError := analysisError st;
     searchError := searchError st;
     watchlistError := watchlistError st;
     marketDataError := marketDataError st |}.

Definition set_currentQuote (v : option JsVal) (st : MarketStore) : MarketStore :=
  {| selectedStock := selectedStock st;
     currentQuote := v;
     analysis := analysis st;
     isLoadingQuote := isLoadingQuote st;
     isLoadingAnalysis := isLoadingAnalysis st;
     isLoadingSearch := isLoadingSearch st;
     isLoadingWatchlist := isLoadingWatchlist st;
     isLoadingMarketData := isLoadingMarketData st;
     quoteError := quoteError st;
     analysisError := analysisError st;
     searchError := searchError st;
     watchlistError := watchlistError st;
     marketDataError := marketDataError st |}.

Definition set_isLoadingQuote (v : bool) (st : MarketStore) : MarketStore :=
  {| selectedStock := selectedStock st;
     currentQuote := currentQuote st;
     analysis := analysis st;
     isLoadingQuote := v;
     isLoadingAnalysis := isLoadingAnalysis st;
     isLoadingSearch := isLoadingSearch st;
     isLoadingWatchlist := isLoadingWatchlist st;
     isLoadingMarketData := isLoadingMarketData st;
     quoteError := quoteError st;
     analysisError := analysisError st;
     searchError := searchError st;
     watchlistError := watchlistError st;
     marketDataError := marketDataError st |}.

Definition set_isLoadingSearch (v : bool) (st : MarketStore) : MarketStore :=
  {| selectedStock := selectedStock st;
     currentQuote := currentQuote st;
     analysis := analysis st;
     isLoadingQuote := isLoadingQuote st;
     isLoadingAnalysis := isLoadingAnalysis st;
     isLoadingSearch := v;
     isLoadingWatchlist := isLoadingWatchlist st;
     isLoadingMarketData := isLoadingMarketData st;
     quoteError := quoteError st;
     analysisError := analysisError st;
     searchError := searchError st;
     watchlistError := watchlistError st;
     marketDataError := marketDataError st |}.

Definition set_isLoadingWatchlist (v : bool) (st : MarketStore) : MarketStore :=
  {| selectedStock := selectedStock st;
     currentQuote := currentQuote st;
     analysis := analysis st;
     isLoadingQuote := isLoadingQuote st;
     isLoadingAnalysis := isLoadingAnalysis st;
     isLoadingSearch := isLoadingSearch st;
     isLoadingWatchlist := v;
     isLoadingMarketData := isLoadingMarketData st;
     quoteError := quoteError st;
     analysisError := analysisError st;
     searchError := searchError st;
     watchlistError := watchlistError st;
     marketDataError := marketDataError st |}.

Definition set_isLoadingMarketData (v : bool) (st : MarketStore) : MarketStore :=
  {| selectedStock := selectedStock st;
     currentQuote := currentQuote st;
     analysis := analysis st;
     isLoadingQuote := isLoadingQuote st;
     isLoadingAnalysis := isLoadingAnalysis st;
     isLoadingSearch := isLoadingSearch st;
     isLoadingWatchlist := isLoadingWatchlist st;
     isLoadingMarketData := v;
     quoteError := quoteError st;
     analysisError := analysisError st;
     searchError := searchError st;
     watchlistError := watchlistError st;
     marketDataError := marketDataError st |}.

Definition set_quoteError (v : option jstring) (st : MarketStore) : MarketStore :=
  {| selectedStock := selectedStock st;
     currentQuote := currentQuote st;
     analysis := analysis st;
     isLoadingQuote := isLoadingQuote st;
     isLoadingAnalysis := isLoadingAnalysis st;
     isLoadingSearch := isLoadingSearch st;
     isLoadingWatchlist := isLoadingWatchlist st;
     isLoadingMarketData := isLoadingMarketData st;
     quoteError := v;
     analysisError := analysisError st;
     searchError := searchError st;
     watchlistError := watchlistError st;
     marketDataError := marketDataError st |}.

Definition set_searchError (v : option jstring) (st : MarketStore) : MarketStore :=
  {| selectedStock := selectedStock st;
     currentQuote := currentQuote st;
     analysis := analysis st;
     isLoadingQuote := isLoadingQuote st;
     isLoadingAnalysis := isLoadingAnalysis st;
     isLoadingSearch := isLoadingSearch st;
     isLoadingWatchlist := isLoadingWatchlist st;
     isLoadingMarketData := isLoadingMarketData st;
     quoteError := quoteError st;
     analysisError := analysisError st;
     searchError := v;
     watchlistError := watchlistError st;
     marketDataError := marketDataError st |}.

Definition set_watchlistError (v : option jstring) (st : MarketStore) : MarketStore :=
  {| selectedStock := selectedStock st;
     currentQuote := currentQuote st;
     analysis := analysis st;
     isLoadingQuote := isLoadingQuote st;
     isLoadingAnalysis := isLoadingAnalysis st;
     isLoadingSearch := isLoadingSearch st;
     isLoadingWatchlist := isLoadingWatchlist st;
     isLoadingMarketData := isLoadingMarketData st;
     quoteError := quoteError st;
     analysisError := analysisError st;
     searchError := searchError st;
     watchlistError := v;
     marketDataError := marketDataError st |}.

Definition set_marketDataError (v : option jstring) (st : MarketStore) : MarketStore :=
  {| selectedStock := selectedStock st;
     currentQuote := currentQuote st;
     analysis := analysis st;
     isLoadingQuote := isLoadingQuote st;
     isLoadingAnalysis := isLoadingAnalysis st;
     isLoadingSearch := isLoadingSearch st;
     isLoadingWatchlist := isLoadingWatchlist st;
     isLoadingMarketData := isLoadingMarketData st;
     quoteError := quoteError st;
     analysisError := analysisError st;
     searchError := searchError st;
     watchlistError := watchlistError st;
     marketDataError := v |}.
Module StocksAPI.

(** The answers of the backend to the stock requests: a resolved body or
    a rejection with its message. *)
Record Server : Type := {
  searchStocks : jstring -> completion JsVal;
  getQuote : JsVal -> completion JsVal;
  getWatchlist : completion JsVal;
  addToWatchlist : jstring -> completion JsVal;
  removeFromWatchlist : jstring -> completion JsVal
}.

End StocksAPI.

Module Market.

(** an entry of the watchlist, as [loadWatchlist] builds it *)
Record Stock : Type := {
  symbol : JsVal;
  name : JsVal
}.

(** The store with the fields left out above, and the interval timers of
    the page: the running ones, each with the symbol it polls, and the id
    the next one gets. *)
Record World : Type := {
  store : MarketStore;
  searchResults : JsVal;
  watchlist : list Stock;
  topGainers : JsVal;
  topLosers : JsVal;
  mostActive : JsVal;
  webSocket : option N;
  pollingInterval : option positive;
  intervals : list (positive * JsVal);
  next_interval : positive
}.

Definition initial : World :=
  {| store := initial_store;
     searchResults := JArr []; watchlist := [];
     topGainers := JArr []; topLosers := JArr []; mostActive := JArr [];
     webSocket := None; pollingInterval := None;
     intervals := []; next_interval := 1%positive |}.

Definition update (f : MarketStore -> MarketStore) (w : World) : World :=
  {| store := f (store w);
     searchResults := searchResults w; watchlist := watchlist w;
     topGainers := topGainers w; topLosers := topLosers w;
     mostActive := mostActive w;
     webSocket := webSocket w; pollingInterval := pollingInterval w;
     intervals := intervals w; next_interval := next_interval w |}.

Definition set_searchResults (v : JsVal) (w : World) : World :=
  {| store := store w;
     searchResults := v; watchlist := watchlist w;
     topGainers := topGainers w; topLosers := topLosers w;
     mostActive := mostActive w;
     webSocket := webSocket w; pollingInterval := pollingInterval w;
     intervals := intervals w; next_interval := next_interval w |}.

Definition set_watchlist (v : list Stock) (w : World) : World :=
  {| store := store w;
     searchResults := searchResults w; watchlist := v;
     topGainers := topGainers w; topLosers := topLosers w;
     mostActive := mostActive w;
     webSocket := webSocket w; pollingInterval := pollingInterval w;
     intervals := intervals w; next_interval := next_interval w |}.

Definition set_movers (gainers losers active : JsVal) (w : World) : World :=
  {| store := store w;
     searchResults := searchResults w; watchlist := watchlist w;
     topGainers := gainers; topLosers := losers; mostActive := active;
     webSocket := webSocket w; pollingInterval := pollingInterval w;
     intervals := intervals w; next_interval := next_interval w |}.

Definition set_webSocket (v : option N) (w : World) : World :=
  {| store := store w;
     searchResults := searchResults w; watchlist := watchlist w;
     topGainers := topGainers w; topLosers := topLosers w;
     mostActive := mostActive w;
     webSocket := v; pollingInterval := pollingInterval w;
     intervals := intervals w; next_interval := next_interval w |}.

Definition set_pollingInterval (v : option positive) (w : World) : World :=
  {| store := store w;
     searchResults := searchResults w; watchlist := watchlist w;
     topGainers := topGainers w; topLosers := topLosers w;
     mostActive := mostActive w;
     webSocket := webSocket w; pollingInterval := v;
     intervals := intervals w; next_interval := next_interval w |}.

(** [setInterval(callback, 5000)], the callback polling [sym]: the id of
    the new timer and the world in which it runs *)
Definition setInterval (sym : JsVal) (w : World) : positive * World :=
  (next_interval w,
   {| store := store w;
      searchResults := searchResults w; watchlist := watchlist w;
      topGainers := topGainers w; topLosers := topLosers w;
      mostActive := mostActive w;
      webSocket := webSocket w; pollingInterval := pollingInterval w;
      intervals := (next_interval w, sym) :: intervals w;
      next_interval := Pos.succ (next_interval w) |}).

(** [clearInterval(id)] *)
Definition clearInterval (id : positive) (w : World) : World :=
  {| store := store w;
     searchResults := searchResults w; watchlist := watchlist w;
     topGainers := topGainers w; topLosers := topLosers w;
     mostActive := mostActive w;
     webSocket := webSocket w; pollingInterval := pollingInterval w;
     intervals := filter (fun t => negb (Pos.eqb (fst t) id)) (intervals w);
     next_interval := next_interval w |}.

(** [v !== s] for a string [s] *)
Definition differs_from (v : JsVal) (s : jstring) : bool :=
  match v with
  | JStr t => negb (jstring_eqb t s)
  | _ => true
  end.

(** [response.map(...)]: a null or undefined response has no [map] to
    read, anything but an array has none to call *)
Definition map_method {B} (v : JsVal) (f : JsVal -> completion B)
  : completion (list B) :=
  if nullish v then Throw (type_error v (js "map")) else array_map v f.

Definition searchStocks (api : StocksAPI.Server) (query : jstring) (w : World)
  : World :=
  match trim query with
  | [] => set_searchResults (JArr []) w
  | _ =>
      let w1 := update (fun st => set_searchError None (set_isLoadingSearch true st)) w in
      match StocksAPI.searchStocks api query with
      | Normal response =>
          update (set_isLoadingSearch false) (set_searchResults response w1)
      | Throw error =>
          update (fun st => set_isLoadingSearch false
                              (set_searchError
                                 (Some (message_or error (js "Search failed"))) st)) w1
      end
  end.

Definition getStockQuote (api : StocksAPI.Server) (sym : JsVal) (w : World)
  : World :=
  let w1 := update (fun st => set_quoteError None (set_isLoadingQuote true st)) w in
  match StocksAPI.getQuote api sym with
  | Normal response =>
      update (fun st => set_isLoadingQuote false
                          (set_currentQuote (Some response) st)) w1
  | Throw error =>
      update (fun st => set_isLoadingQuote false
                          (set_quoteError
                             (Some (message_or error (js "Failed to load quote"))) st)) w1
  end.

Definition loadWatchlist (api : StocksAPI.Server) (w : World) : World :=
  let w1 := update (fun st => set_watchlistError None
                                (set_isLoadingWatchlist true st)) w in
  match (response <- StocksAPI.getWatchlist api ;;
         map_method response
           (fun sym => Normal {| symbol := sym; name := sym |}))%js with
  | Normal watchlistStocks =>
      update (set_isLoadingWatchlist false) (set_watchlist watchlistStocks w1)
  | Throw error =>
      update (fun st => set_isLoadingWatchlist false
                          (set_watchlistError
                             (Some (message_or error (js "Failed to load watchlist"))) st)) w1
  end.

Definition addToWatchlist (api : StocksAPI.Server) (sym : jstring) (w : World)
  : World :=
  match StocksAPI.addToWatchlist api sym with
  | Normal _ => loadWatchlist api w
  | Throw error =>
      update (set_watchlistError
                (Some (message_or error (js "Failed to add to watchlist")))) w
  end.

Definition removeFromWatchlist (api : StocksAPI.Server) (sym : jstring) (w : World)
  : World :=
  match StocksAPI.removeFromWatchlist api sym with
  | Normal _ =>
      set_watchlist (filter (fun stock => differs_from (symbol stock) sym)
                       (watchlist w)) w
  | Throw error =>
      update (set_watchlistError
                (Some (message_or error (js "Failed to remove from watchlist")))) w
  end.

Definition loadMarketData (w : World) : World :=
  update (set_isLoadingMarketData false)
    (set_movers (JArr []) (JArr []) (JArr [])
       (update (fun st => set_marketDataError None
                            (set_isLoadingMarketData true st)) w)).

Definition stopRealTimeUpdates (w : World) : World :=
  let w1 := match webSocket w with
            | Some _ => set_webSocket None w
            | None => w
            end in
  match pollingInterval w with
  | Some id => set_pollingInterval None (clearInterval id w1)
  | None => w1
  end.

Definition startRealTimeUpdates (sym : JsVal) (w : World) : World :=
  let (interval, w1) := setInterval sym (stopRealTimeUpdates w) in
  set_pollingInterval (Some interval) w1.

(** [setSelectedStock(stock)]; the quote request it starts is run to its
    end, which touches other fields than the polling it starts next. *)
Definition setSelectedStock (api : StocksAPI.Server) (stock : option JsVal)
    (w : World) : World :=
  let w1 := update (fun st => set_analysis None
                                (set_currentQuote None
                                   (set_selectedStock stock st))) w in
  match stock with
  | Some s =>
      if truthy s then
        startRealTimeUpdates (prop s (js "symbol"))
          (getStockQuote api (prop s (js "symbol")) w1)
      else stopRealTimeUpdates w1
  | None => stopRealTimeUpdates w1
  end.

(** one firing of the polling callback of a running interval *)
Definition poll (api : StocksAPI.Server) (sym : JsVal) (w : World) : World :=
  match StocksAPI.getQuote api sym with
  | Normal quote => update (set_currentQuote (Some quote)) w
  | Throw _ => w
  end.

Definition clearErrors (w : World) : World :=
  update (fun st => set_marketDataError None
                      (set_watchlistError None
                         (set_searchError None
                            (set_analysisError None
                               (set_quoteError None st))))) w.

Definition clearSearch (w : World) : World :=
  update (set_searchError None) (set_searchResults (JArr []) w).

(** [getAnalysis], on the full store *)
Definition getAnalysis (post : Post) (now : Z) (sym : jstring) (w : World)
  : World :=
  update (getAnalysis post now sym) w.

(** the actions of the store, as a page may issue them one after another *)
Inductive Action : Type :=
| SetSelectedStock (stock : option JsVal)
| SearchStocks (query : jstring)
| GetStockQuote (sym : JsVal)
| GetAnalysis (post : Post) (now : Z) (sym : jstring)
| LoadWatchlist
| AddToWatchlist (sym : jstring)
| RemoveFromWatchlist (sym : jstring)
| LoadMarketData
| StartRealTimeUpdates (sym : JsVal)
| StopRealTimeUpdates
| Poll (sym : JsVal)
| ClearErrors
| ClearSearch.

Definition step (api : StocksAPI.Server) (a : Action) (w : World) : World :=
  match a with
  | SetSelectedStock stock => setSelectedStock api stock w
  | SearchStocks query => searchStocks api query w
  | GetStockQuote sym => getStockQuote api sym w
  | GetAnalysis post now sym => getAnalysis post now sym w
  | LoadWatchlist => loadWatchlist api w
  | AddToWatchlist sym => addToWatchlist api sym w
  | RemoveFromWatchlist sym => removeFromWatchlist api sym w
  | LoadMarketData => loadMarketData w
  | StartRealTimeUpdates sym => startRealTimeUpdates sym w
  | StopRealTimeUpdates => stopRealTimeUpdates w
  | Poll sym => poll api sym w
  | ClearErrors => clearErrors w
  | ClearSearch => clearSearch w
  end.

(** a sequence of actions, each run to its end before the next *)
Definition run (api : StocksAPI.Server) (actions : list Action) (w : World)
  : World :=
  fold_left (fun w a => step api a w) actions w.

(** the running intervals are the one the store remembers, and no other *)
Definition one_interval (w : World) : Prop :=
  match pollingInterval w with
  | Some id => exists sym, intervals w = [(id, sym)]
  | None => intervals w = []
  end.

(** no loading flag is up *)
Definition idle (w : World) : Prop :=
  isLoadingQuote (store w) = false
  /\ isLoadingAnalysis (store w) = false
  /\ isLoadingSearch (store w) = false
  /\ isLoadingWatchlist (store w) = false
  /\ isLoadingMarketData (store w) = false.

End Market.

(** the error of a request the sample backend turns down *)
Definition sample_rejection_error : JsError :=
  mkError (js "AxiosError") (js "Request failed with status code 500").

(* ================================================================== *)
(** ** The pages around the auth store: [AuthCallback] and [AuthGuard] *)

Inductive Toast : Type :=
| ToastError (text : jstring)
| ToastSuccess (text : jstring).

(** what [AuthGuard] renders *)
Inductive Guarded : Type :=
| Spinner
| RedirectHome
| Children.

Definition AuthGuard (s : Auth.State) : Guarded :=
  if Auth.isLoading s then Spinner
  else if negb (Auth.isAuthenticated s) then RedirectHome
  else Children.

Section AuthPages.

Variable persisted : Auth.State -> jstring.

(** The effect of the callback page, given the [request_token] and the
    [error] parameters of its URL: where it navigates, in which world, and
    the toast it shows. *)
Definition AuthCallback (srv : AuthAPI.Server)
    (requestToken errorParam : option jstring) (w : Auth.World)
  : Auth.World * Toast :=
  match errorParam with
  | Some (c :: t) =>
      (Auth.with_location (js "/") w,
       ToastError (js "Authentication failed: " ++ c :: t))
  | _ =>
      match requestToken with
      | Some (c :: t) =>
          match Auth.handleCallback persisted srv (c :: t) w with
          | (w1, Axios.Resolved _) =>
              (Auth.with_location (js "/dashboard") w1,
               ToastSuccess (js "Successfully authenticated!"))
          | (w1, Axios.Rejected _) =>
              (Auth.with_location (js "/") w1,
               ToastError (js "Authentication failed. Please try again."))
          end
      | _ =>
          (Auth.with_location (js "/") w,
           ToastError (js "No request token received from Kite"))
      end
  end.

End AuthPages.

(* ================================================================== *)
(** ** The analysis page: the colour of a reliability score *)

(** [a >= b] on Numbers: false as soon as one side is NaN *)
Definition ge (a b : JsNum) : bool :=
  match a, b with
  | NaN, _ | _, NaN => false
  | Fin x, Fin y => Qle_bool y x
  | PInf, _ => true
  | _, NInf => true
  | _, PInf => false
  | NInf, Fin _ => false
  end.

(** [getReliabilityColor(score)], the literals being the Numbers nearest
    to 0.8 and 0.6 *)
Definition getReliabilityColor (score : JsVal) : completion jstring :=
  (a <- ToNumber score ;;
   if ge a (round64 (8 # 10))
   then Normal (js "text-green-600 bg-green-50 border-green-200")
   else
     b <- ToNumber score ;;
     if ge b (round64 (6 # 10))
     then Normal (js "text-yellow-600 bg-yellow-50 border-yellow-200")
     else Normal (js "text-red-600 bg-red-50 border-red-200"))%js.

(* ================================================================== *)
(** * Properties *)

(** ** The model on known values *)

Example round64_tenth :
  round64 (1 # 10) = Fin (3602879701896397 # 36028797018963968).
Proof. vm_compute. reflexivity. Qed.

Example round64_ties_to_even :
  round64 (inject_Z 9007199254740993) = Fin (inject_Z 9007199254740992)
  /\ round64 (inject_Z 9007199254740995) = Fin (inject_Z 9007199254740996).
Proof. split; vm_compute; reflexivity. Qed.

Example StringToNumber_values :
  StringToNumber (js " 12.5e1 ") = Fin 125
  /\ StringToNumber (js "0x1F") = Fin 31
  /\ StringToNumber (js "") = Fin 0
  /\ StringToNumber (js "1,2") = NaN
  /\ StringToNumber (js "n/a") = NaN
  /\ StringToNumber (js "1.7976931348623159e308") = PInf
  /\ StringToNumber (js "2.4703282292062327e-324") = Fin 0.
Proof. repeat split; vm_compute; reflexivity. Qed.

Example parseFloat_values :
  parseFloat (str "61.8%") = Normal (round64 (618 # 10))
  /\ parseFloat (str "  -.5e-1x") = Normal (round64 (- (5 # 100)))
  /\ parseFloat (str "1e") = Normal (Fin 1)
  /\ parseFloat (str "abc") = Normal NaN
  /\ parseFloat (JArr [str "2.5"; JNull]) = Normal (Fin (5 # 2))
  /\ parseFloat (JObj [(js "valueOf", zero)]) = Normal NaN
  /\ parseFloat (JObj [(js "toString", zero)]) = Throw cannot_convert
  /\ parseFloat (JArr [str "2.5"; JObj [(js "toString", zero)]])
     = Throw cannot_convert.
Proof. repeat split; vm_compute; reflexivity. Qed.

Example ToNumber_values :
  ToNumber JNull = Normal (Fin 0)
  /\ ToNumber JUndefined = Normal NaN
  /\ ToNumber (JBool true) = Normal (Fin 1)
  /\ ToNumber (str " 12.5 ") = Normal (round64 (125 # 10))
  /\ ToNumber (JArr [str "7"]) = Normal (Fin 7)
  /\ ToNumber (JArr [JNull]) = Normal (Fin 0)
  /\ ToNumber (JArr [zero; zero]) = Normal NaN
  /\ ToNumber (JObj []) = Normal NaN
  /\ ToNumber (JObj [(js "toString", str "7")]) = Throw cannot_convert
  /\ ToNumber (JArr [JArr [JObj [(js "toString", JNull)]]]) = Throw cannot_convert
  /\ Math_abs (JNum (Fin (- (3 # 2)))) = Normal (Fin (3 # 2))
  /\ Math_abs (str "n/a") = Normal NaN
  /\ Math_abs (JObj [(js "toString", zero)]) = Throw cannot_convert
  /\ JSON_parse (js "[1e999]") = Normal (JArr [JNum PInf]).
Proof. repeat split; vm_compute; reflexivity. Qed.

Example split_values :
  split (ch ".") (js "a.b.c") = [js "a"; js "b"; js "c"]
  /\ split (ch ".") (js "abc") = [js "abc"]
  /\ split (ch ".") [] = [[]].
Proof. repeat split. Qed.

Example atob_values :
  atob (js "e30") = Normal (js "{}")
  /\ atob (js "e30=") = Normal (js "{}")
  /\ atob (js " bn Vs bA== ") = Normal (js "null")
  /\ atob (js "undefined") = Throw invalid_character
  /\ atob (js "e=30") = Throw invalid_character.
Proof. repeat split. Qed.

Example JSON_parse_values :
  JSON_parse (js "{}") = Normal (JObj [])
  /\ JSON_parse (js " [1, 2.5e1, true, null, [ ]] ")
     = Normal (JArr [JNum (Fin 1); JNum (Fin 25); JBool true; JNull; JArr []])
  /\ JSON_parse (js "01") = Throw syntax_error
  /\ JSON_parse (js "[1,]") = Throw syntax_error
  /\ JSON_parse [] = Throw syntax_error
  /\ (decoded <- atob (js "eyJleHAiOjE3MDAwMDAwMDB9") ;; JSON_parse decoded)%js
     = Normal (JObj [(js "exp", JNum (Fin 1700000000))]).
Proof. repeat split; vm_compute; reflexivity. Qed.

Example toISOString_values :
  toISOString 0 = js "1970-01-01T00:00:00.000Z"
  /\ toISOString (-1) = js "1969-12-31T23:59:59.999Z"
  /\ toISOString 951782400000 = js "2000-02-29T00:00:00.000Z"
  /\ toISOString 1700000000000 = js "2023-11-14T22:13:20.000Z"
  /\ toISOString 8640000000000000 = js "+275760-09-13T00:00:00.000Z".
Proof. repeat split; vm_compute; reflexivity. Qed.

(** a token that expires at 1700000000 s is expired from the next
    millisecond on *)
Example isTokenExpired_values :
  isTokenExpired 1700000000000 (js "h.eyJleHAiOjE3MDAwMDAwMDB9.s") = false
  /\ isTokenExpired 1700000000001 (js "h.eyJleHAiOjE3MDAwMDAwMDB9.s") = true
  /\ isTokenExpired 1700000000001 (js "not a token") = true
  /\ isTokenExpired 1700000000001 (js "h..s") = true.
Proof. repeat split; vm_compute; reflexivity. Qed.

(** ** Lists under a throwing callback *)

Lemma mapM_map {A B} (f : A -> completion B) (g : A -> B) (l : list A) :
  Forall (fun x => f x = Normal (g x)) l ->
  mapM f l = Normal (map g l).
Proof.
  induction 1 as [|x l Hx _ IH]; simpl.
  - reflexivity.
  - now rewrite Hx, IH.
Qed.

Lemma mapM_Forall {A B} (f : A -> completion B) (l : list A) (l' : list B) :
  mapM f l = Normal l' ->
  Forall (fun x => exists y, f x = Normal y) l.
Proof.
  revert l'; induction l as [|x l IH]; intros l' H; simpl in H.
  - constructor.
  - destruct (f x) as [y|e] eqn:Hx; [|discriminate].
    destruct (mapM f l) as [ys|e] eqn:Hl; [|discriminate].
    constructor; eauto.
Qed.

(** ** The callbacks *)

Lemma retracement_level_accepted lv :
  level_accepted lv = true -> retracement_level lv = Normal (level_of lv).
Proof.
  unfold level_accepted, non_null. intros H.
  apply andb_true_iff in H as [H Hd]. apply andb_true_iff in H as [Hn Hr].
  apply negb_true_iff in Hn, Hr, Hd.
  unfold retracement_level, get, parseFloat, Math_abs, ToNumber.
  rewrite Hn. cbn [bind]. rewrite Hr. cbn [bind]. rewrite Hd. reflexivity.
Qed.

Lemma retracement_level_returns lv y :
  retracement_level lv = Normal y -> level_accepted lv = true.
Proof.
  unfold retracement_level, get, parseFloat, Math_abs, ToNumber, level_accepted,
    non_null.
  destruct (nullish lv); [discriminate|]. cbn [bind].
  destruct (no_primitive (prop lv (js "ratio") || zero)%js); [discriminate|].
  cbn [bind].
  destruct (no_primitive (prop lv (js "distance_percent") || zero)%js);
    [discriminate|reflexivity].
Qed.

Lemma retracement_level_null lv y :
  retracement_level lv = Normal y -> nullish lv = false.
Proof.
  unfold retracement_level, get.
  destruct (nullish lv); [discriminate|reflexivity].
Qed.

Lemma active_pattern_non_null p :
  non_null p = true -> active_pattern p = Normal (pattern_of p).
Proof.
  unfold non_null. intros H. apply negb_true_iff in H.
  unfold active_pattern, get. rewrite H. reflexivity.
Qed.

Lemma active_pattern_null p y :
  active_pattern p = Normal y -> non_null p = true.
Proof.
  unfold active_pattern, get, non_null.
  destruct (nullish p); [discriminate|reflexivity].
Qed.

Lemma array_map_accepted {B} (ok : JsVal -> bool) (f : JsVal -> completion B)
    (g : JsVal -> B) v :
  (forall x, ok x = true -> f x = Normal (g x)) ->
  array_all ok v = true ->
  array_map v f = Normal (map g (items_of v)).
Proof.
  intros Hf Hv. destruct v; try discriminate. simpl in *.
  apply mapM_map. rewrite forallb_forall in Hv.
  apply Forall_forall. intros x Hx. apply Hf, Hv, Hx.
Qed.

Lemma array_map_returns {B} (ok : JsVal -> bool) (f : JsVal -> completion B) v l :
  (forall x y, f x = Normal y -> ok x = true) ->
  array_map v f = Normal l ->
  array_all ok v = true.
Proof.
  intros Hf H. destruct v; try discriminate. simpl in *.
  apply mapM_Forall in H. rewrite Forall_forall in H.
  apply forallb_forall. intros x Hx.
  destruct (H x Hx) as [y Hy]. exact (Hf x y Hy).
Qed.

(** ** The transform, in closed form *)

Lemma transform_well_formed now symbol backendData :
  well_formed backendData = true ->
  transform now symbol backendData =
  Normal (assemble now symbol backendData
            (map level_of (items_of (key_levels backendData)))
            (map pattern_of (items_of (chart_patterns backendData)))).
Proof.
  unfold well_formed. intros H.
  apply andb_true_iff in H as [H Hp]. apply andb_true_iff in H as [Hn Hl].
  apply negb_true_iff in Hn.
  unfold transform, get. rewrite Hn. cbn [bind].
  fold (comprehensive_data backendData).
  fold (key_levels backendData). fold (chart_patterns backendData).
  rewrite (array_map_accepted level_accepted retracement_level level_of)
    by (auto using retracement_level_accepted).
  cbn [bind].
  rewrite (array_map_accepted non_null active_pattern pattern_of)
    by (auto using active_pattern_non_null).
  reflexivity.
Qed.

Lemma transform_returns now symbol backendData r :
  transform now symbol backendData = Normal r ->
  well_formed backendData = true.
Proof.
  unfold transform, get, well_formed.
  destruct (nullish backendData) eqn:Hn; [discriminate|]. cbn [bind negb andb].
  fold (comprehensive_data backendData).
  fold (key_levels backendData). fold (chart_patterns backendData).
  destruct (array_map (key_levels backendData) retracement_level) as [ls|e] eqn:Hl;
    [|discriminate]. cbn [bind].
  destruct (array_map (chart_patterns backendData) active_pattern) as [ps|e] eqn:Hp;
    [|discriminate]. intros _.
  rewrite (array_map_returns level_accepted _ _ _ retracement_level_returns Hl).
  unfold array_of_non_null.
  rewrite (array_map_returns non_null _ _ _ active_pattern_null Hp).
  reflexivity.
Qed.

Lemma getComprehensiveAnalysis_well_formed (post : Post) now symbol backendData :
  post (js "/analysis/" ++ symbol) request_body = Normal backendData ->
  well_formed backendData = true ->
  getComprehensiveAnalysis post now symbol =
  Normal (assemble now symbol backendData
            (map level_of (items_of (key_levels backendData)))
            (map pattern_of (items_of (chart_patterns backendData)))).
Proof.
  intros Hpost Hwf. unfold getComprehensiveAnalysis. rewrite Hpost. cbn [bind].
  now apply transform_well_formed.
Qed.

(** ** The date stamp *)

Lemma split_at_first sep (p rest : jstring) :
  ~ In sep p -> hd [] (split sep (p ++ sep :: rest)) = p.
Proof.
  induction p as [|c p IH]; intros Hp; simpl.
  - now rewrite N.eqb_refl.
  - destruct (N.eqb c sep) eqn:Hc.
    + apply N.eqb_eq in Hc. exfalso. apply Hp. now left.
    + assert (Hq : hd [] (split sep (p ++ sep :: rest)) = p)
        by (apply IH; intros Hin; apply Hp; now right).
      destruct (split sep (p ++ sep :: rest)); simpl in *; now subst.
Qed.

Lemma pad_digits width n : Forall (fun c => (c < 58)%N) (pad width n).
Proof.
  revert n; induction width as [|w IH]; intros n; cbn [pad].
  - constructor.
  - apply Forall_app. split; [apply IH|].
    constructor; [|constructor].
    pose proof (Z.mod_pos_bound n 10 eq_refl) as Hm.
    assert (Hd : (Z.to_N (n mod 10) < 10)%N)
      by (change 10%N with (Z.to_N 10); apply Z2N.inj_lt; lia).
    lia.
Qed.

Lemma iso_year_chars y : Forall (fun c => (c < 58)%N) (iso_year y).
Proof.
  unfold iso_year.
  destruct ((0 <=? y) && (y <=? 9999))%Z; [apply pad_digits|].
  apply Forall_app; split; [|apply pad_digits].
  destruct (y <? 0)%Z; repeat constructor.
Qed.

Lemma iso_date_chars days : Forall (fun c => (c < 58)%N) (iso_date days).
Proof.
  unfold iso_date. destruct (civil_from_days days) as [[y m] d].
  apply Forall_app; split; [apply iso_year_chars|].
  apply Forall_app; split; [repeat constructor|].
  apply Forall_app; split; [apply pad_digits|].
  apply Forall_app; split; [repeat constructor|apply pad_digits].
Qed.

Lemma analysis_date_of_day now :
  hd [] (split (ch "T") (toISOString now)) = iso_date (now / msPerDay).
Proof.
  unfold toISOString.
  change (js "T" ++ iso_time (now mod msPerDay) ++ js "Z")
    with (ch "T" :: (iso_time (now mod msPerDay) ++ js "Z")).
  apply split_at_first. intros Hin.
  pose proof (iso_date_chars (now / msPerDay)) as Hall.
  rewrite Forall_forall in Hall. specialize (Hall _ Hin).
  vm_compute in Hall. discriminate.
Qed.

Lemma transform_same_day now1 now2 symbol backendData :
  (now1 / msPerDay = now2 / msPerDay)%Z ->
  transform now1 symbol backendData = transform now2 symbol backendData.
Proof.
  intros Hday. unfold transform.
  rewrite !analysis_date_of_day, Hday. reflexivity.
Qed.

(** The run on an accepted response: the result is the assembled record. *)
Ltac accepted Hpost Hwf :=
  eexists;
  split; [exact (getComprehensiveAnalysis_well_formed _ _ _ _ Hpost Hwf)|].

Ltac sample_run :=
  eexists;
  split; [apply (getComprehensiveAnalysis_well_formed sample_post); reflexivity|].

Lemma Forall2_map_right {A B} (P : A -> B -> Prop) (f : A -> B) (l : list A) :
  (forall x, P x (f x)) -> Forall2 P l (map f l).
Proof.
  intros H. induction l; simpl; constructor; auto.
Qed.

(* ------------------------------------------------------------------ *)
(** ** The proximity column *)

(** C1. The Significance of a Fibonacci level depends on its
    distance_percent alone: a distance below 2 reads "Critical Level", a
    distance of at least 2 and below 5 reads "Watch Zone", and every other
    distance (5 or more, infinite, not a number) reads "Reference Level". *)
Theorem significance_by_distance (l : FibonacciLevel) :
  significance l =
    significance {| level := Fin 0; price := JUndefined;
                    distance_percent := distance_percent l |}
  /\ match distance_percent l with
     | Fin q =>
         (q < 2 /\ significance l = js "Critical Level")%Q
         \/ (2 <= q /\ q < 5 /\ significance l = js "Watch Zone")%Q
         \/ (5 <= q /\ significance l = js "Reference Level")%Q
     | NInf => significance l = js "Critical Level"
     | PInf | NaN => significance l = js "Reference Level"
     end.
Proof.
  split; [reflexivity|].
  unfold significance.
  destruct (distance_percent l) as [q| | |]; cbn [lt]; try reflexivity.
  destruct (Qle_bool 2 q) eqn:H2; cbn [negb].
  - apply Qle_bool_iff in H2.
    destruct (Qle_bool 5 q) eqn:H5; cbn [negb].
    + apply Qle_bool_iff in H5. right; right. split; [exact H5|reflexivity].
    + right; left. repeat split; [exact H2|].
      apply Qnot_le_lt. intros H. apply Qle_bool_iff in H. congruence.
  - left. split; [|reflexivity].
    apply Qnot_le_lt. intros H. apply Qle_bool_iff in H. congruence.
Qed.

(* ------------------------------------------------------------------ *)
(** ** The date stamp of the result *)

(** C2, refuted as stated: with the same symbol and the same backend
    response, a run when the clock reads 1970-01-01 and a run a day later
    give different results. *)
Lemma clock_changes_result :
  getComprehensiveAnalysis sample_post 0 (js "TCS")
  <> getComprehensiveAnalysis sample_post 86400000 (js "TCS").
Proof.
  intros H.
  apply (f_equal (map_completion (fun r => analysis_date (analysis_summary r)))) in H.
  vm_compute in H. discriminate H.
Qed.

(** C2, amended. The result depends on the clock through its date stamp
    only: the run at any clock reading gives the result of the run at the
    epoch with analysis_date replaced by the UTC calendar date of the
    reading. *)
Theorem result_depends_on_clock_through_date (post : Post) (symbol : jstring) (now : Z) :
  getComprehensiveAnalysis post now symbol =
  map_completion (with_analysis_date (iso_date (now / msPerDay)))
    (getComprehensiveAnalysis post 0 symbol).
Proof.
  unfold getComprehensiveAnalysis.
  destruct (post (js "/analysis/" ++ symbol) request_body) as [backendData|e];
    cbn [bind map_completion]; [|reflexivity].
  unfold transform.
  destruct (get backendData (js "comprehensive_data")) as [cd|e];
    cbn [bind map_completion]; [|reflexivity].
  destruct (array_map _ retracement_level) as [levels|e];
    cbn [bind map_completion]; [|reflexivity].
  destruct (array_map _ active_pattern) as [patterns|e];
    cbn [bind map_completion]; [|reflexivity].
  rewrite analysis_date_of_day. reflexivity.
Qed.

(* ------------------------------------------------------------------ *)
(** ** The two Fibonacci sets *)

(** C3, refuted as stated: the sample response reports levels of a
    qualifying swing (among them the 200 % extension), and the result
    carries both of them as retracements and no extension level. *)
Lemma extension_set_stays_empty :
  exists r,
    getComprehensiveAnalysis sample_post 0 (js "TCS") = Normal r
    /\ map level (retracement_levels (fibonacci_retracements (fibonacci_analysis r)))
       = [Fin (1 # 2); Fin 2]
    /\ extension_levels (fibonacci_extensions (fibonacci_analysis r)) = [].
Proof.
  sample_run.
  split; reflexivity.
Qed.

(** C3, amended. On every response it accepts, the run returns a result
    whose retracement set holds one level per key level of the response, in
    order, whose extension set is empty, and whose swing high and swing low
    are the constant placeholders. *)
Theorem extension_levels_always_empty (post : Post) (now : Z) (symbol : jstring)
    (backendData : JsVal) :
  post (js "/analysis/" ++ symbol) request_body = Normal backendData ->
  well_formed backendData = true ->
  exists r,
    getComprehensiveAnalysis post now symbol = Normal r
    /\ retracement_levels (fibonacci_retracements (fibonacci_analysis r))
       = map level_of (items_of (key_levels backendData))
    /\ extension_levels (fibonacci_extensions (fibonacci_analysis r)) = []
    /\ prop (current_fibonacci_analysis (fibonacci_analysis r))
         (js "most_recent_swing_high") = swing_placeholder
    /\ prop (current_fibonacci_analysis (fibonacci_analysis r))
         (js "most_recent_swing_low") = swing_placeholder.
Proof.
  intros Hpost Hwf. accepted Hpost Hwf.
  repeat split.
Qed.

Lemma extension_levels_always_empty_witness :
  sample_post (js "/analysis/" ++ js "TCS") request_body = Normal sample_response
  /\ well_formed sample_response = true
  /\ exists r,
       getComprehensiveAnalysis sample_post 0 (js "TCS") = Normal r
       /\ retracement_levels (fibonacci_retracements (fibonacci_analysis r))
          = map level_of (items_of (key_levels sample_response))
       /\ extension_levels (fibonacci_extensions (fibonacci_analysis r)) = [].
Proof.
  split; [reflexivity|]. split; [reflexivity|].
  destruct (extension_levels_always_empty sample_post 0 (js "TCS") sample_response
              eq_refl eq_refl) as [r [Hr [Hl [He _]]]].
  exists r. repeat split; assumption.
Defined.

(* ------------------------------------------------------------------ *)
(** ** The trading bias *)

(** C4, refuted as stated: the sample response emits one bullish
    opportunity, which the result passes on; the weighted vote of the
    specification is "Bullish", the bias of the result is not. *)
Lemma bias_ignores_opportunities :
  exists r,
    getComprehensiveAnalysis sample_post 0 (js "TCS") = Normal r
    /\ trading_opportunities r = JArr [sample_opportunity]
    /\ spec_votes (trading_opportunities r) = [(Bullish, (3 # 4)%Q)]
    /\ spec_trading_bias (spec_votes (trading_opportunities r)) = js "Bullish"
    /\ trading_bias (immediate_trading_plan r)
       <> spec_trading_bias (spec_votes (trading_opportunities r)).
Proof.
  sample_run.
  repeat split; try reflexivity.
  vm_compute. discriminate.
Qed.

(** C4, amended. On every response it accepts, the run returns a result
    whose trading bias is the constant "Neutral", while the opportunities
    of the response are passed on unchanged (an empty list when absent). *)
Theorem trading_bias_is_neutral (post : Post) (now : Z) (symbol : jstring)
    (backendData : JsVal) :
  post (js "/analysis/" ++ symbol) request_body = Normal backendData ->
  well_formed backendData = true ->
  exists r,
    getComprehensiveAnalysis post now symbol = Normal r
    /\ trading_bias (immediate_trading_plan r) = js "Neutral"
    /\ trading_opportunities r
       = (prop backendData (js "trading_opportunities") || JArr [])%js.
Proof.
  intros Hpost Hwf. accepted Hpost Hwf.
  split; reflexivity.
Qed.

Lemma trading_bias_is_neutral_witness :
  sample_post (js "/analysis/" ++ js "TCS") request_body = Normal sample_response
  /\ well_formed sample_response = true
  /\ exists r,
       getComprehensiveAnalysis sample_post 0 (js "TCS") = Normal r
       /\ trading_bias (immediate_trading_plan r) = js "Neutral"
       /\ trading_opportunities r
          = (prop sample_response (js "trading_opportunities") || JArr [])%js.
Proof.
  split; [reflexivity|]. split; [reflexivity|].
  apply (trading_bias_is_neutral sample_post 0 (js "TCS") sample_response);
    reflexivity.
Defined.

(* ------------------------------------------------------------------ *)
(** ** Fibonacci prices of the engine *)

(** C5. With the swing low at most the swing high, every level of a ratio
    between 0 and 1 lies between the two, in both forms of the formula;
    every level of a ratio above 1 lies at or beyond the swing in the trend
    direction, strictly beyond when the swing is not flat; and so do the
    standard retracement and extension sets. *)
Theorem fibonacci_levels_within_and_beyond (low high ratio : Q) :
  (low <= high)%Q ->
  ((0 <= ratio)%Q -> (ratio <= 1)%Q ->
     (low <= fib_price low high ratio <= high)%Q
     /\ (low <= fib_price_inverted low high ratio <= high)%Q)
  /\ ((1 < ratio)%Q ->
        (high <= fib_price low high ratio)%Q
        /\ (fib_price_inverted low high ratio <= low)%Q
        /\ ((low < high)%Q ->
              (high < fib_price low high ratio)%Q
              /\ (fib_price_inverted low high ratio < low)%Q))
  /\ (forall t, Forall (fun p => (low <= p <= high)%Q)
                  (fib_levels t low high retracement_ratios))
  /\ Forall (fun p => (high <= p)%Q) (fib_levels Up low high extension_ratios)
  /\ Forall (fun p => (p <= low)%Q) (fib_levels Down low high extension_ratios).
Proof.
  intros Hswing. unfold fib_price, fib_price_inverted.
  split; [intros H0 H1; repeat split; nra|].
  split; [intros H1; repeat split; try nra; intros Hlt; nra|].
  split; [intros [|]; unfold fib_levels, retracement_ratios;
          cbn [map]; unfold fib_price, fib_price_inverted;
          repeat constructor; lra|].
  split; unfold fib_levels, extension_ratios; cbn [map];
    unfold fib_price, fib_price_inverted; repeat constructor; lra.
Qed.

Lemma fibonacci_levels_within_and_beyond_witness :
  (100 <= 200)%Q
  /\ (150 == fib_price 100 200 (1 # 2))%Q
  /\ (100 <= fib_price 100 200 (1 # 2) <= 200)%Q.
Proof.
  split; [discriminate|]. split; [reflexivity|].
  apply (fibonacci_levels_within_and_beyond 100 200 (1 # 2));
    discriminate.
Defined.

(* ------------------------------------------------------------------ *)
(** ** Reliability scores *)

Lemma in_unit_interval_or_zero (v : JsVal) :
  in_unit_interval (v || zero)%js
  = (in_unit_interval v || negb (truthy v))%bool.
Proof.
  unfold js_or. destruct (truthy v); cbn [negb].
  - now rewrite orb_false_r.
  - now rewrite orb_true_r.
Qed.

(** C6, refuted as stated: the sample response scores its pattern 1.5,
    and the pattern of the result carries that score, outside of the
    interval from 0 to 1. *)
Lemma reliability_score_above_one :
  exists r,
    getComprehensiveAnalysis sample_post 0 (js "TCS") = Normal r
    /\ map reliability_score (active_patterns r) = [JNum (Fin (3 # 2))]
    /\ forallb in_unit_interval (map reliability_score (active_patterns r)) = false.
Proof.
  sample_run.
  split; reflexivity.
Qed.

(** C6, amended. On every response it accepts, the run returns one active
    pattern per chart pattern of the response, in order; its
    reliability_score is the score of the response unchanged, or 0 when
    that score is absent or falsy; so it lies between 0 and 1 exactly when
    the score of the response does or is absent or falsy. *)
Theorem reliability_score_passed_through (post : Post) (now : Z) (symbol : jstring)
    (backendData : JsVal) :
  post (js "/analysis/" ++ symbol) request_body = Normal backendData ->
  well_formed backendData = true ->
  exists r,
    getComprehensiveAnalysis post now symbol = Normal r
    /\ Forall2
         (fun pattern p =>
            reliability_score p
            = (prop pattern (js "reliability_score") || zero)%js
            /\ in_unit_interval (reliability_score p)
               = (in_unit_interval (prop pattern (js "reliability_score"))
                  || negb (truthy (prop pattern (js "reliability_score"))))%bool)
         (items_of (chart_patterns backendData)) (active_patterns r).
Proof.
  intros Hpost Hwf. accepted Hpost Hwf.
  cbn [assemble active_patterns].
  apply Forall2_map_right. intros pattern. cbn [pattern_of reliability_score].
  split; [reflexivity|apply in_unit_interval_or_zero].
Qed.

Lemma reliability_score_passed_through_witness :
  sample_post (js "/analysis/" ++ js "TCS") request_body = Normal sample_response
  /\ well_formed sample_response = true
  /\ exists r,
       getComprehensiveAnalysis sample_post 0 (js "TCS") = Normal r
       /\ Forall2
            (fun pattern p =>
               reliability_score p
               = (prop pattern (js "reliability_score") || zero)%js
               /\ in_unit_interval (reliability_score p)
                  = (in_unit_interval (prop pattern (js "reliability_score"))
                     || negb (truthy (prop pattern (js "reliability_score"))))%bool)
            (items_of (chart_patterns sample_response)) (active_patterns r).
Proof.
  split; [reflexivity|]. split; [reflexivity|].
  apply (reliability_score_passed_through sample_post 0 (js "TCS") sample_response);
    reflexivity.
Defined.

(* ------------------------------------------------------------------ *)
(** ** Failure of the analysis in the store *)

Lemma getAnalysis_failure (post : Post) now symbol (st : MarketStore) (e : JsError) :
  getComprehensiveAnalysis post now symbol = Throw e ->
  getAnalysis post now symbol st
  = set_isLoadingAnalysis false
      (set_analysisError (Some (message_or e (js "Failed to load analysis"))) st).
Proof.
  intros H. unfold getAnalysis. rewrite H. reflexivity.
Qed.

Lemma message_or_not_empty (e : JsError) : message_or e (js "Failed to load analysis") <> [].
Proof.
  unfold message_or. destruct (message e); discriminate.
Qed.

(** C7. A series shorter than the floor makes the engine raise
    InsufficientDataError; the request is rejected, and getAnalysis ends
    with the analysis of the store unchanged, the loading flag down and a
    non-empty error message recorded: the store is the former store with
    these two fields set, and nothing else. *)
Theorem insufficient_data_leaves_analysis_unchanged {Bar : Type} (N_min : nat)
    (stages : list Bar -> JsVal) (surface : AnalysisError -> JsError)
    (series : list Bar) (now : Z) (symbol : jstring) (st : MarketStore) :
  (length series < N_min)%nat ->
  let post := backend_post N_min stages surface series in
  let st' := getAnalysis post now symbol st in
  analyze N_min stages series = inl InsufficientDataError
  /\ getComprehensiveAnalysis post now symbol = Throw (surface InsufficientDataError)
  /\ analysis st' = analysis st
  /\ (exists m, analysisError st' = Some m /\ m <> [])
  /\ isLoadingAnalysis st' = false
  /\ st' = set_isLoadingAnalysis false
             (set_analysisError
                (Some (message_or (surface InsufficientDataError)
                         (js "Failed to load analysis"))) st).
Proof.
  intros Hshort post st'.
  assert (Hguard : analyze N_min stages series = inl InsufficientDataError).
  { unfold analyze. apply Nat.ltb_lt in Hshort. now rewrite Hshort. }
  assert (Hcall : getComprehensiveAnalysis post now symbol
                  = Throw (surface InsufficientDataError)).
  { unfold getComprehensiveAnalysis, post, backend_post. now rewrite Hguard. }
  assert (Hst : st' = set_isLoadingAnalysis false
                        (set_analysisError
                           (Some (message_or (surface InsufficientDataError)
                                    (js "Failed to load analysis"))) st))
    by (apply getAnalysis_failure; exact Hcall).
  repeat split; try assumption; rewrite Hst; try reflexivity.
  eexists; split; [reflexivity|apply message_or_not_empty].
Qed.

Lemma insufficient_data_leaves_analysis_unchanged_witness :
  (length [1; 2; 3]%nat < 30)%nat
  /\ analysis (getAnalysis (backend_post 30 (fun _ : list nat => sample_response)
                              sample_rejection [1; 2; 3]%nat)
                 0 (js "TCS") initial_store)
     = analysis initial_store.
Proof.
  split; [repeat constructor|].
  apply (insufficient_data_leaves_analysis_unchanged 30
           (fun _ : list nat => sample_response) sample_rejection
           [1; 2; 3]%nat 0 (js "TCS") initial_store).
  repeat constructor.
Defined.

(* ------------------------------------------------------------------ *)
(** ** The indicators of a flat series *)

(** C8, refuted as stated: to a response in which the backend marks the
    volatility of a flat series as degenerate and in which the entropy is
    infinite, the result says that the volatility is 0 and Normal, with no
    flag, and carries the infinite entropy on. *)
Lemma flat_series_reads_normal :
  exists r,
    getComprehensiveAnalysis flat_post 0 (js "TCS") = Normal r
    /\ prop (prop (prop (comprehensive_data flat_response)
                     (js "current_market_structure")) (js "volatility"))
         (js "volatility_assessment") = str "Degenerate"
    /\ prop (volatility r) (js "volatility_assessment") = str "Normal"
    /\ prop (volatility r) (js "current_volatility") = zero
    /\ prop (mathematical_analysis r) (js "shannon_entropy") = JNum PInf
    /\ finite_number (prop (mathematical_analysis r) (js "shannon_entropy")) = false.
Proof.
  eexists.
  split; [apply (getComprehensiveAnalysis_well_formed flat_post); reflexivity|].
  repeat split.
Qed.

Lemma well_formed_by_comprehensive_data (a b : JsVal) :
  nullish a = false ->
  prop a (js "comprehensive_data") = prop b (js "comprehensive_data") ->
  well_formed b = true ->
  well_formed a = true.
Proof.
  unfold well_formed, key_levels, chart_patterns, comprehensive_data.
  intros Hn <-. rewrite Hn. intros H.
  apply andb_true_iff in H as [H Hp]. apply andb_true_iff in H as [_ Hl].
  now rewrite Hl, Hp.
Qed.

(** C8, amended. On every response it accepts, whatever the series behind
    it, the run returns a result whose volatility block is the constant
    one: a current volatility of 0 and a percentile of 0, both finite, and
    the assessment Normal, with no degenerate or unavailable state; and the
    mathematical analysis and the mathematical indicators of the result
    are those of the response, unchanged, or an empty object when absent
    or falsy. What these two hold never makes the run fail: a response that
    is not null and has the same comprehensive data is accepted as well,
    whatever else it holds. *)
Theorem volatility_block_is_constant (post : Post) (now : Z) (symbol : jstring)
    (backendData : JsVal) :
  post (js "/analysis/" ++ symbol) request_body = Normal backendData ->
  well_formed backendData = true ->
  exists r,
    getComprehensiveAnalysis post now symbol = Normal r
    /\ volatility r = volatility_placeholder
    /\ finite_number (prop (volatility r) (js "current_volatility")) = true
    /\ finite_number (prop (volatility r) (js "volatility_percentile")) = true
    /\ prop (volatility r) (js "volatility_assessment") = str "Normal"
    /\ mathematical_analysis r
       = (prop backendData (js "mathematical_analysis") || JObj [])%js
    /\ mathematical_indicators r
       = (prop backendData (js "mathematical_indicators") || JObj [])%js
    /\ (forall other,
          nullish other = false ->
          prop other (js "comprehensive_data")
          = prop backendData (js "comprehensive_data") ->
          exists r',
            getComprehensiveAnalysis (fun _ _ => Normal other) now symbol = Normal r'
            /\ volatility r' = volatility_placeholder
            /\ mathematical_analysis r'
               = (prop other (js "mathematical_analysis") || JObj [])%js).
Proof.
  intros Hpost Hwf. accepted Hpost Hwf.
  do 6 (split; [reflexivity|]).
  intros other Hn Hcd.
  pose proof (well_formed_by_comprehensive_data other backendData Hn Hcd Hwf) as Hw.
  eexists.
  split; [exact (getComprehensiveAnalysis_well_formed (fun _ _ => Normal other)
                   now symbol other eq_refl Hw)|].
  split; reflexivity.
Qed.

Lemma volatility_block_is_constant_witness :
  flat_post (js "/analysis/" ++ js "TCS") request_body = Normal flat_response
  /\ well_formed flat_response = true
  /\ exists r,
       getComprehensiveAnalysis flat_post 0 (js "TCS") = Normal r
       /\ volatility r = volatility_placeholder
       /\ mathematical_analysis r
          = JObj [ (js "shannon_entropy", JNum PInf);
                   (js "fractal_dimension", JNull) ].
Proof.
  split; [reflexivity|]. split; [reflexivity|].
  destruct (volatility_block_is_constant flat_post 0 (js "TCS") flat_response
              eq_refl eq_refl) as [r [Hr [Hv [_ [_ [_ [Hm _]]]]]]].
  exists r. split; [exact Hr|]. split; [exact Hv|]. exact Hm.
Defined.

(* ------------------------------------------------------------------ *)
(** ** Distances of the retracement levels *)

Lemma abs_never_negative (n : JsNum) : lt (abs n) (Fin 0) = false.
Proof.
  destruct n as [q| | |]; cbn [abs lt]; try reflexivity.
  apply negb_false_iff, Qle_bool_iff, Qabs_nonneg.
Qed.

Lemma abs_ge_zero (n : JsNum) : ge (abs n) (Fin 0) = negb (is_nan n).
Proof.
  destruct n as [q| | |]; cbn [abs ge is_nan negb]; try reflexivity.
  apply Qle_bool_iff, Qabs_nonneg.
Qed.

Lemma abs_nan (n : JsNum) : abs n = NaN <-> n = NaN.
Proof.
  destruct n; cbn [abs]; split; try discriminate; reflexivity.
Qed.

Lemma level_of_distance (lv : JsVal) :
  let v := prop lv (js "distance_percent") in
  let d := distance_percent (level_of lv) in
  lt d (Fin 0) = false
  /\ (ge d (Fin 0) = false <-> d = NaN)
  /\ (d = NaN <-> number_value (v || zero)%js = NaN)
  /\ (truthy v = false -> d = Fin 0)
  /\ (forall q, v = JNum (Fin q) -> exists q', d = Fin q' /\ (q' == Qabs q)%Q)
  /\ (v = JNum PInf \/ v = JNum NInf -> d = PInf)
  /\ (forall s, v = JStr s -> d = abs (StringToNumber s))
  /\ (v = JBool true -> d = Fin 1)
  /\ (forall props, v = JObj props -> d = NaN)
  /\ (v = JArr [] -> d = Fin 0)
  /\ (forall n, v = JArr [JNum n] -> d = abs n)
  /\ (forall s, v = JArr [JStr s] -> d = abs (StringToNumber s))
  /\ (forall x y r, v = JArr (x :: y :: r) -> d = NaN).
Proof.
  cbn zeta. cbn [level_of distance_percent].
  set (v := prop lv (js "distance_percent")).
  split; [apply abs_never_negative|].
  split.
  { rewrite abs_ge_zero, abs_nan, negb_false_iff.
    destruct (number_value (v || zero)%js); cbn [is_nan]; split;
      try discriminate; reflexivity. }
  split; [apply abs_nan|].
  split.
  { intros Hf. unfold js_or. rewrite Hf. reflexivity. }
  split.
  { intros q ->. unfold js_or, truthy, is_zero.
    destruct (Qeq_bool q 0) eqn:Hz; cbn [negb number_value abs zero].
    - apply Qeq_bool_iff in Hz. exists (Qabs 0). split; [reflexivity|].
      now rewrite Hz.
    - exists (Qabs q). split; reflexivity. }
  split.
  { intros [-> | ->]; reflexivity. }
  split.
  { intros s ->. destruct s; reflexivity. }
  split; [intros ->; reflexivity|].
  split; [intros props ->; reflexivity|].
  split; [intros ->; reflexivity|].
  split; [intros n ->; reflexivity|].
  split; [intros s ->; reflexivity|].
  intros x y r ->. reflexivity.
Qed.

(** C9, refuted as stated: a key level whose distance is reported as the
    text n/a is delivered with a distance_percent that is NaN, which is
    not at least 0. *)
Lemma distance_percent_not_a_number :
  exists r,
    getComprehensiveAnalysis (fun _ _ => Normal unreadable_distance_response)
      0 (js "TCS") = Normal r
    /\ map distance_percent
         (retracement_levels (fibonacci_retracements (fibonacci_analysis r)))
       = [NaN]
    /\ forallb (fun d => ge d (Fin 0))
         (map distance_percent
            (retracement_levels (fibonacci_retracements (fibonacci_analysis r))))
       = false.
Proof.
  eexists.
  split; [apply (getComprehensiveAnalysis_well_formed
                   (fun _ _ => Normal unreadable_distance_response));
          reflexivity|].
  split; reflexivity.
Qed.

(** C9, amended. On every response it accepts, the run returns one
    retracement level per key level, and the distance_percent of a level
    is the absolute value of the Number its reported distance converts to.
    It is never below zero, and it is at least 0 unless it is NaN, which
    happens exactly when the reported distance converts to NaN. It is 0
    when the distance is absent or falsy, the absolute value of a reported
    finite number, negative or not, Infinity for an infinite one, the
    absolute value of what a text reads as, 1 for true, NaN for an object
    or an array of several entries, 0 for an empty array, and for an array
    of one number or one text what that entry gives. *)
Theorem distance_percent_is_absolute_value (post : Post) (now : Z) (symbol : jstring)
    (backendData : JsVal) :
  post (js "/analysis/" ++ symbol) request_body = Normal backendData ->
  well_formed backendData = true ->
  exists r,
    getComprehensiveAnalysis post now symbol = Normal r
    /\ Forall2
         (fun lv l =>
            let v := prop lv (js "distance_percent") in
            let d := distance_percent l in
            lt d (Fin 0) = false
            /\ (ge d (Fin 0) = false <-> d = NaN)
            /\ (d = NaN <-> number_value (v || zero)%js = NaN)
            /\ (truthy v = false -> d = Fin 0)
            /\ (forall q, v = JNum (Fin q) ->
                exists q', d = Fin q' /\ (q' == Qabs q)%Q)
            /\ (v = JNum PInf \/ v = JNum NInf -> d = PInf)
            /\ (forall s, v = JStr s -> d = abs (StringToNumber s))
            /\ (v = JBool true -> d = Fin 1)
            /\ (forall props, v = JObj props -> d = NaN)
            /\ (v = JArr [] -> d = Fin 0)
            /\ (forall n, v = JArr [JNum n] -> d = abs n)
            /\ (forall s, v = JArr [JStr s] -> d = abs (StringToNumber s))
            /\ (forall x y r, v = JArr (x :: y :: r) -> d = NaN))
         (items_of (key_levels backendData))
         (retracement_levels (fibonacci_retracements (fibonacci_analysis r))).
Proof.
  intros Hpost Hwf. accepted Hpost Hwf.
  cbn [assemble fibonacci_analysis fibonacci_retracements retracement_levels].
  apply Forall2_map_right. intros lv. apply level_of_distance.
Qed.

Lemma distance_percent_is_absolute_value_witness :
  sample_post (js "/analysis/" ++ js "TCS") request_body = Normal sample_response
  /\ well_formed sample_response = true
  /\ exists r,
       getComprehensiveAnalysis sample_post 0 (js "TCS") = Normal r
       /\ map distance_percent
            (retracement_levels (fibonacci_retracements (fibonacci_analysis r)))
          = [Fin (25 # 4); Fin (175 # 2)].
Proof.
  split; [reflexivity|]. split; [reflexivity|].
  destruct (distance_percent_is_absolute_value sample_post 0 (js "TCS")
              sample_response eq_refl eq_refl) as [r [Hr _]].
  exists r. split; [exact Hr|].
  assert (Hs : getComprehensiveAnalysis sample_post 0 (js "TCS")
               = Normal (assemble 0 (js "TCS") sample_response
                           (map level_of (items_of (key_levels sample_response)))
                           (map pattern_of (items_of (chart_patterns sample_response)))))
    by (apply (getComprehensiveAnalysis_well_formed sample_post); reflexivity).
  rewrite Hs in Hr. injection Hr as <-. reflexivity.
Defined.

(* ------------------------------------------------------------------ *)
(** ** Expiry of a token *)

Lemma isTokenExpired_throws (now : Z) (token : jstring) :
  (exists e, atob (payload_segment token) = Throw e)
  \/ (exists text, atob (payload_segment token) = Normal text
        /\ ((exists e, JSON_parse text = Throw e) \/ JSON_parse text = Normal JNull)) ->
  isTokenExpired now token = true.
Proof.
  unfold isTokenExpired.
  intros [[e H]|[text [H [[e H']|H']]]]; rewrite H; cbn [bind];
    try rewrite H'; reflexivity.
Qed.

Lemma isTokenExpired_without_exp (now : Z) (token text : jstring)
    (props : list (jstring * JsVal)) :
  atob (payload_segment token) = Normal text ->
  JSON_parse text = Normal (JObj props) ->
  lookup (js "exp") props = JUndefined ->
  isTokenExpired now token = false.
Proof.
  intros Ha Hp Hexp. unfold isTokenExpired.
  rewrite Ha; cbn [bind]. rewrite Hp; cbn [bind get nullish prop].
  rewrite Hexp. reflexivity.
Qed.

(** C10, where the code misses a case. The token [h.e30.s] splits into
    three parts, its payload [e30] is the base64 of the JSON object with no
    member, which has no exp; at every clock reading isTokenExpired
    returns false for it, where a token without a numeric exp is to be
    taken as expired. *)
Theorem token_without_exp_is_not_expired (now : Z) :
  atob (payload_segment (js "h.e30.s")) = Normal (js "{}")
  /\ JSON_parse (js "{}") = Normal (JObj [])
  /\ isTokenExpired now (js "h.e30.s") = false.
Proof.
  split; [reflexivity|]. split; [reflexivity|].
  apply (isTokenExpired_without_exp now _ (js "{}") []); reflexivity.
Qed.

(* ------------------------------------------------------------------ *)
(** * Further properties of the code *)

(** ** Storage and tokens *)

Lemma jstring_eqb_eq (a b : jstring) : jstring_eqb a b = true <-> a = b.
Proof.
  revert b; induction a as [|x a IH]; intros [|y b]; simpl; split;
    try discriminate; try reflexivity.
  - intros H. apply andb_true_iff in H as [Hx Ha].
    apply N.eqb_eq in Hx. apply IH in Ha. now subst.
  - intros H. injection H as -> ->. rewrite N.eqb_refl. now apply IH.
Qed.

Lemma jstring_eqb_refl (a : jstring) : jstring_eqb a a = true.
Proof. now apply jstring_eqb_eq. Qed.

Lemma jstring_eqb_neq (a b : jstring) : a <> b -> jstring_eqb a b = false.
Proof.
  intros H. destruct (jstring_eqb a b) eqn:E; [|reflexivity].
  apply jstring_eqb_eq in E. contradiction.
Qed.

Lemma getItem_setItem_same k v s : getItem k (setItem k v s) = Some v.
Proof.
  induction s as [|[k' v'] s IH]; simpl.
  - now rewrite jstring_eqb_refl.
  - destruct (jstring_eqb k k') eqn:E; simpl; now rewrite E.
Qed.

Lemma getItem_setItem_other k k' v s :
  k <> k' -> getItem k (setItem k' v s) = getItem k s.
Proof.
  intros Hne. induction s as [|[k0 v0] s IH]; simpl.
  - now rewrite (jstring_eqb_neq _ _ Hne).
  - destruct (jstring_eqb k' k0) eqn:E; simpl.
    + apply jstring_eqb_eq in E. subst k0.
      now rewrite (jstring_eqb_neq _ _ Hne).
    + now rewrite IH.
Qed.

Lemma getItem_removeItem_same k s : getItem k (removeItem k s) = None.
Proof.
  induction s as [|[k' v'] s IH]; simpl; [reflexivity|].
  destruct (jstring_eqb k k') eqn:E; simpl; [exact IH|].
  now rewrite E.
Qed.

Lemma getItem_removeItem_other k k' s :
  k <> k' -> getItem k (removeItem k' s) = getItem k s.
Proof.
  intros Hne. induction s as [|[k0 v0] s IH]; simpl; [reflexivity|].
  destruct (jstring_eqb k' k0) eqn:E; simpl.
  - apply jstring_eqb_eq in E. subst k0.
    now rewrite (jstring_eqb_neq _ _ Hne).
  - now rewrite IH.
Qed.

Lemma tokens_read_back_holds (accessToken refreshToken : jstring) (s : Storage) :
  getAccessToken (setTokens accessToken refreshToken s) = Some accessToken
  /\ getRefreshToken (setTokens accessToken refreshToken s) = Some refreshToken
  /\ forall k, k <> js "accessToken" -> k <> js "refreshToken" ->
       getItem k (setTokens accessToken refreshToken s) = getItem k s.
Proof.
  unfold getAccessToken, getRefreshToken, setTokens. repeat split.
  - rewrite getItem_setItem_other by discriminate. apply getItem_setItem_same.
  - apply getItem_setItem_same.
  - intros k Ha Hr. now rewrite !getItem_setItem_other.
Qed.

(** X1. After setTokens, getAccessToken and getRefreshToken give back the
    two tokens that were stored, whatever the storage held before, and
    every other key of the storage reads as before. *)
Theorem tokens_read_back (accessToken refreshToken : jstring) (s : Storage) :
  getAccessToken (setTokens accessToken refreshToken s) = Some accessToken
  /\ getRefreshToken (setTokens accessToken refreshToken s) = Some refreshToken
  /\ forall k, k <> js "accessToken" -> k <> js "refreshToken" ->
       getItem k (setTokens accessToken refreshToken s) = getItem k s.
Proof.
  exact (tokens_read_back_holds accessToken refreshToken s).
Qed.

Lemma tokens_cleared_holds (s : Storage) :
  getAccessToken (clearTokens s) = None
  /\ getRefreshToken (clearTokens s) = None
  /\ (forall a r, getAccessToken (clearTokens (setTokens a r s)) = None
                  /\ getRefreshToken (clearTokens (setTokens a r s)) = None)
  /\ forall k, k <> js "accessToken" -> k <> js "refreshToken" ->
       getItem k (clearTokens s) = getItem k s.
Proof.
  assert (H : forall s', getAccessToken (clearTokens s') = None
                         /\ getRefreshToken (clearTokens s') = None).
  { intros s'. unfold getAccessToken, getRefreshToken, clearTokens. split.
    - rewrite getItem_removeItem_other by discriminate.
      apply getItem_removeItem_same.
    - apply getItem_removeItem_same. }
  split; [apply H|]. split; [apply H|]. split; [intros a r; apply H|].
  intros k Ha Hr. unfold clearTokens. now rewrite !getItem_removeItem_other.
Qed.

(** X2. After clearTokens both getters give null, also right after
    setTokens, and every other key of the storage reads as before. *)
Theorem tokens_cleared (s : Storage) :
  getAccessToken (clearTokens s) = None
  /\ getRefreshToken (clearTokens s) = None
  /\ (forall a r, getAccessToken (clearTokens (setTokens a r s)) = None
                  /\ getRefreshToken (clearTokens (setTokens a r s)) = None)
  /\ forall k, k <> js "accessToken" -> k <> js "refreshToken" ->
       getItem k (clearTokens s) = getItem k s.
Proof.
  exact (tokens_cleared_holds s).
Qed.

(** ** The interceptors *)


Lemma unauthorized_clears_tokens_holds (e : Axios.Error) (b : Browser) :
  snd (response_interceptor e b) = Axios.Rejected e
  /\ (forall r, Axios.response e = Some r -> Axios.status r = 401%Z ->
        let b' := fst (response_interceptor e b) in
        getAccessToken (storage b') = None
        /\ getRefreshToken (storage b') = None
        /\ location b' = js "/"
        /\ (forall headers, request_interceptor (storage b') headers = headers)
        /\ forall k, k <> js "accessToken" -> k <> js "refreshToken" ->
             getItem k (storage b') = getItem k (storage b))
  /\ ((forall r, Axios.response e = Some r -> Axios.status r <> 401%Z) ->
      fst (response_interceptor e b) = b).
Proof.
  split; [reflexivity|]. split.
  - intros r Hr Hs b'. subst b'. unfold response_interceptor. rewrite Hr, Hs.
    cbn [fst Z.eqb Pos.eqb storage location].
    fold (clearTokens (storage b)).
    destruct (tokens_cleared_holds (storage b)) as [Ha [Hrf [_ Hk]]].
    repeat split; try assumption.
    intros headers. unfold request_interceptor.
    unfold getAccessToken in Ha. now rewrite Ha.
  - intros H. unfold response_interceptor.
    destruct (Axios.response e) as [r|]; [|reflexivity].
    specialize (H r eq_refl). apply Z.eqb_neq in H. now rewrite H.
Qed.

(** X4. The response interceptor rejects every failed request again with
    the same error. On a 401 it leaves no access token and no refresh
    token in the storage, keeps every other key, sends the page to [/],
    and the next request carries no Authorization header of its making;
    on any other failure the storage and the location stay as they are. *)
Theorem unauthorized_clears_tokens (e : Axios.Error) (b : Browser) :
  snd (response_interceptor e b) = Axios.Rejected e
  /\ (forall r, Axios.response e = Some r -> Axios.status r = 401%Z ->
        let b' := fst (response_interceptor e b) in
        getAccessToken (storage b') = None
        /\ getRefreshToken (storage b') = None
        /\ location b' = js "/"
        /\ (forall headers, request_interceptor (storage b') headers = headers)
        /\ forall k, k <> js "accessToken" -> k <> js "refreshToken" ->
             getItem k (storage b') = getItem k (storage b))
  /\ ((forall r, Axios.response e = Some r -> Axios.status r <> 401%Z) ->
      fst (response_interceptor e b) = b).
Proof.
  exact (unauthorized_clears_tokens_holds e b).
Qed.

Lemma js_or_truthy (v d : JsVal) : truthy d = true -> truthy (v || d)%js = true.
Proof.
  intros Hd. unfold js_or. destruct (truthy v) eqn:Hv; assumption.
Qed.

(** X5. handleApiError never returns an empty or otherwise falsy message.
    A truthy detail of the server's answer is returned as it is, before
    the timeout and network texts; without one, the result is a non-empty
    string. *)
Theorem handleApiError_never_empty (e : Axios.Error) :
  truthy (handleApiError e) = true
  /\ (truthy (Axios.detail e) = true -> handleApiError e = Axios.detail e)
  /\ (truthy (Axios.detail e) = false ->
      exists m, handleApiError e = JStr m /\ m <> []).
Proof.
  unfold handleApiError.
  destruct (truthy (Axios.detail e)) eqn:Hd.
  - repeat split; [exact Hd|discriminate].
  - assert (H : exists m,
               (if Axios.code_is e "ECONNABORTED"
                then str "Request timeout. Please try again."
                else if Axios.code_is e "ERR_NETWORK"
                     then str "Network error. Please check your connection."
                     else (JStr (Axios.message e)
                           || str "An unexpected error occurred")%js)
               = JStr m /\ m <> []).
    { destruct (Axios.code_is e "ECONNABORTED");
        [eexists; split; [reflexivity|discriminate]|].
      destruct (Axios.code_is e "ERR_NETWORK");
        [eexists; split; [reflexivity|discriminate]|].
      unfold js_or. destruct (Axios.message e) as [|c m] eqn:Hm; cbn [truthy].
      - eexists; split; [reflexivity|discriminate].
      - eexists; split; [reflexivity|discriminate]. }
    destruct H as [m [Hm Hne]]. rewrite Hm.
    repeat split; [|discriminate|eauto].
    destruct m; [contradiction|reflexivity].
Qed.

Lemma handleApiError_never_empty_witness :
  truthy (Axios.detail
            {| Axios.response := Some {| Axios.status := 422;
                                         Axios.data := JObj [(js "detail", str "Symbol not found")] |};
               Axios.code := Some (js "ERR_BAD_REQUEST");
               Axios.message := js "Request failed with status code 422" |}) = true
  /\ handleApiError
       {| Axios.response := Some {| Axios.status := 422;
                                    Axios.data := JObj [(js "detail", str "Symbol not found")] |};
          Axios.code := Some (js "ERR_BAD_REQUEST");
          Axios.message := js "Request failed with status code 422" |}
     = str "Symbol not found".
Proof.
  split; [reflexivity|].
  apply (handleApiError_never_empty
           {| Axios.response := Some {| Axios.status := 422;
                                        Axios.data := JObj [(js "detail", str "Symbol not found")] |};
              Axios.code := Some (js "ERR_BAD_REQUEST");
              Axios.message := js "Request failed with status code 422" |}).
  reflexivity.
Defined.

(* ------------------------------------------------------------------ *)
(** ** Expiry of a token, further *)

Lemma floor_log2_integer (m : Z) : (0 < m)%Z -> floor_log2 (inject_Z m) = Z.log2 m.
Proof.
  intros Hm. unfold floor_log2. cbn [Qnum Qden inject_Z].
  change (Z.log2 (Z.pos 1)) with 0%Z. rewrite Z.sub_0_r.
  assert (H : Qle_bool (pow2 (Z.log2 m)) (inject_Z m) = true).
  { apply Qle_bool_iff. unfold pow2.
    pose proof (Z.log2_nonneg m) as Hn. apply Z.leb_le in Hn. rewrite Hn.
    rewrite <- Zle_Qle.
    apply Z.log2_spec. exact Hm. }
  now rewrite H.
Qed.

Lemma pow2_neg (k : Z) : (0 <= k)%Z -> (pow2 (- k) == / inject_Z (2 ^ k))%Q.
Proof.
  intros Hk. unfold pow2.
  destruct (Z.eq_dec k 0) as [->|Hne]; [reflexivity|].
  assert (H : (0 <=? - k)%Z = false) by (apply Z.leb_gt; lia).
  rewrite H, Z.opp_involutive. reflexivity.
Qed.

Lemma round_half_even_integer (x : Q) (K : Z) :
  (x == inject_Z K)%Q -> round_half_even x = K.
Proof.
  intros Hx. unfold round_half_even.
  assert (Hf : Qfloor x = K) by (rewrite Hx; apply Qfloor_Z).
  rewrite Hf.
  assert (Hc : Qcompare (x - inject_Z K)%Q (1 # 2)%Q = Lt).
  { apply Qlt_alt. rewrite Hx. unfold Qminus. rewrite Qplus_opp_r. reflexivity. }
  now rewrite Hc.
Qed.

Lemma round64_small_integer (m : Z) :
  (0 < m < 2 ^ 53)%Z ->
  exists r, round64 (inject_Z m) = Fin r /\ (r == inject_Z m)%Q.
Proof.
  intros [Hpos Hlt]. unfold round64.
  destruct m as [|p|p]; try lia.
  change (Qnum (inject_Z (Z.pos p))) with (Z.pos p). cbv iota.
  change (Qabs (inject_Z (Z.pos p))) with (inject_Z (Z.pos p)).
  rewrite floor_log2_integer by lia.
  set (m := Z.pos p) in *.
  assert (He : (0 <= Z.log2 m < 53)%Z).
  { split; [apply Z.log2_nonneg|]. apply Z.log2_lt_pow2; lia. }
  rewrite Z.max_l by lia.
  set (e := Z.log2 m) in *.
  set (K := (m * 2 ^ (52 - e))%Z).
  assert (Hulp : (pow2 (e - 52) == / inject_Z (2 ^ (52 - e)))%Q).
  { replace (e - 52)%Z with (- (52 - e))%Z by lia. apply pow2_neg. lia. }
  assert (Hx : (inject_Z m / pow2 (e - 52) == inject_Z K)%Q).
  { rewrite Hulp. unfold Qdiv. rewrite Qinv_involutive.
    unfold K. now rewrite inject_Z_mult. }
  rewrite (round_half_even_integer _ K Hx).
  assert (Hp : (0 < 2 ^ (52 - e))%Z) by (apply Z.pow_pos_nonneg; lia).
  assert (Hr : (Qred (inject_Z K * pow2 (e - 52)) == inject_Z m)%Q).
  { rewrite Qred_correct, Hulp. unfold K. rewrite inject_Z_mult.
    rewrite <- Qmult_assoc, Qmult_inv_r, Qmult_1_r; [reflexivity|].
    intros H0. change 0%Q with (inject_Z 0) in H0.
    apply (proj1 (inject_Z_injective _ _)) in H0. lia. }
  assert (Hov : Qle_bool (pow2 1024) (Qred (inject_Z K * pow2 (e - 52))) = false).
  { destruct (Qle_bool _ _) eqn:E; [|reflexivity].
    apply Qle_bool_iff in E. rewrite Hr in E.
    change (pow2 1024) with (inject_Z (2 ^ 1024)) in E.
    rewrite <- Zle_Qle in E.
    assert ((2 ^ 53 < 2 ^ 1024)%Z) by (apply Z.pow_lt_mono_r; lia). lia. }
  rewrite Hov.
  assert (Hs : Qle_bool 0 (inject_Z m) = true)
    by (apply Qle_bool_iff; change 0%Q with (inject_Z 0); rewrite <- Zle_Qle; lia).
  rewrite Hs. eexists; split; [reflexivity|exact Hr].
Qed.

Lemma lt_later (x : JsNum) (a b : Z) :
  (a <= b)%Z -> lt x (num_of_Z a) = true -> lt x (num_of_Z b) = true.
Proof.
  intros Hab. unfold num_of_Z. destruct x as [q| | |]; cbn [lt]; try easy.
  intros H. apply negb_true_iff in H. apply negb_true_iff.
  destruct (Qle_bool (inject_Z b) q) eqn:E; [|reflexivity].
  apply Qle_bool_iff in E.
  assert (Ha : (inject_Z a <= q)%Q).
  { apply Qle_trans with (inject_Z b); [|exact E]. now rewrite <- Zle_Qle. }
  apply Qle_bool_iff in Ha. congruence.
Qed.

Lemma expired_stays_expired_holds (token : jstring) (now later : Z) :
  (now <= later)%Z ->
  isTokenExpired now token = true ->
  isTokenExpired later token = true.
Proof.
  intros Hle. unfold isTokenExpired, Date_now.
  destruct (atob (payload_segment token)) as [decoded|e]; cbn [bind]; [|easy].
  destruct (JSON_parse decoded) as [payload|e]; cbn [bind]; [|easy].
  destruct (get payload (js "exp")) as [exp|e]; cbn [bind]; [|easy].
  destruct (ToNumber exp) as [n|e]; cbn [bind]; [|easy].
  now apply lt_later.
Qed.

(** X6. Expiry is monotone in the clock: a token that isTokenExpired
    reports as expired at one clock reading is reported as expired at every
    later one. *)
Theorem expired_stays_expired (token : jstring) (now later : Z) :
  (now <= later)%Z ->
  isTokenExpired now token = true ->
  isTokenExpired later token = true.
Proof.
  exact (expired_stays_expired_holds token now later).
Qed.

Lemma expired_stays_expired_witness :
  (1700000000001 <= 1800000000000)%Z
  /\ isTokenExpired 1700000000001 (js "h.eyJleHAiOjE3MDAwMDAwMDB9.s") = true
  /\ isTokenExpired 1800000000000 (js "h.eyJleHAiOjE3MDAwMDAwMDB9.s") = true.
Proof.
  split; [discriminate|]. split; [vm_compute; reflexivity|].
  apply (expired_stays_expired (js "h.eyJleHAiOjE3MDAwMDAwMDB9.s")
           1700000000001 1800000000000);
    [discriminate|vm_compute; reflexivity].
Defined.

Lemma split_without_separator (sep : N) (s : jstring) :
  ~ In sep s -> split sep s = [s].
Proof.
  induction s as [|c s IH]; intros Hs; simpl; [reflexivity|].
  destruct (N.eqb c sep) eqn:E.
  - apply N.eqb_eq in E. exfalso. apply Hs. now left.
  - rewrite IH; [reflexivity|]. intros H. apply Hs. now right.
Qed.

(** X7. A token without a dot has no payload part: atob is handed the
    text of undefined, throws, and isTokenExpired reports the token as
    expired at every clock reading. *)
Theorem token_without_dot_is_expired (token : jstring) (now : Z) :
  ~ In (ch ".") token ->
  isTokenExpired now token = true.
Proof.
  intros Hdot. unfold isTokenExpired, payload_segment.
  rewrite (split_without_separator _ _ Hdot). reflexivity.
Qed.

Lemma In_by_search (c : N) (s : jstring) : existsb (N.eqb c) s = true -> In c s.
Proof.
  intros H. apply existsb_exists in H as [x [Hin Hx]].
  apply N.eqb_eq in Hx. now subst.
Qed.

Lemma token_without_dot_is_expired_witness :
  ~ In (ch ".") (js "not-a-token")
  /\ isTokenExpired 0 (js "not-a-token") = true.
Proof.
  assert (H : ~ In (ch ".") (js "not-a-token")).
  { intros H. vm_compute in H.
    repeat (destruct H as [H|H]; [discriminate H|]). exact H. }
  split; [exact H|].
  apply (token_without_dot_is_expired (js "not-a-token") 0 H).
Defined.

Lemma all_some_none {A B} (f : A -> option B) (l : list A) (x : A) :
  In x l -> f x = None -> all_some (map f l) = None.
Proof.
  induction l as [|y l IH]; intros Hin Hx; [contradiction|]. simpl.
  destruct Hin as [->|Hin].
  - now rewrite Hx.
  - destruct (f y); [|reflexivity]. now rewrite (IH Hin Hx).
Qed.

Lemma strip_padding_keeps (s : jstring) (c : N) :
  c <> ch "=" -> In c s -> In c (strip_padding s).
Proof.
  intros Hc Hin. unfold strip_padding.
  destruct (Nat.eqb (Nat.modulo (length s) 4) 0); [|exact Hin].
  destruct (rev s) as [|a [|b r]] eqn:Hr; try exact Hin.
  destruct (N.eqb a (ch "=")) eqn:Ea; [|exact Hin].
  apply N.eqb_eq in Ea.
  assert (Hrev : In c (a :: b :: r)) by (rewrite <- Hr; now apply in_rev in Hin).
  destruct Hrev as [Hca|Hrev]; [congruence|].
  destruct (N.eqb b (ch "=")) eqn:Eb.
  - apply N.eqb_eq in Eb. destruct Hrev as [Hcb|Hrev]; [congruence|].
    now apply in_rev in Hrev.
  - now apply in_rev in Hrev.
Qed.

Lemma atob_invalid_character (data : jstring) (c : N) :
  In c data -> base64_value c = None -> is_ascii_space c = false ->
  c <> ch "=" ->
  atob data = Throw invalid_character.
Proof.
  intros Hin Hv Hs Hc. unfold atob.
  destruct (Nat.eqb _ 1); [reflexivity|].
  rewrite (all_some_none base64_value _ c); [reflexivity| |exact Hv].
  apply strip_padding_keeps; [exact Hc|].
  apply filter_In. split; [exact Hin|]. now rewrite Hs.
Qed.

(** X8. A token whose payload part holds a character outside of the
    base64 alphabet of atob (other than ASCII white space and the equals
    sign) is reported as expired at every clock reading. The minus and the
    underscore of the URL-safe alphabet that JWTs are written in are such
    characters: the payload of the witness is that encoding of an object
    whose exp lies in the year 2100. *)
Theorem token_with_foreign_character_is_expired (token : jstring) (now : Z) (c : N) :
  In c (payload_segment token) ->
  base64_value c = None ->
  is_ascii_space c = false ->
  c <> ch "=" ->
  isTokenExpired now token = true.
Proof.
  intros Hin Hv Hs Hc. unfold isTokenExpired.
  now rewrite (atob_invalid_character _ c Hin Hv Hs Hc).
Qed.

Lemma token_with_foreign_character_is_expired_witness :
  In (ch "_") (payload_segment (js "h.eyJleHAiOjQxMDI0NDQ4MDAsIm4iOiI_In0.s"))
  /\ base64_value (ch "_") = None
  /\ isTokenExpired 0 (js "h.eyJleHAiOjQxMDI0NDQ4MDAsIm4iOiI_In0.s") = true.
Proof.
  assert (H : In (ch "_")
                (payload_segment (js "h.eyJleHAiOjQxMDI0NDQ4MDAsIm4iOiI_In0.s"))).
  { apply In_by_search. reflexivity. }
  split; [exact H|]. split; [reflexivity|].
  apply (token_with_foreign_character_is_expired _ 0 (ch "_") H);
    [reflexivity|reflexivity|discriminate].
Defined.

(** X9. For a token whose payload is a JSON object with exp a whole
    number of seconds (from 0 up to the largest whose milliseconds are an
    exact Number), isTokenExpired is the comparison of the clock with that
    instant: true exactly when exp * 1000 is below the clock reading, so
    false at the very millisecond of expiry. *)
Theorem token_expires_after_exp (token text : jstring)
    (props : list (jstring * JsVal)) (n now : Z) :
  atob (payload_segment token) = Normal text ->
  JSON_parse text = Normal (JObj props) ->
  lookup (js "exp") props = JNum (Fin (inject_Z n)) ->
  (0 <= n < 9007199254740)%Z ->
  isTokenExpired now token = (n * 1000 <? now)%Z.
Proof.
  intros Ha Hp Hexp Hn. unfold isTokenExpired.
  rewrite Ha; cbn [bind]. rewrite Hp; cbn [bind get nullish prop].
  rewrite Hexp. unfold ToNumber. cbn [no_primitive number_value bind mul].
  change (inject_Z n * 1000)%Q with (inject_Z (n * 1000)).
  assert (Hr : exists r, round64 (inject_Z (n * 1000)) = Fin r
                         /\ (r == inject_Z (n * 1000))%Q).
  { destruct (Z.eq_dec n 0) as [->|Hne].
    - exists 0%Q. split; reflexivity.
    - apply round64_small_integer.
      change (2 ^ 53)%Z with 9007199254740992%Z. lia. }
  destruct Hr as [r [Hr Hq]]. rewrite Hr. unfold Date_now, num_of_Z. cbn [lt].
  rewrite Z.ltb_antisym. f_equal.
  apply eq_iff_eq_true. rewrite Qle_bool_iff, Hq, <- Zle_Qle, Z.leb_le.
  reflexivity.
Qed.

Lemma token_expires_after_exp_witness :
  atob (payload_segment (js "h.eyJleHAiOjE3MDAwMDAwMDB9.s"))
  = Normal (ch "{" :: 34%N :: js "exp" ++ 34%N :: js ":1700000000}")
  /\ isTokenExpired 1700000000000 (js "h.eyJleHAiOjE3MDAwMDAwMDB9.s")
     = (1700000000 * 1000 <? 1700000000000)%Z.
Proof.
  split; [reflexivity|].
  apply (token_expires_after_exp (js "h.eyJleHAiOjE3MDAwMDAwMDB9.s")
           (ch "{" :: 34%N :: js "exp" ++ 34%N :: js ":1700000000}")
           [(js "exp", JNum (Fin (inject_Z 1700000000)))] 1700000000);
    [reflexivity|vm_compute; reflexivity|reflexivity|lia].
Defined.

(* ------------------------------------------------------------------ *)
(** ** The auth store *)

Section AuthStore.

Variable persisted : Auth.State -> jstring.

Lemma set_keeps_tokens (s : Auth.State) (w : Auth.World) :
  getAccessToken (storage (Auth.browser (Auth.set persisted s w)))
  = getAccessToken (storage (Auth.browser w))
  /\ getRefreshToken (storage (Auth.browser (Auth.set persisted s w)))
     = getRefreshToken (storage (Auth.browser w)).
Proof.
  unfold Auth.set, Auth.with_storage, getAccessToken, getRefreshToken.
  cbn [Auth.browser storage].
  split; apply getItem_setItem_other; discriminate.
Qed.

Lemma set_state (s : Auth.State) (w : Auth.World) :
  Auth.state (Auth.set persisted s w) = s
  /\ Auth.calls (Auth.set persisted s w) = Auth.calls w
  /\ location (Auth.browser (Auth.set persisted s w)) = location (Auth.browser w).
Proof. repeat split. Qed.

Lemma request_effect {A} (endpoint : string) (reply : Axios.outcome A)
    (w : Auth.World) :
  snd (Auth.request endpoint reply w) = reply
  /\ Auth.state (fst (Auth.request endpoint reply w)) = Auth.state w
  /\ Auth.calls (fst (Auth.request endpoint reply w)) = js endpoint :: Auth.calls w.
Proof.
  unfold Auth.request. destruct reply; repeat split.
Qed.

Lemma logout_logs_out (srv : AuthAPI.Server) (w : Auth.World) :
  Auth.logged_out (Auth.logout persisted srv w).
Proof.
  unfold Auth.logged_out, Auth.logout.
  destruct (set_keeps_tokens Auth.initial
              (Auth.with_storage clearTokens
                 (if Auth.isAuthenticated (Auth.state w)
                  then fst (Auth.request "/auth/logout" (AuthAPI.logout srv) w)
                  else w))) as [Ha Hr].
  split; [reflexivity|]. rewrite Ha, Hr.
  unfold Auth.with_storage. cbn [Auth.browser storage].
  destruct (tokens_cleared_holds
              (storage (Auth.browser
                 (if Auth.isAuthenticated (Auth.state w)
                  then fst (Auth.request "/auth/logout" (AuthAPI.logout srv) w)
                  else w)))) as [H1 [H2 _]].
  split; assumption.
Qed.

Lemma login_logs_in (tokens : AuthAPI.AuthResponse) (w : Auth.World) :
  Auth.tokens_agree (Auth.login persisted tokens w)
  /\ Auth.isAuthenticated (Auth.state (Auth.login persisted tokens w)) = true
  /\ Auth.accessToken (Auth.state (Auth.login persisted tokens w))
     = Some (AuthAPI.access_token tokens)
  /\ Auth.refreshToken (Auth.state (Auth.login persisted tokens w))
     = Some (AuthAPI.refresh_token tokens).
Proof.
  unfold Auth.tokens_agree, Auth.login.
  destruct (set_keeps_tokens
              {| Auth.user := AuthAPI.user tokens;
                 Auth.accessToken := Some (AuthAPI.access_token tokens);
                 Auth.refreshToken := Some (AuthAPI.refresh_token tokens);
                 Auth.isAuthenticated := true;
                 Auth.isLoading := false;
                 Auth.error := JNull |}
              (Auth.with_storage
                 (setTokens (AuthAPI.access_token tokens)
                    (AuthAPI.refresh_token tokens)) w)) as [Ha Hr].
  rewrite Ha, Hr. unfold Auth.with_storage. cbn [Auth.browser storage Auth.state
    Auth.set Auth.accessToken Auth.refreshToken Auth.isAuthenticated].
  destruct (tokens_read_back_holds (AuthAPI.access_token tokens)
              (AuthAPI.refresh_token tokens) (storage (Auth.browser w)))
    as [H1 [H2 _]].
  repeat split; assumption.
Qed.

(** X10. logout always ends logged out, whatever the server answers and
    whether or not the state was authenticated: the state is the initial
    one and neither token is left in the storage. The logout request is
    sent exactly when the state was authenticated. *)
Theorem logout_always_logs_out (srv : AuthAPI.Server) (w : Auth.World) :
  Auth.logged_out (Auth.logout persisted srv w)
  /\ Auth.calls (Auth.logout persisted srv w)
     = if Auth.isAuthenticated (Auth.state w)
       then js "/auth/logout" :: Auth.calls w
       else Auth.calls w.
Proof.
  split; [apply logout_logs_out|].
  unfold Auth.logout.
  destruct (Auth.isAuthenticated (Auth.state w)); [|reflexivity].
  cbn [Auth.set Auth.with_storage Auth.calls].
  apply request_effect.
Qed.

(** X11. After login the state is authenticated and holds the two tokens
    of the response, the storage holds the same two tokens, and the next
    request carries the access token as its Bearer header when it is not
    empty; a logout after it ends logged out. *)
Theorem login_then_requests_are_authorized (tokens : AuthAPI.AuthResponse)
    (srv : AuthAPI.Server) (w : Auth.World) :
  let w' := Auth.login persisted tokens w in
  Auth.isAuthenticated (Auth.state w') = true
  /\ Auth.accessToken (Auth.state w') = Some (AuthAPI.access_token tokens)
  /\ Auth.refreshToken (Auth.state w') = Some (AuthAPI.refresh_token tokens)
  /\ Auth.tokens_agree w'
  /\ (forall c t headers, AuthAPI.access_token tokens = c :: t ->
        getItem (js "Authorization")
          (request_interceptor (storage (Auth.browser w')) headers)
        = Some (js "Bearer " ++ c :: t))
  /\ Auth.logged_out (Auth.logout persisted srv w').
Proof.
  intros w'. destruct (login_logs_in tokens w) as [Hag [Hau [Hat Hrt]]].
  repeat split; try assumption; try apply Hag; try apply logout_logs_out.
  intros c t headers Htok. unfold request_interceptor.
  destruct Hag as [Ha _]. unfold getAccessToken in Ha. fold w' in Ha.
  rewrite Ha. fold w' in Hat. rewrite Hat, Htok. apply getItem_setItem_same.
Qed.

(** X12. With a monotone clock, initializeAuth on a storage holding two
    non-empty tokens ends, whatever the server answers, either
    authenticated with the storage and the state holding the same tokens,
    or logged out; with a token missing or empty it sends nothing and
    changes nothing. *)
Theorem initializeAuth_ends_consistent (srv : AuthAPI.Server) (now1 now2 : Z)
    (w : Auth.World) :
  (now1 <= now2)%Z ->
  let w' := Auth.initializeAuth persisted srv now1 now2 w in
  (Auth.present (getAccessToken (storage (Auth.browser w)))
   && Auth.present (getRefreshToken (storage (Auth.browser w))) = true ->
   (Auth.isAuthenticated (Auth.state w') = true /\ Auth.tokens_agree w')
   \/ Auth.logged_out w')
  /\ (Auth.present (getAccessToken (storage (Auth.browser w)))
      && Auth.present (getRefreshToken (storage (Auth.browser w))) = false ->
      w' = w).
Proof.
  intros Hclock w'. subst w'. unfold Auth.initializeAuth.
  destruct (getAccessToken (storage (Auth.browser w))) as [a|];
    [|split; [discriminate|reflexivity]].
  destruct (getRefreshToken (storage (Auth.browser w))) as [r|];
    [|split; [cbn; rewrite andb_false_r; discriminate|reflexivity]].
  destruct (Auth.present (Some a) && Auth.present (Some r)) eqn:Hp;
    [|split; [discriminate|reflexivity]].
  split; [intros _|discriminate].
  destruct (isTokenExpired now1 a) eqn:He; cbn [negb].
  - rewrite (expired_stays_expired_holds a now1 now2 Hclock He).
    destruct (AuthAPI.refreshToken srv r) as [response|e]; cbn [Auth.request].
    + left. destruct (login_logs_in response
                        {| Auth.state := Auth.state w; Auth.browser := Auth.browser w;
                           Auth.calls := js "/auth/refresh" :: Auth.calls w |})
        as [Hag [Hau _]]. split; assumption.
    + right. apply logout_logs_out.
  - destruct (AuthAPI.getCurrentUser srv) as [user|e]; cbn [Auth.request].
    + left. destruct (login_logs_in
                        {| AuthAPI.access_token := a; AuthAPI.refresh_token := r;
                           AuthAPI.user := user |}
                        {| Auth.state := Auth.state w; Auth.browser := Auth.browser w;
                           Auth.calls := js "/auth/me" :: Auth.calls w |})
        as [Hag [Hau _]]. split; assumption.
    + right. apply logout_logs_out.
Qed.

Lemma error_message_truthy (e : Axios.Error) (fallback : string) :
  js fallback <> [] -> truthy (Auth.error_message e fallback) = true.
Proof.
  intros Hf. unfold Auth.error_message. apply js_or_truthy.
  unfold str. cbn [truthy]. destruct (js fallback); [contradiction|reflexivity].
Qed.

(** X13. handleCallback gives its caller what the request gave, the
    response or the same error thrown again, and never leaves the store
    loading. After a response the state is authenticated, without error,
    and holds the same tokens as the storage; after an error the state
    keeps its user, tokens and authentication and records a message that
    is never empty. *)
Theorem handleCallback_outcomes (srv : AuthAPI.Server) (requestToken : jstring)
    (w : Auth.World) :
  let r := Auth.handleCallback persisted srv requestToken w in
  snd r = AuthAPI.handleCallback srv requestToken
  /\ Auth.isLoading (Auth.state (fst r)) = false
  /\ match AuthAPI.handleCallback srv requestToken with
     | Axios.Resolved response =>
         Auth.isAuthenticated (Auth.state (fst r)) = true
         /\ Auth.accessToken (Auth.state (fst r))
            = Some (AuthAPI.access_token response)
         /\ Auth.error (Auth.state (fst r)) = JNull
         /\ Auth.tokens_agree (fst r)
     | Axios.Rejected e =>
         truthy (Auth.error (Auth.state (fst r))) = true
         /\ Auth.isAuthenticated (Auth.state (fst r))
            = Auth.isAuthenticated (Auth.state w)
         /\ Auth.user (Auth.state (fst r)) = Auth.user (Auth.state w)
         /\ Auth.accessToken (Auth.state (fst r)) = Auth.accessToken (Auth.state w)
         /\ Auth.refreshToken (Auth.state (fst r)) = Auth.refreshToken (Auth.state w)
     end.
Proof.
  intros r. subst r. unfold Auth.handleCallback.
  destruct (AuthAPI.handleCallback srv requestToken) as [response|e];
    cbn [Auth.request fst snd].
  - split; [reflexivity|]. split; [reflexivity|].
    split; [reflexivity|]. split; [reflexivity|]. split; [reflexivity|].
    unfold Auth.tokens_agree, Auth.setLoading.
    match goal with
    | |- context [Auth.set persisted ?s (Auth.login persisted response ?w0)] =>
        destruct (set_keeps_tokens s (Auth.login persisted response w0)) as [Ha Hr];
        destruct (login_logs_in response w0) as [[Hla Hlr] [_ [Hat Hrt]]]
    end.
    rewrite Ha, Hr, Hla, Hlr. split; reflexivity.
  - split; [reflexivity|]. split; [reflexivity|].
    split; [|repeat split].
    cbn [Auth.setLoading Auth.setError Auth.set Auth.with_storage Auth.state
           Auth.error].
    apply error_message_truthy. discriminate.
Qed.

(** X14. initiateLogin sends the page to the login URL it was answered,
    and then leaves the store loading and without error; when the request
    fails it leaves the store not loading, with a message that is never
    empty, on the page it was on unless the failure was a 401. *)
Theorem initiateLogin_outcomes (srv : AuthAPI.Server) (w : Auth.World) :
  let w' := Auth.initiateLogin persisted srv w in
  match AuthAPI.initiateLogin srv with
  | Axios.Resolved login_url =>
      location (Auth.browser w') = login_url
      /\ Auth.isLoading (Auth.state w') = true
      /\ Auth.error (Auth.state w') = JNull
  | Axios.Rejected e =>
      Auth.isLoading (Auth.state w') = false
      /\ truthy (Auth.error (Auth.state w')) = true
      /\ ((forall r, Axios.response e = Some r -> Axios.status r <> 401%Z) ->
          location (Auth.browser w') = location (Auth.browser w))
  end.
Proof.
  intros w'. subst w'. unfold Auth.initiateLogin.
  destruct (AuthAPI.initiateLogin srv) as [url|e]; cbn [Auth.request].
  - repeat split.
  - split; [reflexivity|]. split.
    + cbn [Auth.setLoading Auth.setError Auth.set Auth.with_storage Auth.state
             Auth.error].
      apply error_message_truthy. discriminate.
    + intros Hs.
      transitivity
        (location
           (fst (response_interceptor e
                   (Auth.browser (Auth.clearError persisted
                                    (Auth.setLoading persisted true w))))));
        [reflexivity|].
      destruct (unauthorized_clears_tokens_holds e
                  (Auth.browser (Auth.clearError persisted
                                   (Auth.setLoading persisted true w))))
        as [_ [_ Hsame]].
      rewrite (Hsame Hs). reflexivity.
Qed.

End AuthStore.

Lemma initializeAuth_ends_consistent_witness :
  (1700000000001 <= 1700000000002)%Z
  /\ Auth.logged_out
       (Auth.initializeAuth (fun _ => js "{}")
          {| AuthAPI.initiateLogin := Axios.Resolved (js "https://kite.zerodha.com/connect/login");
             AuthAPI.handleCallback := fun _ =>
               Axios.Rejected {| Axios.response := None; Axios.code := None;
                                 Axios.message := js "Network Error" |};
             AuthAPI.getCurrentUser := Axios.Resolved JNull;
             AuthAPI.refreshToken := fun _ =>
               Axios.Rejected {| Axios.response := Some {| Axios.status := 401;
                                                           Axios.data := JNull |};
                                 Axios.code := None;
                                 Axios.message := js "Request failed with status code 401" |};
             AuthAPI.logout := Axios.Resolved JNull |}
          1700000000001 1700000000002 sample_session).
Proof.
  split; [discriminate|].
  pose proof (initializeAuth_ends_consistent (fun _ => js "{}")
          {| AuthAPI.initiateLogin := Axios.Resolved (js "https://kite.zerodha.com/connect/login");
             AuthAPI.handleCallback := fun _ =>
               Axios.Rejected {| Axios.response := None; Axios.code := None;
                                 Axios.message := js "Network Error" |};
             AuthAPI.getCurrentUser := Axios.Resolved JNull;
             AuthAPI.refreshToken := fun _ =>
               Axios.Rejected {| Axios.response := Some {| Axios.status := 401;
                                                           Axios.data := JNull |};
                                 Axios.code := None;
                                 Axios.message := js "Request failed with status code 401" |};
             AuthAPI.logout := Axios.Resolved JNull |}
          1700000000001 1700000000002 sample_session) as H.
  destruct H as [H _]; [discriminate|].
  destruct (H eq_refl) as [[Hauth _]|Hout]; [|exact Hout].
  vm_compute in Hauth. discriminate Hauth.
Defined.

(* ------------------------------------------------------------------ *)
(** ** The market store *)

Lemma message_or_nonempty (e : JsError) (fallback : jstring) :
  fallback <> [] -> message_or e fallback <> [].
Proof.
  intros Hf. unfold message_or. destruct (message e); [exact Hf|discriminate].
Qed.


Lemma map_method_array {B} (g : JsVal -> B) (items : list JsVal) :
  Market.map_method (JArr items) (fun x => Normal (g x)) = Normal (map g items).
Proof.
  unfold Market.map_method. cbn [nullish array_map].
  apply mapM_map. apply Forall_forall. reflexivity.
Qed.

Lemma map_method_not_array {B} (f : JsVal -> completion B) (v : JsVal) :
  (forall items, v <> JArr items) -> exists e, Market.map_method v f = Throw e.
Proof.
  intros Hv. unfold Market.map_method.
  destruct v; cbn [nullish array_map]; eauto.
  exfalso. now apply (Hv items).
Qed.

Lemma loadWatchlist_outcomes_holds (api : StocksAPI.Server) (w : Market.World) :
  let w' := Market.loadWatchlist api w in
  isLoadingWatchlist (Market.store w') = false
  /\ (forall items, StocksAPI.getWatchlist api = Normal (JArr items) ->
        map Market.symbol (Market.watchlist w') = items
        /\ map Market.name (Market.watchlist w') = items
        /\ watchlistError (Market.store w') = None)
  /\ ((forall items, StocksAPI.getWatchlist api <> Normal (JArr items)) ->
      Market.watchlist w' = Market.watchlist w
      /\ exists m, watchlistError (Market.store w') = Some m /\ m <> []).
Proof.
  intros w'. subst w'. unfold Market.loadWatchlist.
  destruct (StocksAPI.getWatchlist api) as [response|e]; cbn [bind].
  - split; [|split].
    + destruct (Market.map_method response _); reflexivity.
    + intros items Hr. injection Hr as ->.
      rewrite (map_method_array
                 (fun sym => {| Market.symbol := sym; Market.name := sym |})).
      cbn [Market.update Market.set_watchlist Market.watchlist Market.store].
      rewrite !map_map. cbn [Market.symbol Market.name]. rewrite map_id.
      repeat split.
    + intros Hn.
      destruct (map_method_not_array
                  (fun sym => Normal {| Market.symbol := sym; Market.name := sym |})
                  response) as [e He].
      { intros items ->. now apply (Hn items). }
      rewrite He. split; [reflexivity|].
      eexists. split; [reflexivity|]. apply message_or_nonempty. discriminate.
  - split; [reflexivity|]. split; [intros items H; discriminate H|].
    intros _. split; [reflexivity|].
    eexists. split; [reflexivity|]. apply message_or_nonempty. discriminate.
Qed.

(** X16. loadWatchlist ends not loading. When the backend answers an
    array, the watchlist becomes one stock per entry, in order, with the
    entry as symbol and as name, and the error is cleared; when the
    request fails or the answer is not an array, the watchlist stays as
    it was beside a message that is never empty. *)
Theorem loadWatchlist_outcomes (api : StocksAPI.Server) (w : Market.World) :
  let w' := Market.loadWatchlist api w in
  isLoadingWatchlist (Market.store w') = false
  /\ (forall items, StocksAPI.getWatchlist api = Normal (JArr items) ->
        map Market.symbol (Market.watchlist w') = items
        /\ map Market.name (Market.watchlist w') = items
        /\ watchlistError (Market.store w') = None)
  /\ ((forall items, StocksAPI.getWatchlist api <> Normal (JArr items)) ->
      Market.watchlist w' = Market.watchlist w
      /\ exists m, watchlistError (Market.store w') = Some m /\ m <> []).
Proof.
  exact (loadWatchlist_outcomes_holds api w).
Qed.

(** X17. addToWatchlist shows what the backend lists afterwards, not what
    was asked for: when the add and the reload both succeed the watchlist
    is the reloaded array, whether or not it holds the added symbol; when
    the add fails, or the reload fails after it, the watchlist stays as it
    was beside a message that is never empty. *)
Theorem addToWatchlist_outcomes (api : StocksAPI.Server) (sym : jstring)
    (w : Market.World) :
  let w' := Market.addToWatchlist api sym w in
  (forall body items,
      StocksAPI.addToWatchlist api sym = Normal body ->
      StocksAPI.getWatchlist api = Normal (JArr items) ->
      map Market.symbol (Market.watchlist w') = items
      /\ watchlistError (Market.store w') = None)
  /\ (((exists e, StocksAPI.addToWatchlist api sym = Throw e)
       \/ forall items, StocksAPI.getWatchlist api <> Normal (JArr items)) ->
      Market.watchlist w' = Market.watchlist w
      /\ exists m, watchlistError (Market.store w') = Some m /\ m <> []).
Proof.
  intros w'. subst w'. unfold Market.addToWatchlist.
  destruct (loadWatchlist_outcomes_holds api w) as [_ [Hok Hfail]].
  destruct (StocksAPI.addToWatchlist api sym) as [body|e]; split.
  - intros b items _ Hr. destruct (Hok items Hr) as [Hs [_ He]]. now split.
  - intros [[e He]|Hn]; [discriminate He|]. now apply Hfail.
  - intros b items Hb. discriminate Hb.
  - intros _. split; [reflexivity|].
    eexists. split; [reflexivity|]. apply message_or_nonempty. discriminate.
Qed.



Lemma stop_clears_intervals (w : Market.World) :
  Market.one_interval w ->
  Market.intervals (Market.stopRealTimeUpdates w) = []
  /\ Market.pollingInterval (Market.stopRealTimeUpdates w) = None.
Proof.
  unfold Market.one_interval, Market.stopRealTimeUpdates.
  destruct (Market.pollingInterval w) as [id|] eqn:Hp.
  - intros [sym Hi].
    destruct (Market.webSocket w);
      cbn [Market.set_pollingInterval Market.clearInterval Market.set_webSocket
             Market.intervals Market.pollingInterval];
      rewrite Hi; cbn [filter fst]; rewrite Pos.eqb_refl; split; reflexivity.
  - intros Hi.
    destruct (Market.webSocket w);
      cbn [Market.set_webSocket Market.intervals Market.pollingInterval];
      split; assumption.
Qed.

Lemma start_one_interval (sym : JsVal) (w : Market.World) :
  Market.one_interval w ->
  exists id,
    Market.pollingInterval (Market.startRealTimeUpdates sym w) = Some id
    /\ Market.intervals (Market.startRealTimeUpdates sym w) = [(id, sym)].
Proof.
  intros H. destruct (stop_clears_intervals w H) as [Hi _].
  unfold Market.startRealTimeUpdates, Market.setInterval.
  cbn [Market.set_pollingInterval Market.pollingInterval Market.intervals].
  rewrite Hi. eexists. split; reflexivity.
Qed.

Lemma update_one_interval (f : MarketStore -> MarketStore) (w : Market.World) :
  Market.one_interval w -> Market.one_interval (Market.update f w).
Proof. exact (fun H => H). Qed.

Lemma step_one_interval (api : StocksAPI.Server) (a : Market.Action)
    (w : Market.World) :
  Market.one_interval w -> Market.one_interval (Market.step api a w).
Proof.
  intros H.
  assert (Hstop : Market.one_interval (Market.stopRealTimeUpdates w)).
  { destruct (stop_clears_intervals w H) as [Hi Hp].
    unfold Market.one_interval. now rewrite Hp. }
  assert (Hstart : forall sym w0, Market.one_interval w0 ->
                     Market.one_interval (Market.startRealTimeUpdates sym w0)).
  { intros sym w0 H0. destruct (start_one_interval sym w0 H0) as [id [Hp Hi]].
    unfold Market.one_interval. rewrite Hp. eauto. }
  destruct a; cbn [Market.step]; try exact H; try exact Hstop; auto.
  - unfold Market.setSelectedStock.
    destruct stock as [s|].
    + destruct (truthy s).
      * apply Hstart. unfold Market.getStockQuote.
        destruct (StocksAPI.getQuote api (prop s (js "symbol"))); exact H.
      * destruct (stop_clears_intervals
                    (Market.update
                       (fun st => set_analysis None
                                    (set_currentQuote None
                                       (set_selectedStock (Some s) st))) w) H)
          as [Hi Hp].
        unfold Market.one_interval. now rewrite Hp.
    + destruct (stop_clears_intervals
                  (Market.update
                     (fun st => set_analysis None
                                  (set_currentQuote None
                                     (set_selectedStock None st))) w) H)
        as [Hi Hp].
      unfold Market.one_interval. now rewrite Hp.
  - unfold Market.searchStocks. destruct (trim query); [exact H|].
    destruct (StocksAPI.searchStocks api query); exact H.
  - unfold Market.getStockQuote.
    destruct (StocksAPI.getQuote api sym); exact H.
  - unfold Market.loadWatchlist.
    destruct (_ <- StocksAPI.getWatchlist api ;; _)%js; exact H.
  - unfold Market.addToWatchlist, Market.loadWatchlist.
    destruct (StocksAPI.addToWatchlist api sym); [|exact H].
    destruct (_ <- StocksAPI.getWatchlist api ;; _)%js; exact H.
  - unfold Market.removeFromWatchlist.
    destruct (StocksAPI.removeFromWatchlist api sym); exact H.
  - unfold Market.poll. destruct (StocksAPI.getQuote api sym); exact H.
Qed.

(** X19. The store never leaks a polling timer: from a store whose only
    running interval is the one it remembers (as at the start, with none),
    every sequence of its actions, whatever the backend answers, ends with
    at most one interval running, the remembered one. *)
Theorem polling_never_leaks (api : StocksAPI.Server) (actions : list Market.Action)
    (w : Market.World) :
  Market.one_interval w ->
  Market.one_interval (Market.run api actions w)
  /\ (length (Market.intervals (Market.run api actions w)) <= 1)%nat.
Proof.
  intros H.
  assert (Hrun : Market.one_interval (Market.run api actions w)).
  { unfold Market.run. revert w H.
    induction actions as [|a actions IH]; intros w H; cbn [fold_left].
    - exact H.
    - apply IH. now apply step_one_interval. }
  split; [exact Hrun|].
  unfold Market.one_interval in Hrun.
  destruct (Market.pollingInterval (Market.run api actions w)).
  - destruct Hrun as [sym ->]. apply le_n.
  - rewrite Hrun. apply le_0_n.
Qed.

Lemma polling_never_leaks_witness :
  Market.one_interval Market.initial
  /\ (length (Market.intervals
                (Market.run
                   {| StocksAPI.searchStocks := fun _ => Normal (JArr []);
                      StocksAPI.getQuote := fun _ => Throw sample_rejection_error;
                      StocksAPI.getWatchlist := Normal (JArr [str "TCS"]);
                      StocksAPI.addToWatchlist := fun _ => Normal JNull;
                      StocksAPI.removeFromWatchlist := fun _ => Normal JNull |}
                   [Market.SetSelectedStock (Some (JObj [(js "symbol", str "TCS")]));
                    Market.StartRealTimeUpdates (str "INFY");
                    Market.SetSelectedStock (Some (JObj [(js "symbol", str "SBIN")]))]
                   Market.initial)) <= 1)%nat.
Proof.
  split; [reflexivity|].
  apply (polling_never_leaks
           {| StocksAPI.searchStocks := fun _ => Normal (JArr []);
              StocksAPI.getQuote := fun _ => Throw sample_rejection_error;
              StocksAPI.getWatchlist := Normal (JArr [str "TCS"]);
              StocksAPI.addToWatchlist := fun _ => Normal JNull;
              StocksAPI.removeFromWatchlist := fun _ => Normal JNull |}
           [Market.SetSelectedStock (Some (JObj [(js "symbol", str "TCS")]));
            Market.StartRealTimeUpdates (str "INFY");
            Market.SetSelectedStock (Some (JObj [(js "symbol", str "SBIN")]))]
           Market.initial).
  reflexivity.
Defined.

Lemma step_idle (api : StocksAPI.Server) (a : Market.Action) (w : Market.World) :
  Market.idle w -> Market.idle (Market.step api a w).
Proof.
  intros H. pose proof H as [Hq [Ha [Hs [Hw Hm]]]].
  assert (Hquote : forall sym w0, Market.idle w0 ->
                     Market.idle (Market.getStockQuote api sym w0)).
  { intros sym w0 [H1 [H2 [H3 [H4 H5]]]]. unfold Market.getStockQuote.
    destruct (StocksAPI.getQuote api sym); repeat split; assumption. }
  assert (Hstop : forall w0, Market.idle w0 ->
                    Market.idle (Market.stopRealTimeUpdates w0)).
  { intros w0 H0. unfold Market.stopRealTimeUpdates.
    destruct (Market.webSocket w0), (Market.pollingInterval w0); exact H0. }
  assert (Hload : Market.idle (Market.loadWatchlist api w)).
  { unfold Market.loadWatchlist.
    destruct (_ <- StocksAPI.getWatchlist api ;; _)%js; repeat split; assumption. }
  destruct a; cbn [Market.step]; try exact H; auto.
  - unfold Market.setSelectedStock. destruct stock as [s|].
    + destruct (truthy s).
      * unfold Market.startRealTimeUpdates, Market.setInterval.
        apply (Hstop (Market.getStockQuote api (prop s (js "symbol")) _)).
        apply Hquote. exact H.
      * apply Hstop. exact H.
    + apply Hstop. exact H.
  - unfold Market.searchStocks. destruct (trim query); [exact H|].
    destruct (StocksAPI.searchStocks api query); repeat split; assumption.
  - unfold Market.getAnalysis, getAnalysis.
    destruct (getComprehensiveAnalysis post now sym); repeat split; assumption.
  - unfold Market.addToWatchlist.
    destruct (StocksAPI.addToWatchlist api sym); [exact Hload|exact H].
  - unfold Market.removeFromWatchlist.
    destruct (StocksAPI.removeFromWatchlist api sym); exact H.
  - repeat split; assumption.
  - apply (Hstop w H).
  - unfold Market.poll. destruct (StocksAPI.getQuote api sym); exact H.
Qed.

(** X20. No action of the store ends with a loading flag up: from a store
    with its five loading flags down, every sequence of actions, each run
    to its end and whatever the backend answers, ends with the five flags
    down. *)
Theorem loading_flags_come_down (api : StocksAPI.Server)
    (actions : list Market.Action) (w : Market.World) :
  Market.idle w -> Market.idle (Market.run api actions w).
Proof.
  unfold Market.run. revert w.
  induction actions as [|a actions IH]; intros w H; cbn [fold_left].
  - exact H.
  - apply IH. now apply step_idle.
Qed.

Lemma loading_flags_come_down_witness :
  Market.idle Market.initial
  /\ Market.idle
       (Market.run
          {| StocksAPI.searchStocks := fun _ => Throw sample_rejection_error;
             StocksAPI.getQuote := fun _ => Normal JNull;
             StocksAPI.getWatchlist := Normal JNull;
             StocksAPI.addToWatchlist := fun _ => Normal JNull;
             StocksAPI.removeFromWatchlist := fun _ => Normal JNull |}
          [Market.SearchStocks (js "tcs"); Market.AddToWatchlist (js "TCS");
           Market.GetAnalysis sample_post 0 (js "TCS"); Market.LoadMarketData]
          Market.initial).
Proof.
  split; [repeat split|].
  apply (loading_flags_come_down
           {| StocksAPI.searchStocks := fun _ => Throw sample_rejection_error;
              StocksAPI.getQuote := fun _ => Normal JNull;
              StocksAPI.getWatchlist := Normal JNull;
              StocksAPI.addToWatchlist := fun _ => Normal JNull;
              StocksAPI.removeFromWatchlist := fun _ => Normal JNull |}
           [Market.SearchStocks (js "tcs"); Market.AddToWatchlist (js "TCS");
            Market.GetAnalysis sample_post 0 (js "TCS"); Market.LoadMarketData]
           Market.initial).
  repeat split.
Defined.

(** X21. Selecting a stock discards the analysis in the store and leaves
    exactly one interval running, polling the symbol of that stock; the
    quote of the store is the answer to the quote request, or none beside
    a message when it fails. Selecting no stock discards the analysis
    and the quote and leaves no interval running. *)
Theorem setSelectedStock_effects (api : StocksAPI.Server) (stock : option JsVal)
    (w : Market.World) :
  Market.one_interval w ->
  let w' := Market.setSelectedStock api stock w in
  selectedStock (Market.store w') = stock
  /\ analysis (Market.store w') = None
  /\ match stock with
     | Some s =>
         truthy s = true ->
         (exists id, Market.pollingInterval w' = Some id
                     /\ Market.intervals w' = [(id, prop s (js "symbol"))])
         /\ match StocksAPI.getQuote api (prop s (js "symbol")) with
            | Normal quote => currentQuote (Market.store w') = Some quote
            | Throw e =>
                currentQuote (Market.store w') = None
                /\ exists m, quoteError (Market.store w') = Some m /\ m <> []
            end
     | None =>
         Market.intervals w' = [] /\ Market.pollingInterval w' = None
         /\ currentQuote (Market.store w') = None
     end.
Proof.
  intros H w'. subst w'. unfold Market.setSelectedStock.
  destruct stock as [s|].
  - destruct (truthy s) eqn:Ht.
    + set (w1 := Market.getStockQuote api (prop s (js "symbol")) _).
      assert (H1 : Market.one_interval w1).
      { unfold w1, Market.getStockQuote.
        destruct (StocksAPI.getQuote api (prop s (js "symbol"))); exact H. }
      assert (Hs : Market.store
                     (Market.startRealTimeUpdates (prop s (js "symbol")) w1)
                   = Market.store w1).
      { unfold Market.startRealTimeUpdates, Market.setInterval,
          Market.stopRealTimeUpdates.
        destruct (Market.webSocket w1), (Market.pollingInterval w1); reflexivity. }
      rewrite Hs. unfold w1 at 1 2, Market.getStockQuote.
      split; [destruct (StocksAPI.getQuote api (prop s (js "symbol"))); reflexivity|].
      split; [destruct (StocksAPI.getQuote api (prop s (js "symbol"))); reflexivity|].
      intros _. split; [apply (start_one_interval _ w1 H1)|].
      unfold w1, Market.getStockQuote.
      destruct (StocksAPI.getQuote api (prop s (js "symbol"))) as [quote|e].
      * reflexivity.
      * split; [reflexivity|]. eexists. split; [reflexivity|].
        apply message_or_nonempty. discriminate.
    + set (w1 := Market.update _ w).
      assert (Hs : Market.store (Market.stopRealTimeUpdates w1) = Market.store w1).
      { unfold Market.stopRealTimeUpdates.
        destruct (Market.webSocket w1), (Market.pollingInterval w1); reflexivity. }
      rewrite Hs. split; [reflexivity|]. split; [reflexivity|]. discriminate.
  - set (w1 := Market.update _ w).
    assert (Hs : Market.store (Market.stopRealTimeUpdates w1) = Market.store w1).
    { unfold Market.stopRealTimeUpdates.
      destruct (Market.webSocket w1), (Market.pollingInterval w1); reflexivity. }
    rewrite Hs. destruct (stop_clears_intervals w1 H) as [Hi Hp].
    repeat split; assumption.
Qed.

Lemma setSelectedStock_effects_witness :
  Market.one_interval Market.initial
  /\ analysis (Market.store
                 (Market.setSelectedStock
                    {| StocksAPI.searchStocks := fun _ => Normal (JArr []);
                       StocksAPI.getQuote := fun _ => Normal (JObj [(js "last_price", JNum (Fin 160))]);
                       StocksAPI.getWatchlist := Normal (JArr []);
                       StocksAPI.addToWatchlist := fun _ => Normal JNull;
                       StocksAPI.removeFromWatchlist := fun _ => Normal JNull |}
                    (Some (JObj [(js "symbol", str "TCS")])) Market.initial))
     = None.
Proof.
  split; [reflexivity|].
  apply (setSelectedStock_effects
           {| StocksAPI.searchStocks := fun _ => Normal (JArr []);
              StocksAPI.getQuote := fun _ => Normal (JObj [(js "last_price", JNum (Fin 160))]);
              StocksAPI.getWatchlist := Normal (JArr []);
              StocksAPI.addToWatchlist := fun _ => Normal JNull;
              StocksAPI.removeFromWatchlist := fun _ => Normal JNull |}
           (Some (JObj [(js "symbol", str "TCS")])) Market.initial).
  reflexivity.
Defined.

(** X22. The analysis of the store can be stale: when getAnalysis fails
    after a run that succeeded, the store shows the earlier analysis
    beside the new error; when it succeeds after a run that failed, the
    error is gone and the store shows the new analysis. *)
Theorem analysis_after_two_runs (post1 post2 : Post) (now1 now2 : Z)
    (symbol1 symbol2 : jstring) (st : MarketStore)
    (r : ComprehensiveAnalysis) (e : JsError) :
  getComprehensiveAnalysis post1 now1 symbol1 = Normal r ->
  getComprehensiveAnalysis post2 now2 symbol2 = Throw e ->
  (let st' := getAnalysis post2 now2 symbol2 (getAnalysis post1 now1 symbol1 st) in
   analysis st' = Some r
   /\ isLoadingAnalysis st' = false
   /\ exists m, analysisError st' = Some m /\ m <> [])
  /\ (let st' := getAnalysis post1 now1 symbol1 (getAnalysis post2 now2 symbol2 st) in
      analysis st' = Some r
      /\ isLoadingAnalysis st' = false
      /\ analysisError st' = None).
Proof.
  intros H1 H2. unfold getAnalysis. rewrite H1, H2. split.
  - split; [reflexivity|]. split; [reflexivity|].
    eexists. split; [reflexivity|]. apply message_or_nonempty. discriminate.
  - repeat split.
Qed.

Lemma analysis_after_two_runs_witness :
  exists r,
    getComprehensiveAnalysis sample_post 0 (js "TCS") = Normal r
    /\ analysis
         (getAnalysis (fun _ _ => Throw sample_rejection_error) 0 (js "INFY")
            (getAnalysis sample_post 0 (js "TCS") initial_store))
       = Some r.
Proof.
  eexists. split;
    [apply (getComprehensiveAnalysis_well_formed sample_post); reflexivity|].
  apply (analysis_after_two_runs sample_post (fun _ _ => Throw sample_rejection_error)
           0 0 (js "TCS") (js "INFY") initial_store _ sample_rejection_error).
  - apply (getComprehensiveAnalysis_well_formed sample_post); reflexivity.
  - reflexivity.
Defined.

(* ------------------------------------------------------------------ *)
(** ** The transform, further *)

Lemma getComprehensiveAnalysis_returns (post : Post) (now : Z) (symbol : jstring)
    (r : ComprehensiveAnalysis) :
  getComprehensiveAnalysis post now symbol = Normal r ->
  exists backendData,
    post (js "/analysis/" ++ symbol) request_body = Normal backendData
    /\ well_formed backendData = true
    /\ r = assemble now symbol backendData
             (map level_of (items_of (key_levels backendData)))
             (map pattern_of (items_of (chart_patterns backendData))).
Proof.
  unfold getComprehensiveAnalysis.
  destruct (post (js "/analysis/" ++ symbol) request_body) as [backendData|e] eqn:Hp;
    cbn [bind]; [|discriminate].
  intros H. exists backendData. split; [reflexivity|].
  pose proof (transform_returns _ _ _ _ H) as Hwf. split; [exact Hwf|].
  rewrite (transform_well_formed now symbol backendData Hwf) in H.
  now injection H.
Qed.

Lemma array_all_fails (ok : JsVal -> bool) (items : list JsVal) (x : JsVal) :
  In x items -> ok x = false -> array_all ok (JArr items) = false.
Proof.
  intros Hin Hx. cbn [array_all].
  destruct (forallb ok items) eqn:Hf; [|reflexivity].
  rewrite forallb_forall in Hf. specialize (Hf _ Hin). congruence.
Qed.

Lemma no_primitive_truthy (v : JsVal) : no_primitive v = true -> truthy v = true.
Proof.
  destruct v; try discriminate; reflexivity.
Qed.

Lemma level_not_accepted (lv : JsVal) :
  no_primitive (prop lv (js "ratio")) = true
  \/ no_primitive (prop lv (js "distance_percent")) = true ->
  level_accepted lv = false.
Proof.
  unfold level_accepted, js_or.
  intros [H|H]; rewrite (no_primitive_truthy _ H), H; cbn [negb].
  - now rewrite andb_false_r.
  - now rewrite andb_false_r.
Qed.

(** the run on a key level whose ratio cannot be converted *)
Example unconvertible_ratio_throws :
  well_formed unconvertible_ratio_response = false
  /\ getComprehensiveAnalysis (fun _ _ => Normal unconvertible_ratio_response)
       0 (js "TCS") = Throw cannot_convert.
Proof. split; vm_compute; reflexivity. Qed.

(** X23. The run returns a result exactly for the responses that are not
    null, whose key levels are absent (or falsy) or an array of entries
    that are not null and whose ratio and distance can be converted, and
    whose chart patterns are absent (or falsy) or an array without a null
    entry. So one null among the key levels or among the chart patterns
    makes the whole run throw, so does one key level whose ratio or
    distance is an object with a member named toString (or an array that
    holds one), and so does a list that is no array (a string, an object,
    a number, true); a rejected request is thrown on unchanged. *)
Theorem run_returns_exactly_when_well_formed (post : Post) (now : Z)
    (symbol : jstring) :
  match post (js "/analysis/" ++ symbol) request_body with
  | Normal backendData =>
      ((exists r, getComprehensiveAnalysis post now symbol = Normal r)
       <-> well_formed backendData = true)
      /\ (forall items, key_levels backendData = JArr items ->
            In JNull items ->
            exists e, getComprehensiveAnalysis post now symbol = Throw e)
      /\ (forall items, chart_patterns backendData = JArr items ->
            In JNull items ->
            exists e, getComprehensiveAnalysis post now symbol = Throw e)
      /\ (forall items lv, key_levels backendData = JArr items ->
            In lv items ->
            no_primitive (prop lv (js "ratio")) = true
            \/ no_primitive (prop lv (js "distance_percent")) = true ->
            exists e, getComprehensiveAnalysis post now symbol = Throw e)
      /\ ((forall items, key_levels backendData <> JArr items)
          \/ (forall items, chart_patterns backendData <> JArr items) ->
          exists e, getComprehensiveAnalysis post now symbol = Throw e)
  | Throw e => getComprehensiveAnalysis post now symbol = Throw e
  end.
Proof.
  destruct (post (js "/analysis/" ++ symbol) request_body) as [backendData|e] eqn:Hp.
  - assert (Hiff : (exists r, getComprehensiveAnalysis post now symbol = Normal r)
                   <-> well_formed backendData = true).
    { split.
      - intros [r Hr]. apply getComprehensiveAnalysis_returns in Hr.
        destruct Hr as [d [Hd [Hwf _]]]. rewrite Hp in Hd. now injection Hd as <-.
      - intros Hwf. eexists.
        exact (getComprehensiveAnalysis_well_formed post now symbol _ Hp Hwf). }
    assert (Hthrow : well_formed backendData = false ->
                     exists e, getComprehensiveAnalysis post now symbol = Throw e).
    { intros Hwf. destruct (getComprehensiveAnalysis post now symbol) as [r|e] eqn:Hr;
        [|eauto].
      assert (Ht : well_formed backendData = true) by (apply Hiff; eauto).
      congruence. }
    split; [exact Hiff|].
    split; [|split; [|split]].
    + intros items Hv Hin. apply Hthrow. unfold well_formed.
      rewrite Hv, (array_all_fails level_accepted items JNull Hin eq_refl).
      now rewrite andb_false_r.
    + intros items Hv Hin. apply Hthrow. unfold well_formed, array_of_non_null.
      rewrite Hv, (array_all_fails non_null items JNull Hin eq_refl).
      now rewrite andb_false_r.
    + intros items lv Hv Hin Hno. apply Hthrow. unfold well_formed.
      rewrite Hv, (array_all_fails level_accepted items lv Hin (level_not_accepted lv Hno)).
      now rewrite andb_false_r.
    + intros [Hv|Hv]; apply Hthrow; unfold well_formed, array_of_non_null.
      * destruct (key_levels backendData) as [| | | | |items|];
          try (cbn [array_all]; now rewrite ?andb_false_r).
        now destruct (Hv items).
      * destruct (chart_patterns backendData) as [| | | | |items|];
          try (cbn [array_all]; now rewrite ?andb_false_r).
        now destruct (Hv items).
  - unfold getComprehensiveAnalysis. now rewrite Hp.
Qed.

(** X24. No label of a returned result is ever empty: every active
    pattern has a truthy id, name, type and expected direction (the
    defaults stand in for absent or empty ones), the analysis focus is
    truthy, the symbol is the one asked for, and the price of every
    retracement level is a truthy value or the number 0. *)
Theorem labels_are_never_empty (post : Post) (now : Z) (symbol : jstring)
    (r : ComprehensiveAnalysis) :
  getComprehensiveAnalysis post now symbol = Normal r ->
  Forall (fun p => truthy (pattern_id p) = true
                   /\ truthy (pattern_name p) = true
                   /\ truthy (pattern_type p) = true
                   /\ truthy (expected_direction p) = true)
    (active_patterns r)
  /\ truthy (analysis_focus (analysis_summary r)) = true
  /\ stock_symbol (analysis_summary r) = symbol
  /\ Forall (fun l => truthy (price l) = true \/ price l = zero)
       (retracement_levels (fibonacci_retracements (fibonacci_analysis r))).
Proof.
  intros H. apply getComprehensiveAnalysis_returns in H.
  destruct H as [backendData [_ [_ ->]]].
  cbn [assemble active_patterns analysis_summary analysis_focus stock_symbol
         fibonacci_analysis fibonacci_retracements retracement_levels].
  split; [|split; [|split]].
  - apply Forall_forall. intros p Hin. apply in_map_iff in Hin as [x [<- _]].
    cbn [pattern_of pattern_id pattern_name pattern_type expected_direction].
    repeat split; apply js_or_truthy; reflexivity.
  - apply js_or_truthy. reflexivity.
  - reflexivity.
  - apply Forall_forall. intros l Hin. apply in_map_iff in Hin as [x [<- _]].
    cbn [level_of price]. unfold js_or.
    destruct (truthy (prop x (js "price"))) eqn:Ht; [left; exact Ht|right; reflexivity].
Qed.

Lemma labels_are_never_empty_witness :
  exists r,
    getComprehensiveAnalysis sample_post 0 (js "TCS") = Normal r
    /\ stock_symbol (analysis_summary r) = js "TCS".
Proof.
  eexists. split;
    [apply (getComprehensiveAnalysis_well_formed sample_post); reflexivity|].
  apply (labels_are_never_empty sample_post 0 (js "TCS")).
  apply (getComprehensiveAnalysis_well_formed sample_post); reflexivity.
Defined.

Lemma significance_cases (l : FibonacciLevel) :
  (significance l = js "Critical Level" <-> lt (distance_percent l) (Fin 2) = true)
  /\ (significance l = js "Reference Level"
      <-> lt (distance_percent l) (Fin 2) = false
          /\ lt (distance_percent l) (Fin 5) = false).
Proof.
  unfold significance.
  destruct (lt (distance_percent l) (Fin 2));
    [|destruct (lt (distance_percent l) (Fin 5))]; split; split;
    try reflexivity; try discriminate; try (intros [? ?]; discriminate);
    try (split; reflexivity).
Qed.

(** X25. The page ranks a retracement level by the size of the distance
    the backend reported, not by its sign: a level that many percent below
    the price reads as a level that many percent above it, Critical Level
    exactly when the absolute distance is below 2 and Reference Level
    exactly when it is 5 or more; a level whose distance is absent reads
    Critical Level. *)
Theorem significance_ignores_the_sign (lv : JsVal) (l : FibonacciLevel) :
  retracement_level lv = Normal l ->
  (prop lv (js "distance_percent") = JUndefined ->
   significance l = js "Critical Level")
  /\ (forall q, prop lv (js "distance_percent") = JNum (Fin q) ->
        (significance l = js "Critical Level" <-> (Qabs q < 2)%Q)
        /\ (significance l = js "Reference Level" <-> (5 <= Qabs q)%Q)).
Proof.
  intros H. pose proof (retracement_level_returns _ _ H) as Hn.
  rewrite (retracement_level_accepted lv Hn) in H. injection H as <-.
  destruct (significance_cases (level_of lv)) as [Hc Hr].
  destruct (level_of_distance lv) as [_ [_ [_ [H0 [Hv _]]]]].
  split.
  - intros Ha. apply Hc. rewrite H0; [reflexivity|now rewrite Ha].
  - intros q Hq.
    destruct (Hv q Hq) as [q' [Hd Hq']].
    rewrite Hc, Hr, Hd. cbn [lt]. rewrite <- Hq'. split.
    + rewrite negb_true_iff. split.
      * intros Hb. apply Qnot_le_lt. intros Hle.
        apply Qle_bool_iff in Hle. congruence.
      * intros Hlt. destruct (Qle_bool 2 q') eqn:E; [|reflexivity].
        apply Qle_bool_iff in E. exfalso. exact (Qlt_not_le _ _ Hlt E).
    + rewrite !negb_false_iff. split.
      * intros [_ H5]. now apply Qle_bool_iff.
      * intros H5. split; apply Qle_bool_iff; [|exact H5].
        apply Qle_trans with 5%Q; [discriminate|exact H5].
Qed.

Lemma significance_ignores_the_sign_witness :
  retracement_level (sample_level (1 # 2) 150 (- (3 # 2)))
  = Normal (level_of (sample_level (1 # 2) 150 (- (3 # 2))))
  /\ significance (level_of (sample_level (1 # 2) 150 (- (3 # 2))))
     = js "Critical Level".
Proof.
  split; [reflexivity|].
  destruct (significance_ignores_the_sign
              (sample_level (1 # 2) 150 (- (3 # 2)))
              (level_of (sample_level (1 # 2) 150 (- (3 # 2)))) eq_refl)
    as [_ H].
  destruct (H (- (3 # 2))%Q eq_refl) as [[_ Hc] _].
  apply Hc. reflexivity.
Defined.

(* ------------------------------------------------------------------ *)
(** ** The pages around the auth store *)

Section AuthPagesProperties.

Variable persisted : Auth.State -> jstring.

(** X26. The callback page ends on /dashboard or on /. It ends on
    /dashboard exactly when the URL carries no error, carries a request
    token, and the callback request succeeds; the guard of the dashboard
    then lets it render, since the state is authenticated and not
    loading. In every other case it ends on / with an error toast. *)
Theorem AuthCallback_lands_authenticated (srv : AuthAPI.Server)
    (requestToken errorParam : option jstring) (w : Auth.World) :
  let r := AuthCallback persisted srv requestToken errorParam w in
  (location (Auth.browser (fst r)) = js "/dashboard"
   <-> Auth.present errorParam = false
       /\ exists tok response,
            requestToken = Some tok /\ tok <> []
            /\ AuthAPI.handleCallback srv tok = Axios.Resolved response)
  /\ (location (Auth.browser (fst r)) = js "/dashboard" ->
      AuthGuard (Auth.state (fst r)) = Children
      /\ snd r = ToastSuccess (js "Successfully authenticated!"))
  /\ (location (Auth.browser (fst r)) <> js "/dashboard" ->
      location (Auth.browser (fst r)) = js "/"
      /\ exists text, snd r = ToastError text).
Proof.
  intros r. subst r. unfold AuthCallback.
  destruct errorParam as [[|c t]|]; cbn [Auth.present].
  2:{ cbn [fst snd Auth.with_location Auth.browser location].
      split; [split; [discriminate|intros [H _]; discriminate H]|].
      split; [discriminate|]. intros _. split; [reflexivity|eauto]. }
  all: destruct requestToken as [[|c t]|];
    try (cbn [fst snd Auth.with_location Auth.browser location];
         split; [split; [discriminate
                        |intros [_ [tok [resp [Ht [Hne _]]]]];
                         try discriminate Ht; injection Ht as <-; contradiction]|];
         split; [discriminate|]; intros _; split; [reflexivity|eauto]).
  all: unfold Auth.handleCallback;
    destruct (AuthAPI.handleCallback srv (c :: t)) as [response|e] eqn:Hr;
    cbn [Auth.request fst snd Auth.with_location Auth.browser location].
  all: try (split; [split; [intros _; split; [reflexivity|];
                            exists (c :: t), response;
                            split; [reflexivity|]; split; [discriminate|exact Hr]
                           |reflexivity]|];
            split; [intros _; split; reflexivity|];
            intros H; exfalso; apply H; reflexivity).
  all: split; [split; [discriminate
                      |intros [_ [tok [resp [Ht [_ Hres]]]]];
                       injection Ht as <-; rewrite Hr in Hres; discriminate Hres]|];
    split; [discriminate|]; intros _; split; [reflexivity|eauto].
Qed.

(** X27. A 401 on any request of the auth flows removes both tokens from
    the storage and sends the page to /, but leaves the auth state as it
    was: a state that was authenticated stays authenticated, the guard
    renders what it rendered, and initializeAuth, finding no token,
    sends nothing and changes nothing. *)
Theorem unauthorized_leaves_state_untouched {A : Type} (endpoint : string)
    (e : Axios.Error) (resp : Axios.Response) (srv : AuthAPI.Server)
    (now1 now2 : Z) (w : Auth.World) :
  Axios.response e = Some resp ->
  Axios.status resp = 401%Z ->
  let w' := fst (Auth.request (A := A) endpoint (Axios.Rejected e) w) in
  Auth.state w' = Auth.state w
  /\ AuthGuard (Auth.state w') = AuthGuard (Auth.state w)
  /\ getAccessToken (storage (Auth.browser w')) = None
  /\ getRefreshToken (storage (Auth.browser w')) = None
  /\ location (Auth.browser w') = js "/"
  /\ Auth.initializeAuth persisted srv now1 now2 w' = w'.
Proof.
  intros Hr Hs w'. subst w'. cbn [Auth.request fst Auth.state].
  destruct (unauthorized_clears_tokens_holds e (Auth.browser w))
    as [_ [H401 _]].
  destruct (H401 resp Hr Hs) as [Ha [Hrf [Hl _]]].
  split; [reflexivity|]. split; [reflexivity|].
  cbn [Auth.browser Auth.calls Auth.state].
  split; [exact Ha|]. split; [exact Hrf|]. split; [exact Hl|].
  unfold Auth.initializeAuth. cbn [Auth.browser]. now rewrite Ha.
Qed.

End AuthPagesProperties.

Lemma unauthorized_leaves_state_untouched_witness :
  Axios.status {| Axios.status := 401; Axios.data := JNull |} = 401%Z
  /\ getAccessToken
       (storage (Auth.browser
          (fst (Auth.request (A := JsVal) "/auth/me"
                  (Axios.Rejected
                     {| Axios.response := Some {| Axios.status := 401;
                                                  Axios.data := JNull |};
                        Axios.code := None;
                        Axios.message := js "Request failed with status code 401" |})
                  sample_session)))) = None.
Proof.
  split; [reflexivity|].
  apply (unauthorized_leaves_state_untouched (A := JsVal) (fun _ => js "{}") "/auth/me"
           {| Axios.response := Some {| Axios.status := 401; Axios.data := JNull |};
              Axios.code := None;
              Axios.message := js "Request failed with status code 401" |}
           {| Axios.status := 401; Axios.data := JNull |}
           {| AuthAPI.initiateLogin := Axios.Resolved [];
              AuthAPI.handleCallback := fun _ => Axios.Resolved
                {| AuthAPI.access_token := []; AuthAPI.refresh_token := [];
                   AuthAPI.user := JNull |};
              AuthAPI.getCurrentUser := Axios.Resolved JNull;
              AuthAPI.refreshToken := fun _ => Axios.Resolved
                {| AuthAPI.access_token := []; AuthAPI.refresh_token := [];
                   AuthAPI.user := JNull |};
              AuthAPI.logout := Axios.Resolved JNull |}
           0 0 sample_session);
    reflexivity.
Defined.

(* ------------------------------------------------------------------ *)
(** ** The colour of a reliability score *)

Lemma ge_upward (a b c : Q) :
  (a <= b)%Q -> ge (Fin a) (Fin c) = true -> ge (Fin b) (Fin c) = true.
Proof.
  cbn [ge]. intros Hab H. apply Qle_bool_iff in H. apply Qle_bool_iff.
  now apply Qle_trans with a.
Qed.

(** X28. The colour of a reliability score never gets worse as the score
    grows: if a score is shown green every score above it is, and if a
    score is shown red every score below it is. A score the transform
    defaulted to 0 is shown red, and so is a score that is not a number. *)
Theorem reliability_colour_is_monotone (a b : Q) :
  (a <= b)%Q ->
  (getReliabilityColor (JNum (Fin a))
   = Normal (js "text-green-600 bg-green-50 border-green-200") ->
   getReliabilityColor (JNum (Fin b))
   = Normal (js "text-green-600 bg-green-50 border-green-200"))
  /\ (getReliabilityColor (JNum (Fin b))
      = Normal (js "text-red-600 bg-red-50 border-red-200") ->
      getReliabilityColor (JNum (Fin a))
      = Normal (js "text-red-600 bg-red-50 border-red-200"))
  /\ getReliabilityColor (JUndefined || zero)%js
     = Normal (js "text-red-600 bg-red-50 border-red-200")
  /\ getReliabilityColor (JNum NaN)
     = Normal (js "text-red-600 bg-red-50 border-red-200").
Proof.
  intros Hab.
  assert (H8 : exists c, round64 (8 # 10) = Fin c) by (eexists; vm_compute; reflexivity).
  assert (H6 : exists c, round64 (6 # 10) = Fin c) by (eexists; vm_compute; reflexivity).
  destruct H8 as [c8 H8]. destruct H6 as [c6 H6].
  split; [|split; [|split; vm_compute; reflexivity]].
  - unfold getReliabilityColor, ToNumber.
    cbn [no_primitive number_value bind]. rewrite H8, H6.
    destruct (ge (Fin a) (Fin c8)) eqn:Ha.
    + now rewrite (ge_upward a b c8 Hab Ha).
    + destruct (ge (Fin a) (Fin c6)); discriminate.
  - unfold getReliabilityColor, ToNumber.
    cbn [no_primitive number_value bind]. rewrite H8, H6.
    destruct (ge (Fin b) (Fin c8)) eqn:Hb8; [discriminate|].
    destruct (ge (Fin b) (Fin c6)) eqn:Hb6; [discriminate|]. intros _.
    destruct (ge (Fin a) (Fin c8)) eqn:Ha8;
      [rewrite (ge_upward a b c8 Hab Ha8) in Hb8; discriminate|].
    destruct (ge (Fin a) (Fin c6)) eqn:Ha6;
      [rewrite (ge_upward a b c6 Hab Ha6) in Hb6; discriminate|].
    reflexivity.
Qed.

Lemma reliability_colour_is_monotone_witness :
  (85 # 100 <= 9 # 10)%Q
  /\ getReliabilityColor (JNum (Fin (9 # 10)))
     = Normal (js "text-green-600 bg-green-50 border-green-200").
Proof.
  split; [discriminate|].
  apply (reliability_colour_is_monotone (85 # 100) (9 # 10));
    [discriminate|vm_compute; reflexivity].
Defined.
